(** * globdata: loading gridded nc4 datasets into flat tables

    A shallow embedding of [globdata.py] (classes [DataSet] and
    [DataLoader]) together with the small part of numpy, netCDF4 and pandas
    that the two classes call, followed by the properties of the loader,
    of its two queries and of its cache.

    A number is given by its value, an IEEE binary64 number ([float]):
    the Python floats are these, and so are, exactly, the numbers of a
    float32 array and the integers of magnitude up to 2^53; an integer
    beyond has no such value and is outside the model. Comparisons are the
    floating point ones, so that a NaN never matches. An array has a
    dtype, and a comparison of a column with a Python number is made in
    the dtype of the column. *)

From Stdlib Require Import Floats.
From stdpp Require Import gmap strings list.

Open Scope string_scope.
Open Scope list_scope.

#[global] Arguments String.eqb : simpl never.

(** ** Python values, exceptions and observable effects *)

(** A cell of a table: a number or a string (the [FileName] column). *)
Inductive value :=
| Num (x : float)
| Str (s : string).

Inductive exn :=
| NameError (msg : string)
| KeyError (key : string)
| IndexError (msg : string)
| AttributeError (msg : string)
| ValueError (msg : string)
| TypeError (msg : string)
| NotImplementedError (msg : string).

(** What a run does besides computing: opening and closing a file of the
    disc, and printing a line. *)
Inductive event :=
| EvOpen (filename : string)
| EvClose (filename : string)
| EvPrint (msg : string).

(** A computation that prints, opens files and may raise: the events it
    produced (also when it raised) and its outcome. *)
Definition io (A : Type) : Type := list event * (exn + A).

Definition io_ret {A} (a : A) : io A := ([], inr a).
Definition raise {A} (e : exn) : io A := ([], inl e).
Definition emit (ev : event) : io unit := ([ev], inr tt).
Definition print (msg : string) : io unit := emit (EvPrint msg).

Definition io_bind {A B} (k : A → io B) (m : io A) : io B :=
  match m with
  | (tr, inl e) => (tr, inl e)
  | (tr, inr a) => let '(tr', r) := k a in (tr ++ tr', r)
  end.

#[global] Instance io_mret : MRet io := @io_ret.
#[global] Instance io_mbind : MBind io := @io_bind.

(** [for x in l: acc = body(acc, x)] *)
Fixpoint io_fold {A B} (body : B → A → io B) (acc : B) (l : list A) : io B :=
  match l with
  | [] => mret acc
  | x :: l' => acc' ← body acc x; io_fold body acc' l'
  end.

(** ** Python dictionaries with string keys, in insertion order *)

Definition pydict (V : Type) : Type := list (string * V).

(** [d[k] = v]: an existing key keeps its place. *)
Fixpoint dict_set {V} (k : string) (v : V) (d : pydict V) : pydict V :=
  match d with
  | [] => [(k, v)]
  | (k', v') :: d' =>
      if String.eqb k' k then (k', v) :: d' else (k', v') :: dict_set k v d'
  end.

Fixpoint dict_get {V} (k : string) (d : pydict V) : option V :=
  match d with
  | [] => None
  | (k', v) :: d' => if String.eqb k' k then Some v else dict_get k d'
  end.

Definition dict_keys {V} (d : pydict V) : list string := map fst d.

Definition str_in (k : string) (l : list string) : bool :=
  existsb (String.eqb k) l.

#[global] Arguments str_in : simpl never.

(** ** numpy arrays *)

Module Numpy.

(** The dtypes of the arrays of a file: the two floating point types of
    netCDF, and its integer types, whose numbers compare by their
    values. *)
Inductive dtype := Float64 | Float32 | Integer.

(** [np.float32(x)]: the binary32 number nearest to [x], ties to even,
    an infinity beyond the largest one; given, as every number, by its
    value. *)
Definition float32_of (x : float) : float :=
  match Prim2SF x with
  | S754_finite s m e => SF2Prim (SpecFloat.binary_round 24 128 s m e)
  | _ => x
  end.

(** The Python number [x] in a comparison with an array of dtype [dt]:
    numpy converts the number to the dtype of the array when that is a
    floating point type, and compares an array of integers with it by
    value. *)
Definition as_dtype (dt : dtype) (x : float) : float :=
  match dt with
  | Float32 => float32_of x
  | Float64 | Integer => x
  end.

#[warnings="-register-all"]
Inductive ndarray :=
| Scalar (x : float)
| Array (items : list ndarray).

(** [a.flatten()]: the elements in row-major (C) order. *)
Fixpoint flatten (a : ndarray) : list float :=
  match a with
  | Scalar x => [x]
  | Array items => flat_map flatten items
  end.

Definition scalar_of (a : ndarray) : option float :=
  match a with
  | Scalar x => Some x
  | Array _ => None
  end.

(** Iterating an array as a level of an index: a one-dimensional array
    gives its elements; a zero-dimensional one is not list-like and a
    deeper one is refused by pandas. *)
Definition iter_1d (a : ndarray) : io (list float) :=
  match a with
  | Scalar _ => raise (TypeError "Input must be list-like")
  | Array items =>
      match mapM scalar_of items with
      | Some xs => mret xs
      | None => raise (NotImplementedError "> 1 ndim Categorical are not supported at this time")
      end
  end.

End Numpy.

(** ** netCDF4 datasets *)

Module NetCDF.
Import Numpy.

Record Dimension := { dim_name : string; dim_size : nat }.

(** A variable of a file; [long_name] is an optional attribute, and
    [var_dtype] the dtype of the array [var[:].data] of its values. *)
Record Variable_ := {
  var_name : string;
  long_name : option string;
  var_dtype : dtype;
  data : ndarray
}.

Record Dataset := {
  dimensions : list Dimension;
  variables : list Variable_
}.

(** The disc: the files [nc.Dataset] can open. A name that is absent
    stands for every way opening raises IOError. *)
Definition filesystem : Type := string → option Dataset.

(** [ds[name]] *)
Definition getitem (ds : Dataset) (name : string) : io Variable_ :=
  match List.find (λ v, String.eqb (var_name v) name) (variables ds) with
  | Some v => mret v
  | None => raise (IndexError (String.append name " not found in /"))
  end.

(** [var.long_name] *)
Definition get_long_name (v : Variable_) : io string :=
  match long_name v with
  | Some s => mret s
  | None => raise (AttributeError "long_name")
  end.

End NetCDF.

(** ** pandas tables *)

Module Pandas.

(** A table: its column labels and its rows, each with its index label
    and one cell per column. *)
Record DataFrame := {
  columns : list string;
  rows : list (nat * list value)
}.

(** [pd.DataFrame()] *)
Definition empty_frame : DataFrame := {| columns := []; rows := [] |}.

(** A column with the index labels of its rows. *)
Definition Series (A : Type) : Type := list (nat * A).

(** [pd.MultiIndex.from_product([a, b, c])]: the last level varies
    fastest. *)
Definition from_product (a b c : list float) : list (float * float * float) :=
  flat_map (λ x, flat_map (λ y, map (λ z, (x, y, z)) c) b) a.

(** A table that is still indexed by (time, lat, lon), as
    [pd.DataFrame(index=multi_index)] and the assignments of columns
    leave it. *)
Record IndexedFrame := {
  multi_index : list (float * float * float);
  value_columns : pydict (list float)
}.

(** [pd.Series(fl, index=multi_index)] *)
Definition new_series (fl : list float) (index : list (float * float * float))
  : io (list float) :=
  if Nat.eqb (length fl) (length index) then mret fl
  else raise (ValueError "Length of values does not match length of index").

(** [df[k] = s], for a series on the index of the table. *)
Definition set_series (df : IndexedFrame) (k : string) (s : list float) : IndexedFrame :=
  {| multi_index := multi_index df;
     value_columns := dict_set k s (value_columns df) |}.

Definition nan_cell : value := Num nan.

(** [df.reset_index()]: the levels become the first columns, last level
    inserted first, and the rows are numbered from 0. *)
Definition reset_index (df : IndexedFrame) : io DataFrame :=
  let keys := dict_keys (value_columns df) in
  if str_in "lon" keys then raise (ValueError "cannot insert lon, already exists")
  else if str_in "lat" keys then raise (ValueError "cannot insert lat, already exists")
  else if str_in "time" keys then raise (ValueError "cannot insert time, already exists")
  else
    mret {| columns := "time" :: "lat" :: "lon" :: keys;
            rows := imap (λ i '(t, la, lo),
                      (i, Num t :: Num la :: Num lo
                          :: map (λ c, Num (nth i (snd c) nan)) (value_columns df)))
                      (multi_index df) |}.

(** The position of the first column with a label. *)
Fixpoint column_pos (name : string) (cols : list string) : option nat :=
  match cols with
  | [] => None
  | c :: cols' =>
      if String.eqb c name then Some 0 else S <$> column_pos name cols'
  end.

Definition cell (pos : nat) (r : nat * list value) : value :=
  nth pos (snd r) nan_cell.

(** [df.loc[:, name]] and [df[name]] *)
Definition get_column (df : DataFrame) (name : string) : io (Series value) :=
  match column_pos name (columns df) with
  | Some pos => mret (map (λ r, (fst r, cell pos r)) (rows df))
  | None => raise (KeyError name)
  end.

(** Comparisons of a cell of a column with a number that the dtype of
    the column has, by their values; [Numpy.as_dtype] gives the number a
    Python number is in a dtype. The columns that are compared (time, lat,
    lon) hold numbers only; a string, which pandas would refuse to order,
    satisfies none of them. *)
Definition py_eq (v : value) (x : float) : bool :=
  match v with Num y => PrimFloat.eqb y x | Str _ => false end.
Definition py_le (v : value) (x : float) : bool :=
  match v with Num y => PrimFloat.leb y x | Str _ => false end.
Definition py_ge (v : value) (x : float) : bool :=
  match v with Num y => PrimFloat.leb x y | Str _ => false end.

(** [s == x], [s <= x], [s >= x] *)
Definition series_cmp (cmp : value → float → bool) (s : Series value) (x : float)
  : Series bool :=
  map (λ '(i, v), (i, cmp v x)) s.

(** The value of a boolean series at a label. pandas aligns a mask with
    the table by the labels; the masks of this module are computed on the
    table they select from or on a table it was selected from, so the
    label is always there. *)
Fixpoint mask_at (label : nat) (mask : Series bool) : bool :=
  match mask with
  | [] => false
  | (i, b) :: mask' => if Nat.eqb i label then b else mask_at label mask'
  end.

(** [df.loc[mask]]: the rows whose label the mask marks. *)
Definition loc (df : DataFrame) (mask : Series bool) : DataFrame :=
  {| columns := columns df;
     rows := List.filter (λ r, mask_at (fst r) mask) (rows df) |}.

(** [df[names]]: the named columns, in the order asked. *)
Fixpoint positions (names cols : list string) : io (list nat) :=
  match names with
  | [] => mret []
  | n :: names' =>
      match column_pos n cols with
      | Some p => ps ← positions names' cols; mret (p :: ps)
      | None => raise (KeyError n)
      end
  end.

Definition select_columns (df : DataFrame) (names : list string) : io DataFrame :=
  ps ← positions names (columns df);
  mret {| columns := names;
          rows := map (λ r, (fst r, map (λ p, cell p r) ps)) (rows df) |}.

(** [s.tolist()] *)
Definition tolist {A} (s : Series A) : list A := map snd s.

(** [df[name] = v], for a scalar. *)
Definition set_scalar (df : DataFrame) (name : string) (v : value) : DataFrame :=
  match column_pos name (columns df) with
  | Some p =>
      {| columns := columns df;
         rows := map (λ r, (fst r, <[p := v]> (snd r))) (rows df) |}
  | None =>
      {| columns := columns df ++ [name];
         rows := map (λ r, (fst r, snd r ++ [v])) (rows df) |}
  end.

(** A row of a table with columns [own], on the columns [cols]. *)
Definition realign (cols own : list string) (r : nat * list value) : nat * list value :=
  if decide (cols = own) then r
  else (fst r, map (λ c, match column_pos c own with
                         | Some p => cell p r
                         | None => nan_cell
                         end) cols).

(** [pd.concat([df1, df2])]: the columns of both, in order of first
    appearance; the rows of [df1], then those of [df2], a missing cell
    being NaN. *)
Definition concat (df1 df2 : DataFrame) : DataFrame :=
  let cols := columns df1
              ++ List.filter (λ c, negb (str_in c (columns df1))) (columns df2) in
  {| columns := cols;
     rows := map (realign cols (columns df1)) (rows df1)
             ++ map (realign cols (columns df2)) (rows df2) |}.

(** [df.to_numpy()] *)
Definition to_numpy (df : DataFrame) : list (list value) := map snd (rows df).

End Pandas.

(** ** Python sets of cells

    A set is the list of its elements; only membership is ever asked of
    it. *)

Definition value_eqb (v w : value) : bool :=
  match v, w with
  | Num x, Num y => PrimFloat.eqb x y
  | Str s, Str t => String.eqb s t
  | _, _ => false
  end.

(** [v in s]: an element of the set is compared with [v]. *)
Definition set_mem (v : value) (s : list value) : bool :=
  existsb (λ w, value_eqb w v) s.

(** [set(l)]: one element for each class of equal elements, here the
    last of the list. *)
Fixpoint set_of_list (l : list value) : list value :=
  match l with
  | [] => []
  | v :: l' => let s := set_of_list l' in if set_mem v s then s else v :: s
  end.

(** ** class DataSet *)

Module DataSet.
Import Numpy NetCDF Pandas.

(** The attributes of a dataset. pandas keeps a dtype with every column
    of [df]; [time_dtype] is the one of the column time, in which
    [time_slice] compares. *)
Record t := {
  _dim_dict : pydict nat;
  _var_dict : pydict string;
  df : option DataFrame;
  time_dtype : dtype;
  _lat_set : list value;
  _lon_set : list value
}.

(** [nc.Dataset(filename)] inside the [try] of the constructor. *)
Definition open_dataset (fs : filesystem) (filename : string) : io Dataset :=
  emit (EvOpen filename);;
  match fs filename with
  | Some ds => mret ds
  | None =>
      print "File was not found or other IO error";;
      raise (NameError "IOError")
  end.

(** The long names that are left out of the table. *)
Definition axis_long_names : list string := ["longitude"; "latitude"; "time"].

Definition _convert2dataframe (var_dict : pydict string) (ds : Dataset) : io DataFrame :=
  lon_var ← getitem ds "lon";
  lat_var ← getitem ds "lat";
  time_var ← getitem ds "time";
  time_array ← iter_1d (data time_var);
  lat_array ← iter_1d (data lat_var);
  lon_array ← iter_1d (data lon_var);
  let index := from_product time_array lat_array lon_array in
  frame ← io_fold (λ frame k,
              if str_in k axis_long_names then mret frame
              else
                match dict_get k var_dict with
                | None => raise (KeyError k)
                | Some short =>
                    v ← getitem ds short;
                    s ← new_series (flatten (data v)) index;
                    mret (set_series frame k s)
                end)
            {| multi_index := index; value_columns := [] |}
            (dict_keys var_dict);
  reset_index frame.

(** The values of a column that lie between two bounds, as a set. *)
Definition coords_in_range (dfl : DataFrame) (name : string) (lo hi : float)
  : io (list value) :=
  below ← get_column dfl name;
  let dfl1 := loc dfl (series_cmp py_le below hi) in
  above ← get_column dfl name;
  let dfl2 := loc dfl1 (series_cmp py_ge above lo) in
  col ← get_column dfl2 name;
  mret (set_of_list (tolist col)).

(** The four bounds are integers that every dtype holds as they are, so
    that the comparisons with them are those of the values. *)
Definition _create_coords (dfl : DataFrame) : io (list value * list value) :=
  lat_set ← coords_in_range dfl "lat" (-90) 90;
  lon_set ← coords_in_range dfl "lon" (-180) 180;
  mret (lat_set, lon_set).

(** The dtype of the column time of the table of a file: the level of
    the index has the dtype of the array [ds['time'][:].data] it is made
    of, and [reset_index] makes the column of the level. *)
Definition index_time_dtype (ds : Dataset) : dtype :=
  match List.find (λ v, String.eqb (var_name v) "time") (variables ds) with
  | Some time_var => var_dtype time_var
  | None => Float64
  end.

Definition __init__ (fs : filesystem) (filename : string) : io t :=
  ds ← open_dataset fs filename;
  let dim_dict :=
    fold_left (λ d dim, dict_set (dim_name dim) (dim_size dim) d) (dimensions ds) [] in
  var_dict ← io_fold (λ d var,
                 long ← get_long_name var;
                 mret (dict_set long (var_name var) d))
               [] (variables ds);
  dfl ← _convert2dataframe var_dict ds;
  emit (EvClose filename);;
  sets ← _create_coords dfl;
  mret {| _dim_dict := dim_dict; _var_dict := var_dict; df := Some dfl;
          time_dtype := index_time_dtype ds;
          _lat_set := fst sets; _lon_set := snd sets |}.

Definition get_dim_dict (self : t) : pydict nat := _dim_dict self.
Definition get_var_dict (self : t) : pydict string := _var_dict self.
Definition get_coord_set (self : t) : list value * list value :=
  (_lat_set self, _lon_set self).

(** [self.df.loc]: a released table is [None]. *)
Definition the_frame (self : t) : io DataFrame :=
  match df self with
  | Some dfl => mret dfl
  | None => raise (AttributeError "'NoneType' object has no attribute 'loc'")
  end.

(** The two comparisons are made on coordinates that have passed the
    test of the sets, which hold the numbers of the columns: the
    conversion to the dtype of its column leaves such a number as it is,
    so that the comparisons are those of the values. *)
Definition coord_timeseries (self : t) (lat lon : float) (var_long : list string)
  : io DataFrame :=
  if set_mem (Num lon) (_lon_set self) && set_mem (Num lat) (_lat_set self) then
    dfl ← the_frame self;
    lats ← get_column dfl "lat";
    let dfl1 := loc dfl (series_cmp py_eq lats lat) in
    lons ← get_column dfl "lon";
    let dfl2 := loc dfl1 (series_cmp py_eq lons lon) in
    select_columns dfl2 ("time" :: var_long)
  else
    print "incorrect coordinates";;
    mret empty_frame.

(** [dfl.loc[:, 'time'] == time] compares in the dtype of the column:
    the time asked for, a Python int or float, is converted to it. *)
Definition time_slice (self : t) (time : float) (var_long : string) : io DataFrame :=
  dfl ← the_frame self;
  times ← get_column dfl "time";
  select_columns (loc dfl (series_cmp py_eq times (as_dtype (time_dtype self) time)))
    ["lat"; "lon"; var_long].

Definition release (self : t) : t :=
  {| _dim_dict := _dim_dict self; _var_dict := _var_dict self; df := None;
     time_dtype := time_dtype self;
     _lat_set := _lat_set self; _lon_set := _lon_set self |}.

End DataSet.

(** ** class DataLoader *)

Module DataLoader.
Import NetCDF Pandas.

(** A method of the loader: it reads and updates [self.ds_dict], the
    cache of the datasets by file name, which keeps its updates when the
    method raises. *)
Definition loader (A : Type) : Type :=
  gmap string DataSet.t → gmap string DataSet.t * io A.

Definition ld_ret {A} (a : A) : loader A := λ ds_dict, (ds_dict, mret a).

Definition ld_bind {A B} (k : A → loader B) (m : loader A) : loader B :=
  λ ds_dict,
    match m ds_dict with
    | (ds_dict', (tr, inl e)) => (ds_dict', (tr, inl e))
    | (ds_dict', (tr, inr a)) =>
        let '(ds_dict'', (tr', r)) := k a ds_dict' in (ds_dict'', (tr ++ tr', r))
    end.

#[global] Instance loader_mret : MRet loader := @ld_ret.
#[global] Instance loader_mbind : MBind loader := @ld_bind.

Definition lift {A} (m : io A) : loader A := λ ds_dict, (ds_dict, m).

(** [k in self.ds_dict.keys()] *)
Definition contains (k : string) : loader bool :=
  λ ds_dict, (ds_dict, mret (bool_decide (is_Some (ds_dict !! k)))).

(** [self.ds_dict[k]] *)
Definition lookup_dataset (k : string) : loader DataSet.t :=
  λ ds_dict,
    match ds_dict !! k with
    | Some ds => (ds_dict, mret ds)
    | None => (ds_dict, raise (KeyError k))
    end.

(** [del self.ds_dict[k]] *)
Definition delete_dataset (k : string) : loader unit :=
  λ ds_dict,
    match ds_dict !! k with
    | Some _ => (delete k ds_dict, mret tt)
    | None => (ds_dict, raise (KeyError k))
    end.

(** [__init__]: the cache starts empty. *)
Definition __init__ : gmap string DataSet.t := ∅.

(** The [try] stores the dataset; the bare [except] catches whatever
    the constructor raised and prints. *)
Definition _load_dataset (fs : filesystem) (file_name : string) : loader unit :=
  λ ds_dict,
    match DataSet.__init__ fs file_name with
    | (tr, inr ds) => (<[file_name := ds]> ds_dict, (tr, inr tt))
    | (tr, inl _) => (ds_dict, (tr ++ [EvPrint "Dataset was not opened"], inr tt))
    end.

(** [for x in l: acc = body(acc, x)] *)
Fixpoint ld_fold {A B} (body : B → A → loader B) (acc : B) (l : list A) : loader B :=
  match l with
  | [] => mret acc
  | x :: l' => acc' ← body acc x; ld_fold body acc' l'
  end.

(** What [time_series] returns: a table, or its cells as an array. *)
Inductive table :=
| Frame (res : DataFrame)
| NdArray (cells : list (list value)).

(** One turn of the loop of [time_series]. *)
Definition time_series_body (fs : filesystem) (lat lon : float)
    (var_long : list string) (cache : bool)
    (res_df : DataFrame) (current_file : string) : loader DataFrame :=
  cached ← contains current_file;
  (if negb cached then _load_dataset fs current_file else mret tt);;
  ds ← lookup_dataset current_file;
  curr_df ← lift (DataSet.coord_timeseries ds lat lon var_long);
  let res_df := concat res_df curr_df in
  (if negb cache then delete_dataset current_file else mret tt);;
  mret res_df.

Definition time_series (fs : filesystem) (files_list : list string)
    (lat lon : float) (var_long : list string) (cache as_numpy : bool)
  : loader table :=
  res_df ← ld_fold (time_series_body fs lat lon var_long cache) empty_frame files_list;
  if as_numpy then mret (NdArray (to_numpy res_df)) else mret (Frame res_df).

(** One turn of the loop of [time_slice_daily]. *)
Definition time_slice_daily_body (fs : filesystem) (time : float)
    (var_long : string) (cache : bool)
    (res_df : DataFrame) (current_file : string) : loader DataFrame :=
  cached ← contains current_file;
  (if negb cached then _load_dataset fs current_file else mret tt);;
  ds ← lookup_dataset current_file;
  curr_df ← lift (DataSet.time_slice ds time var_long);
  let curr_df := set_scalar curr_df "FileName" (Str current_file) in
  let res_df := concat res_df curr_df in
  (if negb cache then delete_dataset current_file else mret tt);;
  mret res_df.

Definition time_slice_daily (fs : filesystem) (files_list : list string)
    (time : float) (var_long : string) (cache : bool) : loader DataFrame :=
  ld_fold (time_slice_daily_body fs time var_long cache) empty_frame files_list.

End DataLoader.

(** ** Vocabulary of the statements *)

(** The place (i, j, k) of the element number [p] of a grid with [la]
    rows of [lo] elements in each plane ([numpy.unravel_index]). *)
Definition unravel (la lo p : nat) : nat * nat * nat :=
  (p / (la * lo), (p mod (la * lo)) / lo, p mod lo).

(** The number of the element at (i, j, k) ([numpy.ravel_multi_index]). *)
Definition ravel (la lo i j k : nat) : nat := i * (la * lo) + j * lo + k.


Module Spec.
Import Numpy NetCDF Pandas.

(** The values of a one-dimensional variable of a file. *)
Definition axis (nc : Dataset) (name : string) : option (list float) :=
  match List.find (λ v, String.eqb (var_name v) name) (variables nc) with
  | Some v =>
      match data v with
      | Array items => mapM scalar_of items
      | Scalar _ => None
      end
  | None => None
  end.

(** The long names of the variables that get a column: all but the
    three axes. *)
Definition data_keys (var_dict : pydict string) : list string :=
  List.filter (λ k, negb (str_in k DataSet.axis_long_names)) (dict_keys var_dict).

(** The variable a long name stands for. *)
Definition variable_of (nc : Dataset) (var_dict : pydict string) (k : string)
  : option Variable_ :=
  match dict_get k var_dict with
  | Some short => List.find (λ v, String.eqb (var_name v) short) (variables nc)
  | None => None
  end.

(** The grid of the variable with long name [k], flattened. *)
Definition grid_values (nc : Dataset) (var_dict : pydict string) (k : string)
  : list float :=
  match variable_of nc var_dict k with
  | Some v => flatten (data v)
  | None => []
  end.

(** The coordinates (time, lat, lon) of row number [p]. *)
Definition coords_at (times lats lons : list float) (p : nat) : float * float * float :=
  let '(i, j, k) := unravel (length lats) (length lons) p in
  (nth i times nan, nth j lats nan, nth k lons nan).

(** Row number [p] of the table of a grid: its place (i, j, k) in the
    product of the axes gives the coordinates, and every column holds
    element [p] of its flattened grid. *)
Definition flat_row (times lats lons : list float) (cols : list (list float))
    (p : nat) : nat * list value :=
  let '(i, j, k) := unravel (length lats) (length lons) p in
  (p, Num (nth i times nan) :: Num (nth j lats nan) :: Num (nth k lons nan)
      :: map (λ c, Num (nth p c nan)) cols).

Definition flat_table (times lats lons : list float) (cols : pydict (list float))
  : DataFrame :=
  {| columns := "time" :: "lat" :: "lon" :: dict_keys cols;
     rows := map (flat_row times lats lons (map snd cols))
               (seq 0 (length times * (length lats * length lons))) |}.

(** The columns of the table of the file [nc]. *)
Definition grid_columns (nc : Dataset) (var_dict : pydict string)
  : pydict (list float) :=
  map (λ k, (k, grid_values nc var_dict k)) (data_keys var_dict).

(** A three-dimensional array, from its planes of rows. *)
Definition grid3 (g : list (list (list float))) : ndarray :=
  Array (map (λ plane, Array (map (λ row, Array (map Scalar row)) plane)) g).

(** [g[i][j][k]] *)
Definition item3 (g : list (list (list float))) (i j k : nat) : float :=
  nth k (nth j (nth i g []) []) nan.

(** [g.shape == (n, la, lo)] *)
Definition has_shape (g : list (list (list float))) (n la lo : nat) : Prop :=
  length g = n ∧
  Forall (λ plane, length plane = la ∧ Forall (λ row, length row = lo) plane) g.

(** How often a value occurs on an axis, by [==]. *)
Definition occurrences (x : float) (l : list float) : nat :=
  length (List.filter (λ y, PrimFloat.eqb y x) l).

(** A row on the columns at the positions [ps]. *)
Definition restrict (ps : list nat) (r : nat * list value) : nat * list value :=
  (fst r, map (λ p, cell p r) ps).

(** The values of the column at [pos] that lie between [lo] and [hi],
    as a set. *)
Definition coord_set (pos : nat) (lo hi : float) (dfl : DataFrame) : list value :=
  set_of_list
    (map (cell pos)
       (List.filter (λ r, py_le (cell pos r) hi && py_ge (cell pos r) lo) (rows dfl))).

(** What the constructor makes of the file [nc] with the axes [times],
    [lats] and [lons]. *)
Record built_from (nc : Dataset) (times lats lons : list float) (self : DataSet.t)
  : Prop := {
  built_time : axis nc "time" = Some times;
  built_lat : axis nc "lat" = Some lats;
  built_lon : axis nc "lon" = Some lons;
  built_keys : NoDup (dict_keys (DataSet._var_dict self));
  built_vars :
    Forall (λ v, ∃ l, long_name v = Some l ∧ l ∈ dict_keys (DataSet._var_dict self))
      (variables nc);
  built_df :
    DataSet.df self
    = Some (flat_table times lats lons (grid_columns nc (DataSet._var_dict self)));
  built_lengths :
    Forall (λ k, length (grid_values nc (DataSet._var_dict self) k)
                 = length times * (length lats * length lons))
      (data_keys (DataSet._var_dict self));
  built_time_dtype : DataSet.time_dtype self = DataSet.index_time_dtype nc;
  built_no_lat : "lat" ∉ data_keys (DataSet._var_dict self);
  built_no_lon : "lon" ∉ data_keys (DataSet._var_dict self);
  built_lat_set :
    DataSet._lat_set self
    = coord_set 1 (-90) 90
        (flat_table times lats lons (grid_columns nc (DataSet._var_dict self)));
  built_lon_set :
    DataSet._lon_set self
    = coord_set 2 (-180) 180
        (flat_table times lats lons (grid_columns nc (DataSet._var_dict self)))
}.

End Spec.

(** ** Three small files *)

Module Example.
Import Numpy NetCDF Pandas.

Definition vector (l : list float) : ndarray := Array (map Scalar l).

Definition axes_variables (times lats lons : list float) : list Variable_ :=
  [ {| var_name := "lon"; long_name := Some "longitude"; var_dtype := Float64;
       data := vector lons |};
    {| var_name := "lat"; long_name := Some "latitude"; var_dtype := Float64;
       data := vector lats |};
    {| var_name := "time"; long_name := Some "time"; var_dtype := Float64;
       data := vector times |} ].

(** time = [0, 1], lat = [32.5, 35], lon = [35, 40] and one variable on
    the grid. *)
Definition day_file : Dataset :=
  {| dimensions := [ {| dim_name := "time"; dim_size := 2 |};
                     {| dim_name := "lat"; dim_size := 2 |};
                     {| dim_name := "lon"; dim_size := 2 |} ];
     variables :=
       axes_variables [0; 1]%float [32.5; 35]%float [35; 40]%float
       ++ [ {| var_name := "PRECTOT"; long_name := Some "total_precipitation";
               var_dtype := Float64;
               data := Spec.grid3 [ [ [1; 2]; [3; 4] ]; [ [5; 6]; [7; 8] ] ]%float |} ] |}.

(** The same time stamp twice. *)
Definition repeated_time_file : Dataset :=
  {| dimensions := [ {| dim_name := "time"; dim_size := 2 |};
                     {| dim_name := "lat"; dim_size := 1 |};
                     {| dim_name := "lon"; dim_size := 1 |} ];
     variables :=
       axes_variables [0; 0]%float [32.5]%float [35]%float
       ++ [ {| var_name := "PRECTOT"; long_name := Some "total_precipitation";
               var_dtype := Float64;
               data := Spec.grid3 [ [ [1] ]; [ [5] ] ]%float |} ] |}.

(** A file without dimensions and variables. *)
Definition empty_file : Dataset := {| dimensions := []; variables := [] |}.

(** A disc with the three files; no other name can be opened. *)
Definition disc : filesystem :=
  λ name,
    if String.eqb name "day.nc4" then Some day_file
    else if String.eqb name "repeated.nc4" then Some repeated_time_file
    else if String.eqb name "empty.nc4" then Some empty_file
    else None.

Definition unloaded : DataSet.t :=
  {| DataSet._dim_dict := []; DataSet._var_dict := []; DataSet.df := None;
     DataSet.time_dtype := Float64;
     DataSet._lat_set := []; DataSet._lon_set := [] |}.

Definition load (name : string) : DataSet.t :=
  match DataSet.__init__ disc name with
  | (_, inr self) => self
  | (_, inl _) => unloaded
  end.

(** The datasets of the two files. *)
Definition day : DataSet.t := Eval vm_compute in load "day.nc4".
Definition repeated : DataSet.t := Eval vm_compute in load "repeated.nc4".

(** A file whose time axis is a float32 array with the one stamp
    float32(0.1), the number 0x1.99999ap-4; the Python float 0.1 is the
    number 0x1.999999999999ap-4. *)
Definition float32_time_file : Dataset :=
  {| dimensions := [ {| dim_name := "time"; dim_size := 1 |};
                     {| dim_name := "lat"; dim_size := 1 |};
                     {| dim_name := "lon"; dim_size := 1 |} ];
     variables :=
       [ {| var_name := "lon"; long_name := Some "longitude"; var_dtype := Float64;
            data := vector [35]%float |};
         {| var_name := "lat"; long_name := Some "latitude"; var_dtype := Float64;
            data := vector [32.5]%float |};
         {| var_name := "time"; long_name := Some "time"; var_dtype := Float32;
            data := vector [0x1.99999ap-4]%float |};
         {| var_name := "PRECTOT"; long_name := Some "total_precipitation";
            var_dtype := Float32; data := Spec.grid3 [ [ [1] ] ]%float |} ] |}.

(** A file with two variables of one long name, and a variable on the
    grid whose long name is that of the time axis. *)
Definition shared_name_file : Dataset :=
  {| dimensions := [ {| dim_name := "time"; dim_size := 1 |};
                     {| dim_name := "lat"; dim_size := 1 |};
                     {| dim_name := "lon"; dim_size := 1 |} ];
     variables :=
       axes_variables [0]%float [32.5]%float [35]%float
       ++ [ {| var_name := "PRECTOT"; long_name := Some "precipitation";
               var_dtype := Float64; data := Spec.grid3 [ [ [1] ] ]%float |};
            {| var_name := "PRECCON"; long_name := Some "precipitation";
               var_dtype := Float64; data := Spec.grid3 [ [ [2] ] ]%float |};
            {| var_name := "TSTAMP"; long_name := Some "time";
               var_dtype := Float64; data := Spec.grid3 [ [ [3] ] ]%float |} ] |}.

(** A disc with these two files. *)
Definition more_disc : filesystem :=
  λ name,
    if String.eqb name "float32.nc4" then Some float32_time_file
    else if String.eqb name "shared.nc4" then Some shared_name_file
    else None.

Definition load_more (name : string) : DataSet.t :=
  match DataSet.__init__ more_disc name with
  | (_, inr self) => self
  | (_, inl _) => unloaded
  end.

Definition float32_time : DataSet.t := Eval vm_compute in load_more "float32.nc4".
Definition shared_name : DataSet.t := Eval vm_compute in load_more "shared.nc4".

End Example.

(** ** Vocabulary of the statements on the loader *)

Module LoaderSpec.
Import NetCDF Pandas DataLoader.

(** What [time_series] asks of the dataset of a file, and what
    [time_slice_daily] asks of it: the slice with the added column. *)
Definition series_query (lat lon : float) (var_long : list string)
    (current_file : string) (ds : DataSet.t) : io DataFrame :=
  DataSet.coord_timeseries ds lat lon var_long.

Definition slice_query (time : float) (var_long : string)
    (current_file : string) (ds : DataSet.t) : io DataFrame :=
  curr_df ← DataSet.time_slice ds time var_long;
  mret (set_scalar curr_df "FileName" (Str current_file)).

(** The end of a turn of either loop, once the dataset [ds] of the file
    is in the cache [ds_dict]: query, append, and forget the file when
    the call does not cache. *)
Definition answer (query : string → DataSet.t → io DataFrame) (cache : bool)
    (res_df : DataFrame) (current_file : string)
    (ds_dict : gmap string DataSet.t) (tr0 : list event) (ds : DataSet.t)
  : gmap string DataSet.t * io DataFrame :=
  match query current_file ds with
  | (tr, inl e) => (ds_dict, (tr0 ++ tr, inl e))
  | (tr, inr curr_df) =>
      (if cache then ds_dict else delete current_file ds_dict,
       (tr0 ++ tr, inr (concat res_df curr_df)))
  end.

(** A turn of either loop, by cases on the cache and on the outcome of
    the constructor. *)
Definition turn (fs : filesystem) (query : string → DataSet.t → io DataFrame)
    (cache : bool) (res_df : DataFrame) (current_file : string) : loader DataFrame :=
  λ ds_dict,
    match ds_dict !! current_file with
    | Some ds => answer query cache res_df current_file ds_dict [] ds
    | None =>
        match DataSet.__init__ fs current_file with
        | (tr0, inr ds) =>
            answer query cache res_df current_file (<[current_file := ds]> ds_dict) tr0 ds
        | (tr0, inl _) =>
            (ds_dict, (tr0 ++ [EvPrint "Dataset was not opened"],
                       inl (KeyError current_file)))
        end
    end.

(** The three parts of what a method of the loader leaves: the cache
    after the call, what the call did, and what it returned or raised. *)
Definition final_cache {A} (r : gmap string DataSet.t * io A) : gmap string DataSet.t :=
  fst r.
Definition trace {A} (r : gmap string DataSet.t * io A) : list event := fst (snd r).
Definition outcome {A} (r : gmap string DataSet.t * io A) : exn + A := snd (snd r).

(** How often a run opened the file [f]. *)
Definition opens (f : string) (tr : list event) : nat :=
  length (List.filter (λ ev, match ev with
                             | EvOpen g => String.eqb g f
                             | _ => false
                             end) tr).

(** A run that opened no file. *)
Definition quiet (tr : list event) : Prop := ∀ f, opens f tr = 0.

(** A table with the columns [cols], or the table [pd.DataFrame()]. *)
Definition shaped (cols : list string) (df : DataFrame) : Prop :=
  df = empty_frame ∨ columns df = cols.

(** The dataset the loader has for a file: the one of the cache, or the
    one the constructor makes of the file. *)
Definition dataset_for (fs : filesystem) (ds_dict : gmap string DataSet.t)
    (f : string) (ds : DataSet.t) : Prop :=
  ds_dict !! f = Some ds ∨ ∃ tr, DataSet.__init__ fs f = (tr, inr ds).

(** [parts] are the answers of the files of a list, one by one. *)
Definition answers (fs : filesystem) (query : string → DataSet.t → io DataFrame)
    (ds_dict : gmap string DataSet.t) (files : list string) (parts : list DataFrame)
  : Prop :=
  Forall2 (λ f part, ∃ ds tr, dataset_for fs ds_dict f ds ∧ query f ds = (tr, inr part))
    files parts.

End LoaderSpec.

(** ** processdata.py: the time series the script asks for *)

Module ProcessData.
Import NetCDF Pandas DataLoader.

Definition files_list_3 : list string :=
  ["MERRA2_400.tavg1_2d_flx_Nx.20220428.nc4";
   "MERRA2_400.tavg1_2d_flx_Nx.20220429.nc4";
   "MERRA2_400.tavg1_2d_flx_Nx.20220430.nc4"].

Definition files_list_1 : list string := ["MERRA2_400.tavg1_2d_flx_Nx.20220430.nc4"].

Definition vars_interest_list : list string :=
  ["evaporation_from_turbulence";
   "areal_fraction_of_anvil_showers";
   "areal_fraction_of_convective_showers";
   "areal_fraction_of_nonanvil_large_scale_showers";
   "sensible_heat_flux_from_turbulence"; "convective_precipitation";
   "total_precipitation"; "surface_air_temperature"].

(** [dloader = gd.DataLoader()] and
    [df_time_day = dloader.time_series(files_list_1, 32.5, 35,
    vars_interest_list, cache = True, as_numpy = False)] *)
Definition df_time_day (fs : filesystem) : gmap string DataSet.t * io table :=
  time_series fs files_list_1 32.5 35 vars_interest_list true false DataLoader.__init__.

(** [df_time_day[vars_interest_list]], the table whose correlations the
    script computes. *)
Definition correlated_columns (df_time_day : DataFrame) : io DataFrame :=
  select_columns df_time_day vars_interest_list.

End ProcessData.

(** A disc for the script: its file with one time stamp, the grid point
    (32.5, 35) and the eight variables, one value each. *)
Module ScriptExample.
Import Numpy NetCDF.

Definition flux_variable (short long : string) (x : float) : Variable_ :=
  {| var_name := short; long_name := Some long; var_dtype := Float32;
     data := Spec.grid3 [ [ [x] ] ] |}.

Definition flux_file : Dataset :=
  {| dimensions := [ {| dim_name := "time"; dim_size := 1 |};
                     {| dim_name := "lat"; dim_size := 1 |};
                     {| dim_name := "lon"; dim_size := 1 |} ];
     variables :=
       Example.axes_variables [30]%float [32.5]%float [35]%float
       ++ [ flux_variable "EVAP" "evaporation_from_turbulence" 1;
            flux_variable "FRCAN" "areal_fraction_of_anvil_showers" 2;
            flux_variable "FRCCN" "areal_fraction_of_convective_showers" 3;
            flux_variable "FRCLS" "areal_fraction_of_nonanvil_large_scale_showers" 4;
            flux_variable "HFLUX" "sensible_heat_flux_from_turbulence" 5;
            flux_variable "PRECCON" "convective_precipitation" 6;
            flux_variable "PRECTOT" "total_precipitation" 7;
            flux_variable "TLML" "surface_air_temperature" 8 ] |}.

Definition disc : filesystem :=
  λ name,
    if String.eqb name "MERRA2_400.tavg1_2d_flx_Nx.20220430.nc4" then Some flux_file
    else None.

End ScriptExample.
(** * Properties *)

(** ** Computations *)

Section io_facts.
Context {A B : Type}.

Lemma io_bind_ret (a : A) (k : A → io B) : (mret a ≫= k) = k a.
Proof.
  unfold mret, io_mret, mbind, io_mbind, io_ret, io_bind.
  destruct (k a) as [tr r]. reflexivity.
Qed.

Lemma io_bind_run (k : A → io B) (tr : list event) (a : A) :
  ((tr, inr a) : io A) ≫= k = (tr ++ fst (k a), snd (k a)).
Proof. unfold mbind, io_mbind, io_bind. destruct (k a). reflexivity. Qed.

(** A sequence that returns: both parts returned. *)
Lemma io_bind_inr (m : io A) (k : A → io B) (tr : list event) (b : B) :
  m ≫= k = (tr, inr b) →
  ∃ tr1 a tr2, m = (tr1, inr a) ∧ k a = (tr2, inr b) ∧ tr = tr1 ++ tr2.
Proof.
  destruct m as [tr1 [e | a]]; [discriminate |].
  rewrite io_bind_run. intros [= <- Hk].
  exists tr1, a, (fst (k a)). repeat split.
  rewrite <- Hk. apply surjective_pairing.
Qed.
End io_facts.

(** Splits a hypothesis that a sequence returned into its steps. *)
Ltac io_inv H :=
  let tr1 := fresh "tr" in
  let tr2 := fresh "tr" in
  let Hm := fresh "Hstep" in
  let Htr := fresh "Htr" in
  apply io_bind_inr in H as (tr1 & ? & tr2 & Hm & H & Htr).

Tactic Notation "io_step" hyp(H) "as" ident(a) ident(Ha) :=
  let tr1 := fresh "tr" in
  let tr2 := fresh "tr" in
  let Htr := fresh "Htr" in
  apply io_bind_inr in H as (tr1 & a & tr2 & Ha & H & Htr).

(** ** Dictionaries *)

Section dict_facts.
Context {V : Type}.
Implicit Types (d : pydict V) (k : string) (v : V).

Lemma str_in_spec k (l : list string) : str_in k l = true ↔ k ∈ l.
Proof.
  unfold str_in. rewrite existsb_exists. split.
  - intros (x & Hx & Heq). apply String.eqb_eq in Heq as ->.
    by apply list_elem_of_In.
  - intros Hk. exists k. split; [by apply list_elem_of_In | apply String.eqb_refl].
Qed.

Lemma str_in_false k (l : list string) : str_in k l = false ↔ k ∉ l.
Proof.
  rewrite <- str_in_spec. destruct (str_in k l); split; congruence.
Qed.

Lemma dict_set_fresh k v d : k ∉ dict_keys d → dict_set k v d = d ++ [(k, v)].
Proof.
  induction d as [| [k' v'] d IH]; simpl; [done |].
  intros Hk. apply not_elem_of_cons in Hk as [Hne Hk].
  destruct (String.eqb_spec k' k); [congruence |].
  by rewrite IH.
Qed.

Lemma dict_keys_set_in k v d : k ∈ dict_keys d → dict_keys (dict_set k v d) = dict_keys d.
Proof.
  induction d as [| [k' v'] d IH]; simpl; [by intros ?%elem_of_nil |].
  intros Hk. destruct (String.eqb_spec k' k) as [-> | Hne]; [done |].
  simpl. f_equal. apply IH. apply elem_of_cons in Hk as [-> | Hk]; done.
Qed.

Lemma dict_keys_set k v d :
  dict_keys (dict_set k v d)
  = if str_in k (dict_keys d) then dict_keys d else dict_keys d ++ [k].
Proof.
  destruct (str_in k (dict_keys d)) eqn:Hin.
  - apply dict_keys_set_in. by apply str_in_spec.
  - rewrite dict_set_fresh by by apply str_in_false.
    unfold dict_keys. by rewrite map_app.
Qed.

Lemma dict_set_NoDup k v d : NoDup (dict_keys d) → NoDup (dict_keys (dict_set k v d)).
Proof.
  intros Hd. rewrite dict_keys_set. destruct (str_in k (dict_keys d)) eqn:Hin; [done |].
  apply NoDup_app. split_and!; [done | | apply NoDup_singleton].
  intros x Hx ->%list_elem_of_singleton. by apply str_in_false in Hin.
Qed.

End dict_facts.

(** ** Positions in a flattened grid *)

Section flat_index.
Context {A B : Type}.

Lemma length_flat_map_uniform (f : A → list B) (l : list A) (n : nat) :
  (∀ x, x ∈ l → length (f x) = n) → length (flat_map f l) = length l * n.
Proof.
  induction l as [| x l IH]; intros Hlen; simpl; [done |].
  rewrite length_app, Hlen, IH; [done | | apply elem_of_cons; by left].
  intros y Hy. apply Hlen, elem_of_cons. by right.
Qed.

Lemma nth_flat_map_uniform (f : A → list B) (l : list A) (n p : nat) (dA : A) (dB : B) :
  (∀ x, x ∈ l → length (f x) = n) →
  p < length l * n →
  nth p (flat_map f l) dB = nth (p mod n) (f (nth (p / n) l dA)) dB.
Proof.
  revert p. induction l as [| x l IH]; intros p Hlen Hp; simpl in *; [lia |].
  assert (Hx : length (f x) = n) by (apply Hlen, elem_of_cons; by left).
  assert (Hn : n ≠ 0) by lia.
  destruct (decide (p < n)) as [Hlt | Hge].
  - rewrite app_nth1 by lia.
    by rewrite Nat.div_small, Nat.mod_small.
  - rewrite app_nth2 by lia. rewrite Hx.
    assert (Hsplit : p = (p - n) + 1 * n) by lia.
    rewrite IH; [| intros y Hy; apply Hlen, elem_of_cons; by right | lia].
    rewrite Hsplit at 3 4.
    rewrite Nat.div_add, Nat.Div0.mod_add by done.
    by replace (((p - n) / n) + 1) with (S ((p - n) / n)) by lia.
Qed.
End flat_index.

Lemma unravel_ravel (la lo i j k : nat) :
  j < la → k < lo → unravel la lo (ravel la lo i j k) = (i, j, k).
Proof.
  intros Hj Hk. unfold unravel, ravel.
  assert (Hjk : j * lo + k < la * lo) by nia.
  assert (H1 : (i * (la * lo) + j * lo + k) / (la * lo) = i).
  { symmetry. apply (Nat.div_unique _ _ _ (j * lo + k)); nia. }
  assert (H2 : (i * (la * lo) + j * lo + k) mod (la * lo) = j * lo + k).
  { symmetry. apply (Nat.mod_unique _ _ i); nia. }
  assert (H3 : (j * lo + k) / lo = j).
  { symmetry. apply (Nat.div_unique _ _ _ k); nia. }
  assert (H4 : (i * (la * lo) + j * lo + k) mod lo = k).
  { symmetry. apply (Nat.mod_unique _ _ (i * la + j)); nia. }
  by rewrite H1, H2, H3, H4.
Qed.

Lemma ravel_bound (n la lo i j k : nat) :
  i < n → j < la → k < lo → ravel la lo i j k < n * (la * lo).
Proof.
  intros Hi Hj Hk. unfold ravel.
  assert (j * lo + k < la * lo) by nia.
  assert (S i * (la * lo) <= n * (la * lo))%nat by (apply Nat.mul_le_mono_r; lia).
  lia.
Qed.

Lemma unravel_bound (n la lo p : nat) :
  p < n * (la * lo) →
  let '(i, j, k) := unravel la lo p in i < n ∧ j < la ∧ k < lo.
Proof.
  intros Hp. unfold unravel.
  assert (la ≠ 0 ∧ lo ≠ 0) as [Hla Hlo] by nia.
  split_and!.
  - apply Nat.Div0.div_lt_upper_bound. lia.
  - apply Nat.Div0.div_lt_upper_bound.
    rewrite (Nat.mul_comm lo la). apply Nat.mod_upper_bound. lia.
  - by apply Nat.mod_upper_bound.
Qed.

Lemma mod_mod_mul (la lo p : nat) : (p mod (la * lo)) mod lo = p mod lo.
Proof.
  rewrite (Nat.mul_comm la lo), Nat.Div0.mod_mul_r.
  rewrite (Nat.mul_comm lo), Nat.Div0.mod_add. apply Nat.Div0.mod_mod.
Qed.

Section product_order.
Import Pandas.
Implicit Types (ts las los : list float).

Lemma from_product_length ts las los :
  length (from_product ts las los) = length ts * (length las * length los).
Proof.
  unfold from_product. apply length_flat_map_uniform. intros x _.
  apply length_flat_map_uniform. intros y _. apply length_map.
Qed.

(** The product runs through the time axis slowest and through the
    longitude axis fastest. *)
Lemma from_product_nth ts las los (p : nat) (d : float * float * float) :
  p < length ts * (length las * length los) →
  nth p (from_product ts las los) d
  = let '(i, j, k) := unravel (length las) (length los) p in
    (nth i ts nan, nth j las nan, nth k los nan).
Proof.
  intros Hp. unfold from_product, unravel.
  assert (length las ≠ 0 ∧ length los ≠ 0) as [Hla Hlo] by nia.
  rewrite (nth_flat_map_uniform _ _ (length las * length los) _ nan);
    [| intros x _; apply length_flat_map_uniform; intros y _; apply length_map | done].
  rewrite (nth_flat_map_uniform _ _ (length los) _ nan);
    [| intros y _; apply length_map | apply Nat.mod_upper_bound; lia].
  rewrite mod_mod_mul.
  rewrite (nth_indep _ d (nth (p / (length las * length los)) ts nan,
                          nth (p mod (length las * length los) / length los) las nan, nan)).
  - by rewrite (map_nth (λ z, (_, _, z))).
  - rewrite length_map. by apply Nat.mod_upper_bound.
Qed.
End product_order.

(** ** Tables *)

Section table_facts.
Import Pandas.

Lemma imap_as_map {A B} (f : nat → A → B) (l : list A) (d : A) :
  imap f l = map (λ p, f p (nth p l d)) (seq 0 (length l)).
Proof.
  revert f. induction l as [| x l IH]; intros f; simpl; [done |].
  f_equal. rewrite IH, <- seq_shift, map_map. done.
Qed.

Lemma filter_map_comm {A B} (f : B → bool) (g : A → B) (l : list A) :
  List.filter f (map g l) = map g (List.filter (λ x, f (g x)) l).
Proof.
  induction l as [| x l IH]; simpl; [done |].
  rewrite IH. by destruct (f (g x)).
Qed.

Lemma filter_twice {A} (f g : A → bool) (l : list A) :
  List.filter g (List.filter f l) = List.filter (λ x, f x && g x) l.
Proof.
  induction l as [| x l IH]; simpl; [done |].
  destruct (f x); simpl; rewrite ?IH; done.
Qed.

Lemma series_cmp_column (cmp : value → float → bool) (pos : nat)
    (rs : list (nat * list value)) (x : float) :
  series_cmp cmp (map (λ r, (fst r, cell pos r)) rs) x
  = map (λ r, (fst r, cmp (cell pos r) x)) rs.
Proof. unfold series_cmp. by rewrite map_map. Qed.

(** A mask computed on a table whose labels are all different marks a
    row of that table exactly when the row satisfies the test. *)
Lemma mask_at_own (f : nat * list value → bool) (rs : list (nat * list value))
    (r : nat * list value) :
  NoDup (map fst rs) → r ∈ rs →
  mask_at (fst r) (map (λ r, (fst r, f r)) rs) = f r.
Proof.
  induction rs as [| r' rs IH]; simpl; [by intros _ ?%elem_of_nil |].
  intros [Hnotin Hnd]%NoDup_cons [-> | Hin]%elem_of_cons.
  - by rewrite Nat.eqb_refl.
  - destruct (Nat.eqb_spec (fst r') (fst r)) as [Heq | Hne]; [| by apply IH].
    exfalso. apply Hnotin. rewrite Heq. apply list_elem_of_fmap. by exists r.
Qed.

Lemma filter_own_mask (f : nat * list value → bool) (rs sub : list (nat * list value)) :
  NoDup (map fst rs) → sub ⊆ rs →
  List.filter (λ r, mask_at (fst r) (map (λ r, (fst r, f r)) rs)) sub
  = List.filter f sub.
Proof.
  intros Hnd Hsub. apply filter_ext_in. intros r Hr.
  apply mask_at_own; [done |]. by apply Hsub, list_elem_of_In.
Qed.

Lemma filter_subseteq {A} (f : A → bool) (l : list A) : List.filter f l ⊆ l.
Proof. intros x Hx. apply list_elem_of_In in Hx. apply list_elem_of_In. by apply filter_In in Hx as [? _]. Qed.
End table_facts.

(** ** The table of a grid *)

Section flat_table_facts.
Import Pandas Spec.
Implicit Types (times lats lons : list float) (cols : pydict (list float)).

Lemma flat_row_label times lats lons (cs : list (list float)) (p : nat) :
  fst (flat_row times lats lons cs p) = p.
Proof. unfold flat_row. by destruct (unravel _ _ p) as [[i j] k]. Qed.

Lemma flat_table_labels times lats lons cols :
  map fst (rows (flat_table times lats lons cols))
  = seq 0 (length times * (length lats * length lons)).
Proof.
  simpl. rewrite map_map. erewrite map_ext; [apply map_id |].
  intros p. apply flat_row_label.
Qed.

Lemma flat_table_NoDup times lats lons cols :
  NoDup (map fst (rows (flat_table times lats lons cols))).
Proof. rewrite flat_table_labels. apply NoDup_seq. Qed.

Lemma flat_table_length times lats lons cols :
  length (rows (flat_table times lats lons cols))
  = length times * (length lats * length lons).
Proof. simpl. by rewrite length_map, length_seq. Qed.

(** [reset_index] on the product of three axes gives the table of the
    grid. *)
Lemma reset_index_flat times lats lons cols :
  "lon" ∉ dict_keys cols → "lat" ∉ dict_keys cols → "time" ∉ dict_keys cols →
  reset_index {| multi_index := from_product times lats lons; value_columns := cols |}
  = mret (flat_table times lats lons cols).
Proof.
  intros Hlon%str_in_false Hlat%str_in_false Htime%str_in_false.
  unfold reset_index. simpl. rewrite Hlon, Hlat, Htime.
  unfold flat_table. do 2 f_equal.
  rewrite (imap_as_map _ _ (nan, nan, nan)), from_product_length.
  apply map_ext_in. intros p [_ Hp]%in_seq.
  rewrite from_product_nth by lia. unfold flat_row.
  destruct (unravel _ _ p) as [[i j] k]. by rewrite map_map.
Qed.

Lemma column_pos_Some (name : string) (cs : list string) :
  name ∈ cs → ∃ pos, column_pos name cs = Some pos ∧ cs !! pos = Some name.
Proof.
  induction cs as [| c cs IH]; simpl; [by intros ?%elem_of_nil |].
  intros Hin. destruct (String.eqb_spec c name) as [-> | Hne]; [by exists 0 |].
  destruct IH as (pos & Hpos & Hlook); [apply elem_of_cons in Hin as [-> | ?]; done |].
  exists (S pos). by rewrite Hpos.
Qed.

Lemma column_pos_None (name : string) (cs : list string) :
  name ∉ cs → column_pos name cs = None.
Proof.
  induction cs as [| c cs IH]; simpl; [done |].
  intros [Hne Hnotin]%not_elem_of_cons.
  destruct (String.eqb_spec c name); [congruence |]. by rewrite IH.
Qed.

Lemma flat_row_coords times lats lons (cs : list (list float)) (p : nat) :
  flat_row times lats lons cs p
  = let '(t, la, lo) := coords_at times lats lons p in
    (p, Num t :: Num la :: Num lo :: map (λ c, Num (nth p c nan)) cs).
Proof. unfold flat_row, coords_at. by destruct (unravel _ _ p) as [[i j] k]. Qed.

(** The cell of a data column is the element of its grid at the number
    of the row. *)
Lemma flat_row_data_cell times lats lons (f : string → list float)
    (keys : list string) (name : string) :
  name ∈ keys → name ∉ ["time"; "lat"; "lon"] →
  ∃ pos, column_pos name ("time" :: "lat" :: "lon" :: keys) = Some pos ∧
         ∀ p, cell pos (flat_row times lats lons (map f keys) p)
              = Num (nth p (f name) nan).
Proof.
  intros Hin Hax. destruct (column_pos_Some name keys Hin) as (pos & Hpos & Hlook).
  exists (3 + pos). split.
  - simpl. repeat (apply not_elem_of_cons in Hax as [? Hax]).
    rewrite !(proj2 (String.eqb_neq _ name)) by congruence.
    by rewrite Hpos.
  - intros p. unfold cell, flat_row. destruct (unravel _ _ p) as [[i j] k]. simpl.
    rewrite map_map.
    rewrite (nth_lookup_Some _ pos nan_cell (Num (nth p (f name) nan))); [done |].
    by rewrite list_lookup_fmap, Hlook.
Qed.

Lemma data_positions times lats lons (f : string → list float)
    (keys names : list string) :
  Forall (λ v, v ∈ keys ∧ v ∉ ["time"; "lat"; "lon"]) names →
  ∃ ps, Forall2 (λ v pos,
            column_pos v ("time" :: "lat" :: "lon" :: keys) = Some pos ∧
            ∀ p, cell pos (flat_row times lats lons (map f keys) p)
                 = Num (nth p (f v) nan)) names ps.
Proof.
  induction 1 as [| v names [Hin Hax] _ [ps IH]]; [by exists [] |].
  destruct (flat_row_data_cell times lats lons f keys v Hin Hax) as (pos & Hpos).
  exists (pos :: ps). by constructor.
Qed.

Lemma seq_nth_id {A} (l : list A) (d : A) :
  map (λ p, nth p l d) (seq 0 (length l)) = l.
Proof.
  induction l as [| x l IH]; simpl; [done |].
  f_equal. by rewrite <- seq_shift, map_map.
Qed.

(** The rows of the product that match a latitude and a longitude. *)
Lemma count_product (lat lon : float) times lats lons :
  length (List.filter (λ '(t, la, lo), PrimFloat.eqb la lat && PrimFloat.eqb lo lon)
            (from_product times lats lons))
  = length times * (occurrences lat lats * occurrences lon lons).
Proof.
  unfold from_product, occurrences.
  induction times as [| t times IH]; simpl; [done |].
  rewrite List.filter_app, length_app, IH. f_equal. clear IH.
  induction lats as [| la lats IH]; simpl; [done |].
  rewrite List.filter_app, length_app, IH, filter_map_comm, length_map.
  destruct (PrimFloat.eqb la lat); simpl.
  - done.
  - replace (List.filter (λ _, false) lons) with (@nil float); [done |].
    clear. by induction lons.
Qed.

Lemma count_hits (lat lon : float) times lats lons :
  length (List.filter
            (λ p, let '(t, la, lo) := coords_at times lats lons p in
                  PrimFloat.eqb la lat && PrimFloat.eqb lo lon)
            (seq 0 (length times * (length lats * length lons))))
  = length times * (occurrences lat lats * occurrences lon lons).
Proof.
  rewrite <- count_product.
  rewrite <- (seq_nth_id (from_product times lats lons) (nan, nan, nan)) at 1.
  rewrite filter_map_comm, length_map, from_product_length. f_equal.
  apply filter_ext_in. intros p [_ Hp]%in_seq.
  rewrite from_product_nth by lia. done.
Qed.

End flat_table_facts.

(** ** Reading a file *)

Section reading.
Import Numpy NetCDF Pandas Spec.

Lemma getitem_inr (nc : Dataset) (name : string) (tr : list event) (v : Variable_) :
  getitem nc name = (tr, inr v) →
  tr = [] ∧ List.find (λ v, String.eqb (var_name v) name) (variables nc) = Some v.
Proof.
  unfold getitem. destruct (List.find _ _) as [v' |]; [| discriminate].
  by intros [= <- <-].
Qed.

Lemma iter_1d_inr (a : ndarray) (tr : list event) (xs : list float) :
  iter_1d a = (tr, inr xs) → tr = [] ∧ a = Array (map Scalar xs).
Proof.
  destruct a as [x | items]; simpl; [discriminate |].
  destruct (mapM scalar_of items) as [ys |] eqn:Hm; [| discriminate].
  intros [= <- <-]. split; [done |]. f_equal.
  apply mapM_Some in Hm. induction Hm as [| a y items ys Hay _ IH]; simpl; [done |].
  destruct a; simpl in Hay; [| discriminate]. by injection Hay as ->; rewrite IH.
Qed.

Lemma axis_of_read (nc : Dataset) (name : string) (v : Variable_) (xs : list float)
    (tr1 tr2 : list event) :
  getitem nc name = (tr1, inr v) → iter_1d (data v) = (tr2, inr xs) →
  axis nc name = Some xs.
Proof.
  intros [_ Hfind]%getitem_inr [_ Hdata]%iter_1d_inr.
  unfold axis. rewrite Hfind, Hdata.
  apply mapM_Some. clear Hdata. induction xs; simpl; by constructor.
Qed.

(** The loop of the constructor over the variables: every variable has
    a long name, which becomes a key. *)
Lemma var_dict_loop (vars : list Variable_) (d0 d : pydict string) (tr : list event) :
  io_fold (λ d var, long ← get_long_name var; mret (dict_set long (var_name var) d))
    d0 vars = (tr, inr d) →
  tr = [] ∧ (NoDup (dict_keys d0) → NoDup (dict_keys d)) ∧
  dict_keys d0 ⊆ dict_keys d ∧
  Forall (λ v, ∃ l, long_name v = Some l ∧ l ∈ dict_keys d) vars.
Proof.
  revert d0 tr. induction vars as [| v vars IH]; intros d0 tr; simpl.
  - intros [= <- <-]. by split_and!.
  - intros H. io_inv H. io_inv Hstep.
    unfold get_long_name in Hstep0. destruct (long_name v) as [l |] eqn:Hl; [| discriminate].
    injection Hstep0 as <- <-. injection Hstep as <- <-.
    apply IH in H as (-> & Hnd & Hsub & Hall). subst tr.
    assert (Hkeys : dict_keys d0 ⊆ dict_keys (dict_set l (var_name v) d0)).
    { rewrite dict_keys_set. destruct (str_in _ _); [done |].
      intros x Hx. apply elem_of_app. by left. }
    assert (Hl_in : l ∈ dict_keys (dict_set l (var_name v) d0)).
    { rewrite dict_keys_set. destruct (str_in _ _) eqn:Hin; [by apply str_in_spec |].
      apply elem_of_app. right. by apply list_elem_of_singleton. }
    split_and!; [by subst | | by etrans |].
    + intros Hd0. by apply Hnd, dict_set_NoDup.
    + constructor; [| done]. exists l. split; [done |]. by apply Hsub.
Qed.

Lemma fold_dict_set_fresh {V} (g : string → V) (ks : list string) (d0 : pydict V) :
  NoDup ks → (∀ k, k ∈ ks → k ∉ dict_keys d0) →
  fold_left (λ d k, dict_set k (g k) d) ks d0 = d0 ++ map (λ k, (k, g k)) ks.
Proof.
  revert d0. induction ks as [| k ks IH]; intros d0 Hnd Hfresh; simpl.
  - by rewrite app_nil_r.
  - apply NoDup_cons in Hnd as [Hk Hnd].
    rewrite dict_set_fresh by (apply Hfresh, elem_of_cons; by left).
    rewrite IH; [by rewrite <- app_assoc | done |].
    intros k' Hk'. unfold dict_keys. rewrite map_app. simpl.
    intros [Hin | ->%list_elem_of_singleton]%elem_of_app; [| done].
    apply (Hfresh k'); [apply elem_of_cons; by right | done].
Qed.

(** The loop of [_convert2dataframe] over the long names: each name
    that is not one of the three axes gets the flattened grid of its
    variable, which has as many elements as the index. *)
Lemma columns_loop (nc : Dataset) (var_dict : pydict string)
    (index : list (float * float * float)) (ks : list string)
    (frame0 frame : IndexedFrame) (tr : list event) :
  io_fold (λ frame k,
      if str_in k DataSet.axis_long_names then mret frame
      else
        match dict_get k var_dict with
        | None => raise (KeyError k)
        | Some short =>
            v ← getitem nc short;
            s ← new_series (flatten (data v)) index;
            mret (set_series frame k s)
        end) frame0 ks = (tr, inr frame) →
  let kept := List.filter (λ k, negb (str_in k DataSet.axis_long_names)) ks in
  tr = [] ∧ multi_index frame = multi_index frame0 ∧
  value_columns frame
  = fold_left (λ d k, dict_set k (grid_values nc var_dict k) d) kept (value_columns frame0) ∧
  Forall (λ k, length (grid_values nc var_dict k) = length index) kept.
Proof.
  revert frame0 tr. induction ks as [| k ks IH]; intros frame0 tr; simpl.
  - intros [= <- <-]. by split_and!.
  - intros H. io_inv H.
    destruct (str_in k DataSet.axis_long_names) eqn:Hax; simpl.
    + injection Hstep as <- <-. apply IH in H as (-> & ? & ? & ?). by subst tr.
    + destruct (dict_get k var_dict) as [short |] eqn:Hget; [| discriminate].
      io_inv Hstep. io_inv Hstep.
      apply getitem_inr in Hstep0 as [-> Hfind].
      unfold new_series in Hstep1.
      destruct (Nat.eqb_spec (length (flatten (data x0))) (length index)) as [Hlen |];
        [| discriminate].
      injection Hstep1 as <- <-. injection Hstep as <- <-.
      assert (Hgrid : grid_values nc var_dict k = flatten (data x0)).
      { unfold grid_values, variable_of. by rewrite Hget, Hfind. }
      apply IH in H as (-> & Hmi & Hcols & Hall). subst. simpl in *.
      rewrite Hgrid. split_and!; [done .. |]. constructor; [by rewrite Hgrid | done].
Qed.

Lemma reset_index_inr (frame : IndexedFrame) (tr : list event) (dfl : DataFrame) :
  reset_index frame = (tr, inr dfl) →
  ("lon" ∉ dict_keys (value_columns frame)) ∧
  ("lat" ∉ dict_keys (value_columns frame)) ∧
  ("time" ∉ dict_keys (value_columns frame)).
Proof.
  unfold reset_index.
  destruct (str_in "lon" _) eqn:H1; [discriminate |].
  destruct (str_in "lat" _) eqn:H2; [discriminate |].
  destruct (str_in "time" _) eqn:H3; [discriminate |].
  intros _. by split_and!; apply str_in_false.
Qed.
End reading.

(** ** The constructor *)

Section constructor.
Import Numpy NetCDF Pandas Spec.

Lemma grid_columns_keys (nc : Dataset) (var_dict : pydict string) :
  dict_keys (grid_columns nc var_dict) = data_keys var_dict.
Proof.
  unfold grid_columns, dict_keys. rewrite map_map. simpl. apply map_id.
Qed.

Lemma grid_columns_values (nc : Dataset) (var_dict : pydict string) :
  map snd (grid_columns nc var_dict)
  = map (grid_values nc var_dict) (data_keys var_dict).
Proof. unfold grid_columns. by rewrite map_map. Qed.

Lemma data_keys_NoDup (var_dict : pydict string) :
  NoDup (dict_keys var_dict) → NoDup (data_keys var_dict).
Proof.
  intros Hnd. unfold data_keys. apply NoDup_ListNoDup, List.NoDup_filter.
  by apply NoDup_ListNoDup.
Qed.

Lemma data_keys_spec (var_dict : pydict string) (k : string) :
  k ∈ data_keys var_dict ↔ k ∈ dict_keys var_dict ∧ k ∉ DataSet.axis_long_names.
Proof.
  unfold data_keys. rewrite list_elem_of_In, filter_In, <- list_elem_of_In.
  rewrite negb_true_iff, str_in_false. done.
Qed.

(** [_convert2dataframe] returns the table of the grid of the file. *)
Lemma convert_inr (nc : Dataset) (var_dict : pydict string)
    (tr : list event) (dfl : DataFrame) :
  NoDup (dict_keys var_dict) →
  DataSet._convert2dataframe var_dict nc = (tr, inr dfl) →
  ∃ times lats lons,
    tr = [] ∧
    axis nc "time" = Some times ∧ axis nc "lat" = Some lats ∧
    axis nc "lon" = Some lons ∧
    dfl = flat_table times lats lons (grid_columns nc var_dict) ∧
    Forall (λ k, length (grid_values nc var_dict k)
                 = length times * (length lats * length lons)) (data_keys var_dict) ∧
    ("lat" ∉ data_keys var_dict) ∧ ("lon" ∉ data_keys var_dict).
Proof.
  intros Hnd H. unfold DataSet._convert2dataframe in H.
  io_inv H. rename x into lon_var. io_inv H. rename x into lat_var.
  io_inv H. rename x into time_var. io_inv H. rename x into times.
  io_inv H. rename x into lats. io_inv H. rename x into lons.
  io_inv H. rename x into frame.
  pose proof (axis_of_read _ _ _ _ _ _ Hstep1 Hstep2) as Htime.
  pose proof (axis_of_read _ _ _ _ _ _ Hstep0 Hstep3) as Hlat.
  pose proof (axis_of_read _ _ _ _ _ _ Hstep Hstep4) as Hlon.
  apply getitem_inr in Hstep as [-> _]. apply getitem_inr in Hstep0 as [-> _].
  apply getitem_inr in Hstep1 as [-> _]. apply iter_1d_inr in Hstep2 as [-> _].
  apply iter_1d_inr in Hstep3 as [-> _]. apply iter_1d_inr in Hstep4 as [-> _].
  apply columns_loop in Hstep5 as (-> & Hmi & Hcols & Hlen). simpl in *.
  fold (data_keys var_dict) in Hcols, Hlen.
  rewrite fold_dict_set_fresh in Hcols;
    [| by apply data_keys_NoDup | by intros k _ ?%elem_of_nil].
  simpl in Hcols. fold (grid_columns nc var_dict) in Hcols.
  destruct frame as [mi cols]. simpl in *. subst mi cols.
  pose proof (reset_index_inr _ _ _ H) as (Hnlon & Hnlat & Hntime).
  simpl in *. rewrite reset_index_flat in H by done.
  injection H as <- <-. rewrite grid_columns_keys in *.
  rewrite from_product_length in Hlen. subst.
  exists times, lats, lons. by split_and!.
Qed.

Lemma coords_in_range_spec (dfl : DataFrame) (name : string) (pos : nat) (lo hi : float) :
  column_pos name (columns dfl) = Some pos →
  NoDup (map fst (rows dfl)) →
  DataSet.coords_in_range dfl name lo hi = mret (coord_set pos lo hi dfl).
Proof.
  intros Hpos Hnd. unfold DataSet.coords_in_range, get_column. simpl.
  rewrite Hpos, !io_bind_ret.
  rewrite !series_cmp_column.
  rewrite !filter_own_mask by (done || reflexivity || apply filter_subseteq).
  rewrite filter_twice. unfold tolist, coord_set. by rewrite map_map.
Qed.

(** A constructor that returns has opened the file, read its three
    axes, built the whole table and closed the file. *)
Lemma init_inr (fs : filesystem) (filename : string) (tr : list event) (self : DataSet.t) :
  DataSet.__init__ fs filename = (tr, inr self) →
  ∃ nc times lats lons,
    fs filename = Some nc ∧ tr = [EvOpen filename; EvClose filename] ∧
    built_from nc times lats lons self.
Proof.
  intros H. unfold DataSet.__init__ in H.
  io_step H as nc Hopen. io_step H as var_dict Hvars. io_step H as dfl Hconv.
  io_step H as u Hclose. io_step H as sets Hcoords. injection H as <- <-.
  unfold DataSet.open_dataset in Hopen. io_step Hopen as u' Hemit.
  destruct (fs filename) as [nc' |] eqn:Hfs; [| by io_inv Hopen].
  injection Hopen as <- <-. injection Hemit as <- <-. injection Hclose as <- <-.
  apply var_dict_loop in Hvars as (-> & Hnd & _ & Hvars).
  specialize (Hnd (NoDup_nil_2)).
  apply convert_inr in Hconv as (times & lats & lons & -> & ? & ? & ? & -> & ? & ? & ?);
    [| done].
  unfold DataSet._create_coords in Hcoords.
  rewrite (coords_in_range_spec _ "lat" 1) in Hcoords
    by (reflexivity || apply flat_table_NoDup).
  rewrite io_bind_ret in Hcoords.
  rewrite (coords_in_range_spec _ "lon" 2) in Hcoords
    by (reflexivity || apply flat_table_NoDup).
  rewrite io_bind_ret in Hcoords.
  injection Hcoords as <- <-. subst.
  exists nc', times, lats, lons. split_and!; [done | done |].
  by constructor.
Qed.
End constructor.

(** ** The two queries of a dataset *)

Section queries.
Import Numpy NetCDF Pandas Spec.

Lemma positions_Forall2 (names cols : list string) (ps : list nat) :
  Forall2 (λ n p, column_pos n cols = Some p) names ps →
  positions names cols = mret ps.
Proof.
  induction 1 as [| n p names ps Hp _ IH]; simpl; [done |].
  by rewrite Hp, IH, io_bind_ret.
Qed.

Lemma select_columns_spec (dfl : DataFrame) (names : list string) (ps : list nat) :
  Forall2 (λ n p, column_pos n (columns dfl) = Some p) names ps →
  select_columns dfl names
  = mret {| columns := names; rows := map (restrict ps) (rows dfl) |}.
Proof.
  intros Hps. unfold select_columns. by rewrite (positions_Forall2 _ _ ps), io_bind_ret.
Qed.

(** [time_slice] on a table whose labels are all different. *)
Lemma time_slice_table (self : DataSet.t) (dfl : DataFrame) (time : float)
    (var_long : string) (p_time : nat) (ps : list nat) :
  DataSet.df self = Some dfl →
  NoDup (map fst (rows dfl)) →
  column_pos "time" (columns dfl) = Some p_time →
  Forall2 (λ n p, column_pos n (columns dfl) = Some p) ["lat"; "lon"; var_long] ps →
  DataSet.time_slice self time var_long
  = mret {| columns := ["lat"; "lon"; var_long];
            rows := map (restrict ps)
                      (List.filter
                         (λ r, py_eq (cell p_time r)
                                 (as_dtype (DataSet.time_dtype self) time))
                         (rows dfl)) |}.
Proof.
  intros Hdf Hnd Htime Hps. unfold DataSet.time_slice, DataSet.the_frame, get_column.
  rewrite Hdf, io_bind_ret, Htime, io_bind_ret.
  rewrite (select_columns_spec _ _ ps) by done. simpl.
  rewrite series_cmp_column, filter_own_mask by done. done.
Qed.

(** [coord_timeseries] with coordinates of the two sets, on a table
    whose labels are all different. *)
Lemma coord_timeseries_table (self : DataSet.t) (dfl : DataFrame) (lat lon : float)
    (var_long : list string) (p_lat p_lon : nat) (ps : list nat) :
  DataSet.df self = Some dfl →
  NoDup (map fst (rows dfl)) →
  column_pos "lat" (columns dfl) = Some p_lat →
  column_pos "lon" (columns dfl) = Some p_lon →
  Forall2 (λ n p, column_pos n (columns dfl) = Some p) ("time" :: var_long) ps →
  set_mem (Num lat) (DataSet._lat_set self) = true →
  set_mem (Num lon) (DataSet._lon_set self) = true →
  DataSet.coord_timeseries self lat lon var_long
  = mret {| columns := "time" :: var_long;
            rows := map (restrict ps)
                      (List.filter (λ r, py_eq (cell p_lat r) lat && py_eq (cell p_lon r) lon)
                         (rows dfl)) |}.
Proof.
  intros Hdf Hnd Hlat Hlon Hps Hin_lat Hin_lon.
  unfold DataSet.coord_timeseries, DataSet.the_frame, get_column.
  rewrite Hin_lat, Hin_lon, Hdf. cbn [andb].
  rewrite io_bind_ret, Hlat, io_bind_ret, Hlon, io_bind_ret.
  rewrite (select_columns_spec _ _ ps) by done. simpl.
  rewrite !series_cmp_column.
  rewrite !filter_own_mask by (done || reflexivity || apply filter_subseteq).
  by rewrite filter_twice.
Qed.
End queries.

(** ** Grids of three dimensions *)

Section grids.
Import Numpy Spec.

Lemma flatten_vector (row : list float) : flatten (Array (map Scalar row)) = row.
Proof. simpl. induction row as [| x row IH]; simpl; [done | by rewrite IH]. Qed.

Lemma flatten_grid3 (g : list (list (list float))) :
  flatten (grid3 g) = flat_map (λ plane, flat_map (λ row, row) plane) g.
Proof.
  unfold grid3. cbn [flatten]. rewrite flat_map_concat_map, map_map.
  rewrite (flat_map_concat_map _ g). f_equal. apply map_ext. intros plane.
  cbn [flatten]. rewrite flat_map_concat_map, map_map.
  rewrite (flat_map_concat_map _ plane). f_equal. apply map_ext. intros row.
  apply flatten_vector.
Qed.

(** Element number [ravel i j k] of the flattened grid is [g[i][j][k]]. *)
Lemma flatten_grid3_nth (g : list (list (list float))) (n la lo i j k : nat) :
  has_shape g n la lo → i < n → j < la → k < lo →
  nth (ravel la lo i j k) (flatten (grid3 g)) nan = item3 g i j k.
Proof.
  intros [Hn Hshape] Hi Hj Hk. rewrite flatten_grid3.
  pose proof (ravel_bound n la lo i j k Hi Hj Hk) as Hp.
  pose proof (unravel_ravel la lo i j k Hj Hk) as Hun. unfold unravel in Hun.
  injection Hun as H1 H2 H3. rewrite Forall_forall in Hshape.
  assert (Hplane : ∀ plane, plane ∈ g →
            length (flat_map (λ row : list float, row) plane) = la * lo).
  { intros plane Hin. destruct (Hshape _ Hin) as [Hla Hrows].
    rewrite <- Hla. apply length_flat_map_uniform.
    intros row Hrow. rewrite Forall_forall in Hrows. by apply Hrows. }
  rewrite (nth_flat_map_uniform _ g (la * lo) _ []); [| done | by rewrite Hn].
  rewrite H1.
  assert (Hin : nth i g [] ∈ g) by (apply list_elem_of_In, nth_In; lia).
  destruct (Hshape _ Hin) as [Hla Hrows]. rewrite Forall_forall in Hrows.
  rewrite (nth_flat_map_uniform _ _ lo _ []);
    [| intros row Hrow; by apply Hrows
     | rewrite Hla, (Nat.mul_comm la lo); apply Nat.mod_upper_bound; nia].
  by rewrite H2, mod_mod_mul, H3.
Qed.

Lemma ravel_unravel (la lo p : nat) :
  let '(i, j, k) := unravel la lo p in ravel la lo i j k = p.
Proof.
  unfold unravel, ravel.
  pose proof (Nat.div_mod_eq p (la * lo)) as H1.
  pose proof (Nat.div_mod_eq (p mod (la * lo)) lo) as H2.
  rewrite mod_mod_mul in H2. lia.
Qed.

(** The value a row holds for a variable is the value of its grid at the
    place of the row. *)
Lemma grid_values_at (nc : NetCDF.Dataset) (var_dict : pydict string) (key : string)
    (v : NetCDF.Variable_) (g : list (list (list float))) (n la lo p : nat) :
  variable_of nc var_dict key = Some v →
  NetCDF.data v = grid3 g →
  has_shape g n la lo →
  p < n * (la * lo) →
  nth p (grid_values nc var_dict key) nan
  = let '(i, j, k) := unravel la lo p in item3 g i j k.
Proof.
  intros Hv Hdata Hshape Hp. unfold grid_values. rewrite Hv, Hdata.
  pose proof (unravel_bound n la lo p Hp) as Hb.
  pose proof (ravel_unravel la lo p) as Hr.
  destruct (unravel la lo p) as [[i j] k]. destruct Hb as (Hi & Hj & Hk).
  rewrite <- Hr at 1. by apply (flatten_grid3_nth g n).
Qed.
End grids.

(** ** The sets of valid coordinates *)

Section valid_coordinates.
Import Pandas Spec.

Lemma set_of_list_sound (v : value) (l : list value) :
  set_mem v (set_of_list l) = true → set_mem v l = true.
Proof.
  induction l as [| w l IH]; simpl; [done |].
  destruct (set_mem w (set_of_list l)); simpl.
  - intros H. rewrite (IH H). apply orb_true_r.
  - intros [-> | H]%orb_true_iff; [done |]. rewrite (IH H). apply orb_true_r.
Qed.

Lemma occurs_positive (x : float) (l : list float) (j : nat) :
  j < length l → PrimFloat.eqb (nth j l nan) x = true → 0 < occurrences x l.
Proof.
  intros Hj Heq. unfold occurrences.
  assert (Hin : In (nth j l nan) (List.filter (λ y, PrimFloat.eqb y x) l)).
  { apply filter_In. split; [by apply nth_In | done]. }
  destruct (List.filter _ l); [done | simpl; lia].
Qed.

(** A member of the set of latitudes occurs on the latitude axis, and a
    member of the set of longitudes on the longitude axis. *)
Lemma valid_coordinate_occurs (times lats lons : list float) (cols : pydict (list float))
    (lo hi x : float) :
  (set_mem (Num x) (coord_set 1 lo hi (flat_table times lats lons cols)) = true →
   0 < occurrences x lats) ∧
  (set_mem (Num x) (coord_set 2 lo hi (flat_table times lats lons cols)) = true →
   0 < occurrences x lons).
Proof.
  split; intros Hmem%set_of_list_sound; unfold set_mem in Hmem;
    apply existsb_exists in Hmem as (w & Hw & Heq);
    apply in_map_iff in Hw as (r & <- & Hr);
    apply filter_In in Hr as [Hr _]; simpl in Hr;
    apply in_map_iff in Hr as (p & <- & [_ Hp]%in_seq);
    pose proof (unravel_bound _ _ _ p ltac:(simpl in Hp; exact Hp)) as Hb;
    unfold cell, flat_row in Heq; destruct (unravel _ _ p) as [[i j] k];
    destruct Hb as (Hi & Hj & Hk); simpl in Heq.
  - by apply (occurs_positive _ _ j).
  - by apply (occurs_positive _ _ k).
Qed.
End valid_coordinates.

(** ** The queries on a dataset read from a file *)

Section built_queries.
Import Numpy NetCDF Pandas Spec.
Context (nc : Dataset) (times lats lons : list float) (self : DataSet.t).
Hypothesis Hbuilt : built_from nc times lats lons self.

Let var_dict := DataSet._var_dict self.
Let dfl := flat_table times lats lons (grid_columns nc var_dict).

Lemma built_columns : columns dfl = "time" :: "lat" :: "lon" :: data_keys var_dict.
Proof. unfold dfl. simpl. by rewrite grid_columns_keys. Qed.

Lemma built_rows :
  rows dfl
  = map (flat_row times lats lons (map (grid_values nc var_dict) (data_keys var_dict)))
      (seq 0 (length times * (length lats * length lons))).
Proof. unfold dfl. simpl. by rewrite grid_columns_values. Qed.

Lemma data_key_not_axis (v : string) :
  v ∈ data_keys var_dict → v ∉ ["time"; "lat"; "lon"].
Proof.
  intros Hv Hax. destruct Hbuilt.
  apply elem_of_cons in Hax as [-> | Hax].
  { apply data_keys_spec in Hv as [_ Hv]. apply Hv. unfold DataSet.axis_long_names.
    do 2 (apply elem_of_cons; right). apply elem_of_cons. by left. }
  apply elem_of_cons in Hax as [-> | Hax]; [done |].
  apply elem_of_cons in Hax as [-> | Hax]; [done |]. by apply elem_of_nil in Hax.
Qed.

(** The positions of requested data columns, and what their cells hold. *)
Lemma built_positions (names : list string) :
  Forall (λ v, v ∈ data_keys var_dict) names →
  ∃ ps, Forall2 (λ v pos, column_pos v (columns dfl) = Some pos) names ps ∧
        ∀ p, map (λ pos, cell pos
                    (flat_row times lats lons
                       (map (grid_values nc var_dict) (data_keys var_dict)) p)) ps
             = map (λ v, Num (nth p (grid_values nc var_dict v) nan)) names.
Proof.
  intros Hnames.
  destruct (data_positions times lats lons (grid_values nc var_dict)
              (data_keys var_dict) names) as [ps Hps].
  { eapply Forall_impl; [exact Hnames |]. intros v Hv. split; [done |].
    by apply data_key_not_axis. }
  exists ps. rewrite built_columns. split.
  - eapply Forall2_impl; [exact Hps |]. by intros v pos [? _].
  - intros p. induction Hps as [| v pos names' ps' [_ Hcell] _ IH]; simpl; [done |].
    rewrite Hcell, IH; [done |]. by apply Forall_inv_tail in Hnames.
Qed.

Lemma built_coord_timeseries (lat lon : float) (var_long : list string) :
  set_mem (Num lat) (DataSet._lat_set self) = true →
  set_mem (Num lon) (DataSet._lon_set self) = true →
  Forall (λ v, v ∈ data_keys var_dict) var_long →
  DataSet.coord_timeseries self lat lon var_long
  = mret {| columns := "time" :: var_long;
            rows := map (λ p, (p, Num (coords_at times lats lons p).1.1
                                  :: map (λ v, Num (nth p (grid_values nc var_dict v) nan))
                                       var_long))
                      (List.filter
                         (λ p, let '(t, la, lo) := coords_at times lats lons p in
                               PrimFloat.eqb la lat && PrimFloat.eqb lo lon)
                         (seq 0 (length times * (length lats * length lons)))) |}.
Proof.
  intros Hlat Hlon Hvars. destruct (built_positions var_long Hvars) as (ps & Hps & Hcells).
  rewrite (coord_timeseries_table self dfl lat lon var_long 1 2 (0 :: ps));
    [| by destruct Hbuilt | apply flat_table_NoDup | done | done | | done | done].
  - do 2 f_equal. rewrite built_rows, filter_map_comm, map_map.
    erewrite filter_ext; [apply map_ext |].
    + intros p. unfold restrict. rewrite flat_row_label. cbn [map]. rewrite Hcells.
      rewrite flat_row_coords. by destruct (coords_at times lats lons p) as [[t la] lo].
    + intros p. rewrite flat_row_coords.
      by destruct (coords_at times lats lons p) as [[t la] lo].
  - constructor; [by rewrite built_columns | done].
Qed.

Lemma built_time_slice (time : float) (var_long : string) :
  var_long ∈ data_keys var_dict →
  DataSet.time_slice self time var_long
  = mret {| columns := ["lat"; "lon"; var_long];
            rows := map (λ p, let '(t, la, lo) := coords_at times lats lons p in
                              (p, [Num la; Num lo;
                                   Num (nth p (grid_values nc var_dict var_long) nan)]))
                      (List.filter
                         (λ p, PrimFloat.eqb (coords_at times lats lons p).1.1
                                 (as_dtype (DataSet.time_dtype self) time))
                         (seq 0 (length times * (length lats * length lons)))) |}.
Proof.
  intros Hvar.
  destruct (built_positions [var_long]) as (ps & Hps & Hcells); [by constructor |].
  rewrite (time_slice_table self dfl time var_long 0 (1 :: 2 :: ps));
    [| by destruct Hbuilt | apply flat_table_NoDup | done |].
  - do 2 f_equal. rewrite built_rows, filter_map_comm, map_map.
    erewrite filter_ext; [apply map_ext |].
    + intros p. unfold restrict. rewrite flat_row_label. cbn [map]. rewrite Hcells.
      rewrite flat_row_coords. by destruct (coords_at times lats lons p) as [[t la] lo].
    + intros p. rewrite flat_row_coords.
      by destruct (coords_at times lats lons p) as [[t la] lo].
  - rewrite built_columns in *. by do 2 (constructor; [done |]).
Qed.
End built_queries.
(** ** The dictionaries of a file *)

Section dictionaries.
Import Numpy NetCDF Pandas Spec.

Lemma dict_get_set {V} (k k' : string) (v : V) (d : pydict V) :
  dict_get k (dict_set k' v d) = if String.eqb k' k then Some v else dict_get k d.
Proof.
  induction d as [| [k0 v0] d IH]; simpl; [done |].
  destruct (String.eqb_spec k0 k') as [-> | Hne]; simpl.
  - by destruct (String.eqb k' k).
  - rewrite IH. destruct (String.eqb_spec k0 k) as [-> | Hne']; [| done].
    by rewrite (proj2 (String.eqb_neq k' k)) by congruence.
Qed.

Lemma find_snoc {A} (f : A → bool) (l : list A) (x : A) :
  List.find f (l ++ [x])
  = match List.find f l with
    | Some y => Some y
    | None => if f x then Some x else None
    end.
Proof.
  induction l as [| y l IH]; simpl; [done |]. by destruct (f y).
Qed.

(** Filling a dictionary from a list: the last element with a key gives
    the value of the key. *)
Lemma fold_dict_get {A V} (key : A → string) (val : A → V) (l : list A)
    (d0 : pydict V) (k : string) :
  dict_get k (fold_left (λ d x, dict_set (key x) (val x) d) l d0)
  = match List.find (λ x, String.eqb (key x) k) (rev l) with
    | Some x => Some (val x)
    | None => dict_get k d0
    end.
Proof.
  revert d0. induction l as [| x l IH]; intros d0; simpl; [done |].
  rewrite IH, find_snoc, dict_get_set.
  destruct (List.find _ (rev l)); [done |]. by destruct (String.eqb (key x) k).
Qed.

Lemma fold_dict_NoDup {A V} (key : A → string) (val : A → V) (l : list A) (d0 : pydict V) :
  NoDup (dict_keys d0) →
  NoDup (dict_keys (fold_left (λ d x, dict_set (key x) (val x) d) l d0)).
Proof.
  revert d0. induction l as [| x l IH]; intros d0 Hnd; simpl; [done |].
  by apply IH, dict_set_NoDup.
Qed.

Lemma var_dict_fold (vars : list Variable_) (d0 d : pydict string) (tr : list event) :
  io_fold (λ d var, long ← get_long_name var; mret (dict_set long (var_name var) d))
    d0 vars = (tr, inr d) →
  Forall (λ v, is_Some (long_name v)) vars ∧
  d = fold_left (λ d v, dict_set (default "" (long_name v)) (var_name v) d) vars d0.
Proof.
  revert d0 tr. induction vars as [| v vars IH]; intros d0 tr; simpl.
  - intros [= _ <-]. by split.
  - intros H. io_step H as d1 Hd1. io_step Hd1 as l Hl.
    unfold get_long_name in Hl. destruct (long_name v) as [l' |] eqn:Hlong; [| discriminate].
    injection Hl as _ <-. injection Hd1 as _ <-.
    apply IH in H as [Hall ->]. split; [| done].
    constructor; [by eexists | done].
Qed.

(** What the constructor puts in its two dictionaries. *)
Lemma init_dicts (fs : filesystem) (filename : string) (tr : list event) (self : DataSet.t) :
  DataSet.__init__ fs filename = (tr, inr self) →
  ∃ nc,
    fs filename = Some nc ∧
    DataSet._dim_dict self
    = fold_left (λ d dim, dict_set (dim_name dim) (dim_size dim) d) (dimensions nc) [] ∧
    Forall (λ v, is_Some (long_name v)) (variables nc) ∧
    DataSet._var_dict self
    = fold_left (λ d v, dict_set (default "" (long_name v)) (var_name v) d)
        (variables nc) [].
Proof.
  intros H. unfold DataSet.__init__ in H.
  io_step H as nc Hopen. io_step H as var_dict Hvars. io_step H as dfl Hconv.
  io_step H as u Hclose. io_step H as sets Hcoords. injection H as _ <-.
  unfold DataSet.open_dataset in Hopen. io_step Hopen as u' Hemit.
  destruct (fs filename) as [nc' |] eqn:Hfs; [| by io_inv Hopen].
  injection Hopen as _ <-. apply var_dict_fold in Hvars as [Hall ->].
  by exists nc'.
Qed.

Lemma dict_get_key {V} (k : string) (d : pydict V) :
  k ∈ dict_keys d → is_Some (dict_get k d).
Proof.
  induction d as [| [k' v] d IH]; simpl.
  - by intros ?%elem_of_nil.
  - intros [-> | Hin]%elem_of_cons.
    + rewrite String.eqb_refl. by eexists.
    + destruct (String.eqb k' k); [by eexists | by apply IH].
Qed.

Lemma find_by_name (vars : list Variable_) (v : Variable_) :
  NoDup (map var_name vars) → v ∈ vars →
  List.find (λ w, String.eqb (var_name w) (var_name v)) vars = Some v.
Proof.
  induction vars as [| a vars IH]; simpl.
  - by intros _ ?%elem_of_nil.
  - intros [Ha Hnd]%NoDup_cons [-> | Hin]%elem_of_cons.
    + by rewrite String.eqb_refl.
    + destruct (String.eqb_spec (var_name a) (var_name v)) as [Heq | Hne]; [| by apply IH].
      exfalso. apply Ha. rewrite Heq. apply list_elem_of_In, in_map.
      by apply list_elem_of_In.
Qed.

(** Every key of the dictionary of the variables is the long name of a
    variable of the file, whose name is the value of the key. *)
Lemma var_dict_key (vars : list Variable_) (k : string) :
  Forall (λ v, is_Some (long_name v)) vars →
  k ∈ dict_keys (fold_left (λ d v, dict_set (default "" (long_name v)) (var_name v) d)
                   vars []) →
  ∃ v, v ∈ vars ∧ long_name v = Some k ∧
       dict_get k (fold_left (λ d v, dict_set (default "" (long_name v)) (var_name v) d)
                     vars [])
       = Some (var_name v).
Proof.
  intros Hall [short Hget]%dict_get_key. rewrite fold_dict_get in Hget.
  rewrite fold_dict_get.
  destruct (List.find _ (rev vars)) as [v |] eqn:Hfind; [| discriminate].
  apply find_some in Hfind as [Hin Hk%String.eqb_eq].
  apply (proj2 (in_rev _ _)), list_elem_of_In in Hin.
  exists v. split_and!; [done | | done].
  rewrite Forall_forall in Hall. destruct (Hall v Hin) as [l Hl].
  rewrite Hl in *. simpl in Hk. by subst.
Qed.

(** With a long name on every variable, looking for a long name is
    looking for the key it gives. *)
Lemma find_long_name (l : list Variable_) (long : string) :
  Forall (λ v, is_Some (long_name v)) l →
  List.find (λ v, String.eqb (default "" (long_name v)) long) l
  = List.find (λ v, bool_decide (long_name v = Some long)) l.
Proof.
  induction 1 as [| v l [l' Hl'] _ IH]; simpl; [done |].
  rewrite IH, Hl'. simpl.
  destruct (String.eqb_spec l' long) as [-> | Hne].
  - by rewrite bool_decide_eq_true_2.
  - rewrite bool_decide_eq_false_2; [done | congruence].
Qed.

End dictionaries.


(** ** The loops of the loader *)

Section loader_facts.
Import NetCDF Pandas DataLoader LoaderSpec.

Lemma ld_bind_unfold {A B} (m : loader A) (k : A → loader B) (d : gmap string DataSet.t) :
  (m ≫= k) d
  = match m d with
    | (d', (tr, inl e)) => (d', (tr, inl e))
    | (d', (tr, inr a)) => let '(d'', (tr', r)) := k a d' in (d'', (tr ++ tr', r))
    end.
Proof. reflexivity. Qed.

Ltac unfold_loader :=
  unfold contains, _load_dataset, lookup_dataset, lift, delete_dataset,
    mbind, loader_mbind, ld_bind, mret, loader_mret, ld_ret, io_mret, io_ret, raise.

(** The first loop takes the turns of [turn]. *)
Lemma time_series_body_turn (fs : filesystem) (lat lon : float) (var_long : list string)
    (cache : bool) (res_df : DataFrame) (f : string) (d : gmap string DataSet.t) :
  time_series_body fs lat lon var_long cache res_df f d
  = turn fs (series_query lat lon var_long) cache res_df f d.
Proof.
  unfold time_series_body, turn, answer, series_query. unfold_loader.
  destruct (d !! f) as [ds |] eqn:Hd.
  - rewrite bool_decide_eq_true_2 by by eexists. simpl. rewrite Hd.
    destruct (DataSet.coord_timeseries ds lat lon var_long) as [tr [e | curr]]; [done |].
    destruct cache; simpl; rewrite ?Hd; by rewrite ?app_nil_r.
  - rewrite bool_decide_eq_false_2 by by intros [? ?]. simpl.
    destruct (DataSet.__init__ fs f) as [tr0 [e | ds]]; simpl.
    + rewrite Hd. simpl. by rewrite app_nil_r.
    + rewrite lookup_insert_eq. simpl.
      destruct (DataSet.coord_timeseries ds lat lon var_long) as [tr [e | curr]]; [done |].
      destruct cache; simpl; rewrite ?lookup_insert_eq; by rewrite ?app_nil_r.
Qed.

(** And so does the second. *)
Lemma time_slice_daily_body_turn (fs : filesystem) (time : float) (var_long : string)
    (cache : bool) (res_df : DataFrame) (f : string) (d : gmap string DataSet.t) :
  time_slice_daily_body fs time var_long cache res_df f d
  = turn fs (slice_query time var_long) cache res_df f d.
Proof.
  unfold time_slice_daily_body, turn, answer, slice_query. unfold_loader.
  unfold io_mbind, io_bind.
  destruct (d !! f) as [ds |] eqn:Hd.
  - rewrite bool_decide_eq_true_2 by by eexists. simpl. rewrite Hd.
    destruct (DataSet.time_slice ds time var_long) as [tr [e | curr]]; [done |].
    simpl. destruct cache; simpl; rewrite ?Hd; by rewrite ?app_nil_r.
  - rewrite bool_decide_eq_false_2 by by intros [? ?]. simpl.
    destruct (DataSet.__init__ fs f) as [tr0 [e | ds]]; simpl.
    + rewrite Hd. simpl. by rewrite app_nil_r.
    + rewrite lookup_insert_eq. simpl.
      destruct (DataSet.time_slice ds time var_long) as [tr [e | curr]]; [done |].
      simpl. destruct cache; simpl; rewrite ?lookup_insert_eq; by rewrite ?app_nil_r.
Qed.

Lemma ld_fold_ext {A B} (body body' : B → A → loader B) (acc : B) (l : list A)
    (d : gmap string DataSet.t) :
  (∀ acc x d, body acc x d = body' acc x d) →
  ld_fold body acc l d = ld_fold body' acc l d.
Proof.
  intros Hext. revert acc d. induction l as [| x l IH]; intros acc d; [done |].
  simpl. rewrite !ld_bind_unfold, Hext.
  destruct (body' acc x d) as [d' [tr [e | acc']]]; [done |]. by rewrite IH.
Qed.

Lemma ld_fold_cons {A B} (body : B → A → loader B) (acc : B) (x : A) (l : list A)
    (d : gmap string DataSet.t) :
  ld_fold body acc (x :: l) d
  = match body acc x d with
    | (d', (tr, inl e)) => (d', (tr, inl e))
    | (d', (tr, inr acc')) =>
        let '(d'', (tr', r)) := ld_fold body acc' l d' in (d'', (tr ++ tr', r))
    end.
Proof. reflexivity. Qed.

Lemma ld_fold_app {A B} (body : B → A → loader B) (acc : B) (l1 l2 : list A)
    (d : gmap string DataSet.t) :
  ld_fold body acc (l1 ++ l2) d
  = match ld_fold body acc l1 d with
    | (d', (tr, inl e)) => (d', (tr, inl e))
    | (d', (tr, inr acc')) =>
        let '(d'', (tr', r)) := ld_fold body acc' l2 d' in (d'', (tr ++ tr', r))
    end.
Proof.
  revert acc d. induction l1 as [| x l1 IH]; intros acc d.
  - simpl. unfold mret, loader_mret, ld_ret. simpl.
    by destruct (ld_fold body acc l2 d) as [d'' [tr' r]].
  - rewrite <- app_comm_cons, !ld_fold_cons.
    destruct (body acc x d) as [d' [tr [e | acc']]]; [done |].
    rewrite IH. destruct (ld_fold body acc' l1 d') as [d1 [tr1 [e | acc1]]]; [done |].
    destruct (ld_fold body acc1 l2 d1) as [d2 [tr2 r]]. by rewrite app_assoc.
Qed.

(** *** Runs that open no file *)

Lemma opens_app (f : string) (tr1 tr2 : list event) :
  opens f (tr1 ++ tr2) = opens f tr1 + opens f tr2.
Proof. unfold opens. by rewrite List.filter_app, length_app. Qed.

Lemma quiet_nil : quiet [].
Proof. by intros f. Qed.

Lemma quiet_app (tr1 tr2 : list event) : quiet tr1 → quiet tr2 → quiet (tr1 ++ tr2).
Proof. intros H1 H2 f. by rewrite opens_app, H1, H2. Qed.

Lemma quiet_bind {A B} (m : io A) (k : A → io B) :
  quiet (fst m) → (∀ a, quiet (fst (k a))) → quiet (fst (m ≫= k)).
Proof.
  intros Hm Hk. destruct m as [tr [e | a]]; [done |].
  rewrite io_bind_run. simpl. by apply quiet_app.
Qed.

Lemma quiet_fold {A B} (body : B → A → io B) (acc : B) (l : list A) :
  (∀ acc x, quiet (fst (body acc x))) → quiet (fst (io_fold body acc l)).
Proof.
  intros Hbody. revert acc. induction l as [| x l IH]; intros acc; simpl.
  - apply quiet_nil.
  - by apply quiet_bind.
Qed.

Lemma quiet_positions (names cols : list string) : quiet (fst (positions names cols)).
Proof.
  induction names as [| n names IH]; simpl; [apply quiet_nil |].
  destruct (column_pos n cols); [| apply quiet_nil].
  apply quiet_bind; [done |]. intros ps. apply quiet_nil.
Qed.

Lemma quiet_get_column (dfl : DataFrame) (name : string) : quiet (fst (get_column dfl name)).
Proof. unfold get_column. destruct (column_pos _ _); apply quiet_nil. Qed.

Lemma quiet_select_columns (dfl : DataFrame) (names : list string) :
  quiet (fst (select_columns dfl names)).
Proof.
  unfold select_columns. apply quiet_bind; [apply quiet_positions |].
  intros ps. apply quiet_nil.
Qed.

Lemma quiet_the_frame (self : DataSet.t) : quiet (fst (DataSet.the_frame self)).
Proof. unfold DataSet.the_frame. destruct (DataSet.df self); apply quiet_nil. Qed.

Lemma quiet_time_slice (self : DataSet.t) (time : float) (var_long : string) :
  quiet (fst (DataSet.time_slice self time var_long)).
Proof.
  unfold DataSet.time_slice. apply quiet_bind; [apply quiet_the_frame |]. intros dfl.
  apply quiet_bind; [apply quiet_get_column |]. intros times.
  apply quiet_select_columns.
Qed.

Lemma quiet_coord_timeseries (self : DataSet.t) (lat lon : float) (var_long : list string) :
  quiet (fst (DataSet.coord_timeseries self lat lon var_long)).
Proof.
  unfold DataSet.coord_timeseries. destruct (_ && _); [| by intros f].
  apply quiet_bind; [apply quiet_the_frame |]. intros dfl.
  apply quiet_bind; [apply quiet_get_column |]. intros lats.
  apply quiet_bind; [apply quiet_get_column |]. intros lons.
  apply quiet_select_columns.
Qed.

Lemma quiet_series_query (lat lon : float) (var_long : list string) (f : string)
    (ds : DataSet.t) :
  quiet (fst (series_query lat lon var_long f ds)).
Proof. apply quiet_coord_timeseries. Qed.

Lemma quiet_slice_query (time : float) (var_long : string) (f : string) (ds : DataSet.t) :
  quiet (fst (slice_query time var_long f ds)).
Proof.
  unfold slice_query. apply quiet_bind; [apply quiet_time_slice |].
  intros curr. apply quiet_nil.
Qed.

Lemma quiet_getitem (nc : Dataset) (name : string) : quiet (fst (getitem nc name)).
Proof. unfold getitem. destruct (List.find _ _); apply quiet_nil. Qed.

Lemma quiet_iter_1d (a : Numpy.ndarray) : quiet (fst (Numpy.iter_1d a)).
Proof.
  destruct a as [x | items]; simpl; [apply quiet_nil |].
  destruct (mapM _ _); apply quiet_nil.
Qed.

Lemma quiet_convert (var_dict : pydict string) (nc : Dataset) :
  quiet (fst (DataSet._convert2dataframe var_dict nc)).
Proof.
  unfold DataSet._convert2dataframe.
  repeat (apply quiet_bind; [apply quiet_getitem || apply quiet_iter_1d |]; intros ?).
  apply quiet_bind.
  - apply quiet_fold. intros frame k. destruct (str_in _ _); [apply quiet_nil |].
    destruct (dict_get _ _); [| apply quiet_nil].
    apply quiet_bind; [apply quiet_getitem |]. intros v.
    apply quiet_bind; [| intros ser; apply quiet_nil].
    unfold new_series. destruct (Nat.eqb _ _); apply quiet_nil.
  - intros frame. unfold reset_index.
    repeat (destruct (str_in _ _); [apply quiet_nil |]). apply quiet_nil.
Qed.

Lemma quiet_coords_in_range (dfl : DataFrame) (name : string) (lo hi : float) :
  quiet (fst (DataSet.coords_in_range dfl name lo hi)).
Proof.
  unfold DataSet.coords_in_range.
  repeat (apply quiet_bind; [apply quiet_get_column |]; intros ?). apply quiet_nil.
Qed.

Lemma io_bind_assoc {A B C} (m : io A) (k : A → io B) (h : B → io C) :
  (m ≫= k) ≫= h = m ≫= (λ a, k a ≫= h).
Proof.
  unfold mbind, io_mbind, io_bind.
  destruct m as [tr [e | a]]; [done |].
  destruct (k a) as [tr' [e | b]]; [done |].
  destruct (h b) as [tr'' r]. by rewrite app_assoc.
Qed.

Lemma opens_after_open {A} (g f : string) (m : io A) :
  quiet (fst m) →
  opens f (fst (emit (EvOpen g);; m)) = if String.eqb g f then 1 else 0.
Proof.
  intros Hm. unfold emit. rewrite io_bind_run. simpl.
  change (EvOpen g :: fst m) with ([EvOpen g] ++ fst m).
  rewrite opens_app, Hm. unfold opens. simpl. by destruct (String.eqb g f).
Qed.

(** The constructor opens its file once and no other file. *)
Lemma init_opens (fs : filesystem) (g f : string) :
  opens f (fst (DataSet.__init__ fs g)) = if String.eqb g f then 1 else 0.
Proof.
  unfold DataSet.__init__, DataSet.open_dataset.
  rewrite io_bind_assoc. apply opens_after_open.
  destruct (fs g) as [nc |]; [| by intros f'].
  rewrite io_bind_ret. apply quiet_bind.
  - apply quiet_fold. intros d var. apply quiet_bind; [| intros l; apply quiet_nil].
    unfold get_long_name. destruct (long_name var); apply quiet_nil.
  - intros var_dict. apply quiet_bind; [apply quiet_convert |]. intros dfl.
    apply quiet_bind; [by intros f' |]. intros _.
    apply quiet_bind; [| intros sets; apply quiet_nil].
    unfold DataSet._create_coords.
    apply quiet_bind; [apply quiet_coords_in_range |]. intros lat_set.
    apply quiet_bind; [apply quiet_coords_in_range |]. intros lon_set.
    apply quiet_nil.
Qed.

(** *** Appending tables *)

Lemma realign_same (cols : list string) (l : list (nat * list value)) :
  map (realign cols cols) l = l.
Proof.
  erewrite map_ext; [apply map_id |]. intros r. unfold realign. by rewrite decide_True.
Qed.

Lemma filter_none {A} (f : A → bool) (l : list A) :
  (∀ x, x ∈ l → f x = false) → List.filter f l = [].
Proof.
  induction l as [| x l IH]; intros Hf; simpl; [done |].
  rewrite Hf by (apply elem_of_cons; by left).
  apply IH. intros y Hy. apply Hf, elem_of_cons. by right.
Qed.

Lemma filter_all {A} (f : A → bool) (l : list A) :
  (∀ x, x ∈ l → f x = true) → List.filter f l = l.
Proof.
  induction l as [| x l IH]; intros Hf; simpl; [done |].
  rewrite Hf by (apply elem_of_cons; by left).
  f_equal. apply IH. intros y Hy. apply Hf, elem_of_cons. by right.
Qed.

Lemma concat_empty_l (b : DataFrame) : concat empty_frame b = b.
Proof.
  unfold concat. simpl. rewrite filter_all by done. rewrite realign_same. by destruct b.
Qed.

Lemma concat_empty_r (a : DataFrame) : concat a empty_frame = a.
Proof.
  unfold concat. simpl. rewrite !app_nil_r, realign_same. by destruct a.
Qed.

Lemma concat_same_columns (a b : DataFrame) :
  columns a = columns b →
  concat a b = {| columns := columns a; rows := rows a ++ rows b |}.
Proof.
  intros Hcols. unfold concat. rewrite <- Hcols.
  rewrite filter_none, app_nil_r, !realign_same; [done |].
  intros c Hc. apply negb_false_iff. by apply str_in_spec.
Qed.

(** Appending tables of one shape appends their rows. *)
Lemma concat_shaped (cols : list string) (a b : DataFrame) :
  shaped cols a → shaped cols b →
  shaped cols (concat a b) ∧ rows (concat a b) = rows a ++ rows b.
Proof.
  intros [-> | Ha] [-> | Hb].
  - rewrite concat_empty_l. split; [by left | done].
  - rewrite concat_empty_l. split; [by right | done].
  - rewrite concat_empty_r. split; [by right | by rewrite app_nil_r].
  - rewrite concat_same_columns by congruence. split; [by right | done].
Qed.

Lemma fold_concat_rows (cols : list string) (parts : list DataFrame) (acc : DataFrame) :
  shaped cols acc → Forall (shaped cols) parts →
  shaped cols (fold_left concat parts acc) ∧
  rows (fold_left concat parts acc) = rows acc ++ List.concat (map rows parts).
Proof.
  intros Hacc Hparts. revert acc Hacc.
  induction Hparts as [| part parts Hpart _ IH]; intros acc Hacc; simpl.
  - split; [done | by rewrite app_nil_r].
  - destruct (concat_shaped cols acc part Hacc Hpart) as [Hshape Hrows].
    destruct (IH _ Hshape) as [Hshape' Hrows'].
    split; [done |]. by rewrite Hrows', Hrows, <- app_assoc.
Qed.

Lemma select_columns_inr (dfl : DataFrame) (names : list string) (tr : list event)
    (part : DataFrame) :
  select_columns dfl names = (tr, inr part) → columns part = names.
Proof.
  unfold select_columns. intros H. io_step H as ps Hps. by injection H as _ <-.
Qed.

(** The answers of [time_series] have the time and the variables as
    columns, or are the empty table of invalid coordinates. *)
Lemma series_query_shaped (lat lon : float) (var_long : list string) (f : string)
    (ds : DataSet.t) (tr : list event) (part : DataFrame) :
  series_query lat lon var_long f ds = (tr, inr part) →
  shaped ("time" :: var_long) part.
Proof.
  unfold series_query, DataSet.coord_timeseries.
  destruct (_ && _).
  - intros H. io_step H as dfl Hdfl. io_step H as lats Hlats. io_step H as lons Hlons.
    right. by eapply select_columns_inr.
  - intros [= _ <-]. by left.
Qed.

(** The answers of [time_slice_daily] all have the same columns. *)
Lemma slice_query_shaped (time : float) (var_long : string) (f : string)
    (ds : DataSet.t) (tr : list event) (part : DataFrame) :
  slice_query time var_long f ds = (tr, inr part) →
  shaped (columns (set_scalar {| columns := ["lat"; "lon"; var_long]; rows := [] |}
                     "FileName" (Str ""))) part.
Proof.
  unfold slice_query. intros H. io_step H as curr Hcurr. injection H as _ <-.
  unfold DataSet.time_slice in Hcurr.
  io_step Hcurr as dfl Hdfl. io_step Hcurr as times Htimes.
  apply select_columns_inr in Hcurr. right.
  unfold set_scalar. rewrite Hcurr. simpl.
  by destruct (String.eqb var_long "FileName").
Qed.

(** *** The two methods as loops of turns *)

Lemma time_series_turns (fs : filesystem) (files : list string) (lat lon : float)
    (var_long : list string) (cache as_numpy : bool) (d : gmap string DataSet.t) :
  time_series fs files lat lon var_long cache as_numpy d
  = match ld_fold (turn fs (series_query lat lon var_long) cache) empty_frame files d with
    | (d', (tr, inl e)) => (d', (tr, inl e))
    | (d', (tr, inr res_df)) =>
        (d', (tr, inr (if as_numpy then NdArray (to_numpy res_df) else Frame res_df)))
    end.
Proof.
  unfold time_series. rewrite ld_bind_unfold.
  rewrite (ld_fold_ext _ (turn fs (series_query lat lon var_long) cache))
    by (intros; apply time_series_body_turn).
  destruct (ld_fold _ _ _ _) as [d' [tr [e | res]]]; [done |].
  destruct as_numpy; simpl; by rewrite app_nil_r.
Qed.

Lemma time_slice_daily_turns (fs : filesystem) (files : list string) (time : float)
    (var_long : string) (cache : bool) (d : gmap string DataSet.t) :
  time_slice_daily fs files time var_long cache d
  = ld_fold (turn fs (slice_query time var_long) cache) empty_frame files d.
Proof.
  unfold time_slice_daily. apply ld_fold_ext. intros. apply time_slice_daily_body_turn.
Qed.

(** *** The answers of the files of a list *)

Lemma turn_inr (fs : filesystem) (query : string → DataSet.t → io DataFrame)
    (cache : bool) (acc : DataFrame) (f : string) (d d' : gmap string DataSet.t)
    (tr : list event) (out : DataFrame) :
  turn fs query cache acc f d = (d', (tr, inr out)) →
  ∃ ds tr0 tr1 part,
    query f ds = (tr1, inr part) ∧ out = concat acc part ∧ tr = tr0 ++ tr1 ∧
    ((d !! f = Some ds ∧ tr0 = [] ∧ d' = if cache then d else delete f d) ∨
     (d !! f = None ∧ DataSet.__init__ fs f = (tr0, inr ds) ∧
      d' = if cache then <[f := ds]> d else delete f d)).
Proof.
  unfold turn, answer. destruct (d !! f) as [ds |] eqn:Hd.
  - destruct (query f ds) as [tr1 [e | part]] eqn:Hq; [discriminate |].
    intros [= <- <- <-]. exists ds, [], tr1, part. split_and!; try done. by left.
  - destruct (DataSet.__init__ fs f) as [tr0 [e | ds]] eqn:Hinit; [discriminate |].
    destruct (query f ds) as [tr1 [e | part]] eqn:Hq; [discriminate |].
    intros [= <- <- <-]. exists ds, tr0, tr1, part. split_and!; try done. right.
    split_and!; try done. destruct cache; [done | by rewrite delete_insert_eq].
Qed.

Lemma dataset_for_turn (fs : filesystem) (cache : bool) (f g : string) (ds ds' : DataSet.t)
    (d : gmap string DataSet.t) (tr0 : list event) :
  (d !! f = Some ds ∨ DataSet.__init__ fs f = (tr0, inr ds)) →
  dataset_for fs (if cache then <[f := ds]> d else delete f d) g ds' →
  dataset_for fs d g ds'.
Proof.
  intros Hds [Hlook | Hinit]; [| by right].
  destruct cache.
  - destruct (decide (f = g)) as [-> | Hne].
    + rewrite lookup_insert_eq in Hlook. injection Hlook as <-.
      destruct Hds as [? | ?]; [by left | right; by eexists].
    + rewrite lookup_insert_ne in Hlook by done. by left.
  - destruct (decide (f = g)) as [-> | Hne].
    + by rewrite lookup_delete_eq in Hlook.
    + rewrite lookup_delete_ne in Hlook by done. by left.
Qed.

(** A loop that returns has appended, file by file, the answer of the
    dataset the loader has for the file. *)
Lemma loop_parts (fs : filesystem) (query : string → DataSet.t → io DataFrame)
    (cache : bool) (files : list string) (acc out : DataFrame)
    (d d' : gmap string DataSet.t) (tr : list event) :
  ld_fold (turn fs query cache) acc files d = (d', (tr, inr out)) →
  ∃ parts, answers fs query d files parts ∧ out = fold_left concat parts acc.
Proof.
  revert acc d tr. induction files as [| f files IH]; intros acc d tr.
  - intros [= <- <- <-]. exists []. split; [constructor | done].
  - rewrite ld_fold_cons.
    destruct (turn fs query cache acc f d) as [d1 [tr1 [e | acc1]]] eqn:Hturn; [discriminate |].
    destruct (ld_fold _ acc1 files d1) as [d2 [tr2 r]] eqn:Hrest.
    intros [= <- <- ->].
    apply turn_inr in Hturn as (ds & tr0 & tr1' & part & Hq & -> & -> & Hcase).
    apply IH in Hrest as (parts & Hparts & ->).
    exists (part :: parts). split; [| done]. constructor.
    + exists ds, tr1'. split; [| done].
      destruct Hcase as [(Hd & _ & _) | (_ & Hinit & _)]; [by left | right; by eexists].
    + eapply Forall2_impl; [exact Hparts |]. intros g part' (ds' & tr' & Hfor & Hq').
      exists ds', tr'. split; [| done].
      destruct Hcase as [(Hd & _ & ->) | (Hd & Hinit & ->)].
      * apply (dataset_for_turn fs cache f g ds ds' d []); [by left |].
        destruct cache; [by rewrite insert_id | done].
      * apply (dataset_for_turn fs cache f g ds ds' d tr0); [by right | done].
Qed.

(** *** A call that does not cache *)

Lemma loop_evicts (fs : filesystem) (query : string → DataSet.t → io DataFrame)
    (files : list string) (acc out : DataFrame) (d d' : gmap string DataSet.t)
    (tr : list event) :
  ld_fold (turn fs query false) acc files d = (d', (tr, inr out)) →
  d' = fold_left (λ m f, delete f m) files d.
Proof.
  revert acc d tr. induction files as [| f files IH]; intros acc d tr.
  - by intros [= <- <- <-].
  - rewrite ld_fold_cons.
    destruct (turn fs query false acc f d) as [d1 [tr1 [e | acc1]]] eqn:Hturn; [discriminate |].
    destruct (ld_fold _ acc1 files d1) as [d2 [tr2 r]] eqn:Hrest.
    intros [= <- <- ->].
    apply turn_inr in Hturn as (ds & tr0 & tr1' & part & _ & _ & _ & Hcase).
    apply IH in Hrest as ->. simpl.
    by destruct Hcase as [(_ & _ & ->) | (_ & _ & ->)].
Qed.

Lemma lookup_fold_delete {V} (files : list string) (d : gmap string V) (f : string) :
  (f ∈ files → fold_left (λ m f, delete f m) files d !! f = None) ∧
  (f ∉ files → fold_left (λ m f, delete f m) files d !! f = d !! f).
Proof.
  revert d. induction files as [| g files IH]; intros d; simpl.
  - split; [by intros ?%elem_of_nil | done].
  - destruct (IH (delete g d)) as [IHin IHout]. split.
    + intros [-> | Hin]%elem_of_cons; [| by apply IHin].
      destruct (decide (g ∈ files)) as [Hin | Hout]; [by apply IHin |].
      rewrite IHout by done. apply lookup_delete_eq.
    + intros [Hne Hout]%not_elem_of_cons. rewrite IHout by done.
      by apply lookup_delete_ne.
Qed.

(** *** A call that caches *)

Lemma turn_opens (fs : filesystem) (query : string → DataSet.t → io DataFrame)
    (cache : bool) (acc : DataFrame) (f g : string) (d : gmap string DataSet.t) :
  (∀ f ds, quiet (fst (query f ds))) →
  opens g (fst (snd (turn fs query cache acc f d)))
  = match d !! f with
    | Some _ => 0
    | None => if String.eqb f g then 1 else 0
    end.
Proof.
  intros Hq. unfold turn, answer. destruct (d !! f) as [ds |].
  - specialize (Hq f ds g). destruct (query f ds) as [tr1 [e | part]]; simpl in *; done.
  - pose proof (init_opens fs f g) as Hinit.
    destruct (DataSet.__init__ fs f) as [tr0 [e | ds]]; simpl in *.
    + by rewrite opens_app, Hinit, Nat.add_0_r.
    + specialize (Hq f ds g).
      destruct (query f ds) as [tr1 [e | part]]; simpl in *;
        by rewrite opens_app, Hinit, Hq, Nat.add_0_r.
Qed.

(** With caching, a call opens a file at most once, and not at all when
    the file is in the cache or is not asked for. *)
Lemma loop_opens (fs : filesystem) (query : string → DataSet.t → io DataFrame)
    (files : list string) (acc : DataFrame) (d : gmap string DataSet.t) (g : string) :
  (∀ f ds, quiet (fst (query f ds))) →
  opens g (fst (snd (ld_fold (turn fs query true) acc files d))) <= 1 ∧
  (is_Some (d !! g) → opens g (fst (snd (ld_fold (turn fs query true) acc files d))) = 0) ∧
  (g ∉ files → opens g (fst (snd (ld_fold (turn fs query true) acc files d))) = 0).
Proof.
  intros Hq. revert acc d. induction files as [| f files IH]; intros acc d.
  - simpl. unfold opens. simpl. split_and!; [lia | done | done].
  - rewrite ld_fold_cons.
    pose proof (turn_opens fs query true acc f g d Hq) as Hturn.
    destruct (turn fs query true acc f d) as [d1 [tr1 [e | acc1]]] eqn:Hstep; simpl in Hturn.
    + simpl. rewrite Hturn. destruct (d !! f) as [ds |] eqn:Hd; [split_and!; done || lia |].
      destruct (String.eqb_spec f g) as [-> | Hne].
      * split_and!; [lia | | ].
        -- rewrite Hd. by intros [? ?].
        -- intros Hout. exfalso. apply Hout, elem_of_cons. by left.
      * split_and!; done || lia.
    + specialize (IH acc1 d1).
      destruct (ld_fold _ acc1 files d1) as [d2 [tr2 r]]. simpl in *.
      rewrite opens_app, Hturn. destruct IH as (IH1 & IH2 & IH3).
      apply turn_inr in Hstep as (ds & tr0 & tr1' & part & _ & _ & _ & Hcase).
      destruct Hcase as [(Hd & _ & ->) | (Hd & _ & ->)]; rewrite Hd.
      * split_and!; [lia | done |]. intros Hout. apply IH3.
        intros Hin. apply Hout, elem_of_cons. by right.
      * destruct (String.eqb_spec f g) as [-> | Hne].
        -- rewrite IH2 by (rewrite lookup_insert_eq; by eexists).
           split_and!; [lia | | ].
           ++ rewrite Hd. by intros [? ?].
           ++ intros Hout. exfalso. apply Hout, elem_of_cons. by left.
        -- split_and!; [lia | |].
           ++ intros Hsome. apply IH2. by rewrite lookup_insert_ne.
           ++ intros Hout. apply IH3. intros Hin. apply Hout, elem_of_cons. by right.
Qed.

(** *** A file the constructor fails on *)

(** The datasets of the cache during a call are those of before the call
    and those the constructor made. *)
Lemma turn_cache_sound (fs : filesystem) (query : string → DataSet.t → io DataFrame)
    (cache : bool) (acc : DataFrame) (f g : string) (d : gmap string DataSet.t)
    (ds' : DataSet.t) :
  fst (turn fs query cache acc f d) !! g = Some ds' → dataset_for fs d g ds'.
Proof.
  unfold turn, answer. destruct (d !! f) as [ds |] eqn:Hd.
  - destruct (query f ds) as [tr1 [e | part]]; simpl; [by left |].
    destruct cache; [by left |]. intros Hlook. left.
    destruct (decide (f = g)) as [-> | Hne]; [by rewrite lookup_delete_eq in Hlook |].
    by rewrite lookup_delete_ne in Hlook.
  - destruct (DataSet.__init__ fs f) as [tr0 [e | ds]] eqn:Hinit; simpl; [by left |].
    assert (Hins : <[f := ds]> d !! g = Some ds' → dataset_for fs d g ds').
    { destruct (decide (f = g)) as [-> | Hne].
      - rewrite lookup_insert_eq. intros [= <-]. right. by eexists.
      - rewrite lookup_insert_ne by done. by left. }
    destruct (query f ds) as [tr1 [e | part]]; simpl; [done |].
    destruct cache; [done |]. intros Hlook. apply Hins.
    destruct (decide (f = g)) as [-> | Hne]; [by rewrite lookup_delete_eq in Hlook |].
    by rewrite lookup_delete_ne in Hlook.
Qed.

Lemma dataset_for_trans (fs : filesystem) (d d1 : gmap string DataSet.t) :
  (∀ g ds, d1 !! g = Some ds → dataset_for fs d g ds) →
  ∀ g ds, dataset_for fs d1 g ds → dataset_for fs d g ds.
Proof. intros Hsound g ds [Hlook | Hinit]; [by apply Hsound | by right]. Qed.

Lemma loop_cache_sound (fs : filesystem) (query : string → DataSet.t → io DataFrame)
    (cache : bool) (files : list string) (acc : DataFrame) (d : gmap string DataSet.t)
    (g : string) (ds' : DataSet.t) :
  fst (ld_fold (turn fs query cache) acc files d) !! g = Some ds' →
  dataset_for fs d g ds'.
Proof.
  revert acc d. induction files as [| f files IH]; intros acc d.
  - simpl. by left.
  - rewrite ld_fold_cons.
    pose proof (turn_cache_sound fs query cache acc f) as Hturn.
    destruct (turn fs query cache acc f d) as [d1 [tr1 [e | acc1]]] eqn:Hstep.
    + simpl. intros Hlook. specialize (Hturn g d ds'). rewrite Hstep in Hturn. by apply Hturn.
    + specialize (IH acc1 d1).
      destruct (ld_fold _ acc1 files d1) as [d2 [tr2 r]]. simpl in *.
      intros Hlook. apply (dataset_for_trans fs d d1); [| by apply IH].
      intros g' ds'' Hg. specialize (Hturn g' d ds''). rewrite Hstep in Hturn. by apply Hturn.
Qed.

(** The first file the constructor fails on ends the call with the
    KeyError of the lookup. *)
Lemma loop_fails (fs : filesystem) (query : string → DataSet.t → io DataFrame)
    (cache : bool) (pre post : list string) (f : string) (acc acc1 : DataFrame)
    (d d1 : gmap string DataSet.t) (tr1 tr_e : list event) (e : exn) :
  ld_fold (turn fs query cache) acc pre d = (d1, (tr1, inr acc1)) →
  d !! f = None →
  DataSet.__init__ fs f = (tr_e, inl e) →
  d1 !! f = None ∧
  ld_fold (turn fs query cache) acc (pre ++ f :: post) d
  = (d1, (tr1 ++ tr_e ++ [EvPrint "Dataset was not opened"], inl (KeyError f))).
Proof.
  intros Hpre Hd Hinit.
  assert (Hd1 : d1 !! f = None).
  { destruct (d1 !! f) as [ds |] eqn:Hlook; [| done].
    pose proof (loop_cache_sound fs query cache pre acc d f ds) as Hsound.
    rewrite Hpre in Hsound. destruct (Hsound Hlook) as [? | [tr Hok]]; congruence. }
  split; [done |].
  rewrite ld_fold_app, Hpre, ld_fold_cons. unfold turn at 1. by rewrite Hd1, Hinit.
Qed.

(** A file of the list that is not in the cache and on which the
    constructor fails makes the call raise, and leaves no entry. *)
Lemma loop_aborts (fs : filesystem) (query : string → DataSet.t → io DataFrame)
    (cache : bool) (files : list string) (f : string) (acc : DataFrame)
    (d : gmap string DataSet.t) (tr_e : list event) (e : exn) :
  f ∈ files → d !! f = None →
  DataSet.__init__ fs f = (tr_e, inl e) →
  ∃ d' tr err,
    ld_fold (turn fs query cache) acc files d = (d', (tr, inl err)) ∧ d' !! f = None.
Proof.
  intros Hin Hd Hinit.
  destruct (ld_fold (turn fs query cache) acc files d) as [d' [tr [err | out]]] eqn:Hloop.
  - exists d', tr, err. split; [done |].
    destruct (d' !! f) as [ds |] eqn:Hlook; [| done].
    pose proof (loop_cache_sound fs query cache files acc d f ds) as Hsound.
    rewrite Hloop in Hsound. destruct (Hsound Hlook) as [? | [tr' Hok]]; congruence.
  - exfalso. apply loop_parts in Hloop as (parts & Hparts & _).
    unfold answers in Hparts. apply list_elem_of_lookup in Hin as [i Hi].
    destruct (Forall2_lookup_l _ _ _ _ _ Hparts Hi) as (part & _ & ds & tr' & Hfor & _).
    destruct Hfor as [? | [tr'' Hok]]; congruence.
Qed.

(** *** The entries of the other files *)

Lemma turn_other (fs : filesystem) (query : string → DataSet.t → io DataFrame)
    (cache : bool) (acc : DataFrame) (f g : string) (d : gmap string DataSet.t) :
  f ≠ g → fst (turn fs query cache acc f d) !! g = d !! g.
Proof.
  intros Hne. unfold turn, answer. destruct (d !! f) as [ds |].
  - destruct (query f ds) as [tr1 [e | part]]; simpl; [done |].
    destruct cache; [done | by apply lookup_delete_ne].
  - destruct (DataSet.__init__ fs f) as [tr0 [e | ds]]; simpl; [done |].
    destruct (query f ds) as [tr1 [e | part]]; simpl.
    + by apply lookup_insert_ne.
    + destruct cache; [by apply lookup_insert_ne |].
      rewrite lookup_delete_ne by done. by apply lookup_insert_ne.
Qed.

(** A call touches no entry of a file it is not asked for. *)
Lemma loop_other (fs : filesystem) (query : string → DataSet.t → io DataFrame)
    (cache : bool) (files : list string) (acc : DataFrame) (d : gmap string DataSet.t)
    (g : string) :
  g ∉ files → fst (ld_fold (turn fs query cache) acc files d) !! g = d !! g.
Proof.
  revert acc d. induction files as [| f files IH]; intros acc d Hout; [done |].
  apply not_elem_of_cons in Hout as [Hne Hout].
  rewrite ld_fold_cons.
  pose proof (turn_other fs query cache acc f g d (not_eq_sym Hne)) as Hturn.
  destruct (turn fs query cache acc f d) as [d1 [tr1 [e | acc1]]]; [done |].
  specialize (IH acc1 d1 Hout).
  destruct (ld_fold _ acc1 files d1) as [d2 [tr2 r]]. simpl in *. congruence.
Qed.
End loader_facts.

(** * The dataset of one file *)

Section dataset_claims.
Import Numpy NetCDF Pandas Spec.

(** The two small files load into the two datasets. *)
Example load_day :
  DataSet.__init__ Example.disc "day.nc4"
  = ([EvOpen "day.nc4"; EvClose "day.nc4"], inr Example.day).
Proof. vm_compute. reflexivity. Qed.

Lemma no_hit_no_row (time : float) (times lats lons : list float) :
  occurrences time times = 0 →
  List.filter (λ p, PrimFloat.eqb (coords_at times lats lons p).1.1 time)
    (seq 0 (length times * (length lats * length lons))) = [].
Proof.
  intros Hocc.
  destruct (List.filter _ _) as [| p hits] eqn:Hhits; [done |]. exfalso.
  assert (Hp : In p (p :: hits)) by by left.
  rewrite <- Hhits in Hp. apply filter_In in Hp as [[_ Hp]%in_seq Heq].
  pose proof (unravel_bound _ _ _ p ltac:(simpl in Hp; exact Hp)) as Hb.
  unfold coords_at in Heq. destruct (unravel _ _ p) as [[i j] k].
  destruct Hb as (Hi & _ & _). simpl in Heq.
  pose proof (occurs_positive _ _ _ Hi Heq). lia.
Qed.

(** C3, amended. The constructor builds the table with one row for
    every element of the product of the time, latitude and longitude axes
    of the file, in the order of the product: the row of the i-th time,
    j-th latitude and k-th longitude has number i * (la * lo) + j * lo + k
    and carries these three coordinates. After the three coordinate
    columns comes one column for every long name of the file other than
    longitude, latitude and time: a column for a long name, not for a
    variable. Every variable has a long name that is one of these three or
    the label of a column; the column of a long name holds the array of
    the variable that the file gives for the name of the last variable
    with that long name, which with pairwise different names is that last
    variable itself. A row holds in the column the element of the
    flattened array at the number of the row, which for an array of the
    shape of the axes is its value at (i, j, k). *)
Theorem convert2dataframe_product_order
    (fs : filesystem) (filename : string) (tr : list event) (self : DataSet.t) :
  DataSet.__init__ fs filename = (tr, inr self) →
  ∃ nc times lats lons dfl,
    fs filename = Some nc ∧
    axis nc "time" = Some times ∧ axis nc "lat" = Some lats ∧
    axis nc "lon" = Some lons ∧
    DataSet.df self = Some dfl ∧
    columns dfl = "time" :: "lat" :: "lon" :: data_keys (DataSet._var_dict self) ∧
    (∀ key, key ∈ data_keys (DataSet._var_dict self) ↔
            (key ∉ DataSet.axis_long_names) ∧
            ∃ v, v ∈ variables nc ∧ long_name v = Some key) ∧
    (∀ v, v ∈ variables nc →
       ∃ l, long_name v = Some l ∧
            (l ∈ DataSet.axis_long_names ∨ l ∈ columns dfl)) ∧
    (∀ key, key ∈ data_keys (DataSet._var_dict self) →
       ∃ last v,
         List.find (λ v, bool_decide (long_name v = Some key)) (rev (variables nc))
         = Some last ∧
         List.find (λ v, String.eqb (var_name v) (var_name last)) (variables nc) = Some v ∧
         (NoDup (map var_name (variables nc)) → v = last) ∧
         grid_values nc (DataSet._var_dict self) key = flatten (data v) ∧
         length (flatten (data v)) = length times * (length lats * length lons)) ∧
    length (rows dfl) = length times * (length lats * length lons) ∧
    (∀ i j k, i < length times → j < length lats → k < length lons →
       rows dfl !! ravel (length lats) (length lons) i j k
       = Some (ravel (length lats) (length lons) i j k,
               Num (nth i times nan) :: Num (nth j lats nan) :: Num (nth k lons nan)
               :: map (λ key, Num (nth (ravel (length lats) (length lons) i j k)
                                     (grid_values nc (DataSet._var_dict self) key) nan))
                    (data_keys (DataSet._var_dict self)))) ∧
    (∀ key v g i j k,
       variable_of nc (DataSet._var_dict self) key = Some v →
       data v = grid3 g →
       has_shape g (length times) (length lats) (length lons) →
       i < length times → j < length lats → k < length lons →
       nth (ravel (length lats) (length lons) i j k)
         (grid_values nc (DataSet._var_dict self) key) nan
       = item3 g i j k).
Proof.
  intros Hinit.
  pose proof Hinit as (nc' & Hfs' & _ & Hlong & Hdict)%init_dicts.
  pose proof Hinit as (nc & times & lats & lons & Hfs & -> & Hb)%init_inr.
  assert (nc' = nc) as -> by congruence. clear Hfs'.
  exists nc, times, lats, lons, (flat_table times lats lons (grid_columns nc (DataSet._var_dict self))).
  pose proof (built_columns nc times lats lons self) as Hcols.
  pose proof (built_rows nc times lats lons self) as Hrows.
  assert (Hlast : ∀ key, key ∈ dict_keys (DataSet._var_dict self) →
    ∃ last v,
      List.find (λ v, bool_decide (long_name v = Some key)) (rev (variables nc))
      = Some last ∧
      List.find (λ v, String.eqb (var_name v) (var_name last)) (variables nc) = Some v ∧
      (NoDup (map var_name (variables nc)) → v = last) ∧
      grid_values nc (DataSet._var_dict self) key = flatten (data v)).
  { intros key Hkey. rewrite Hdict in Hkey.
    destruct (var_dict_key _ _ Hlong Hkey) as (w & Hw & Hl & Hget).
    rewrite <- Hdict in Hget. rewrite Hdict, fold_dict_get in Hget.
    rewrite (find_long_name _ _ (Forall_rev Hlong)) in Hget.
    destruct (List.find _ (rev (variables nc))) as [last |] eqn:Hfind; [| discriminate].
    injection Hget as Hname.
    assert (Hin : last ∈ variables nc).
    { apply find_some in Hfind as [Hin _].
      by apply (proj2 (in_rev _ _)), list_elem_of_In in Hin. }
    destruct (List.find (λ v, String.eqb (var_name v) (var_name last)) (variables nc))
      as [v |] eqn:Hv.
    - exists last, v. split_and!; [done | done | |].
      + intros Hnd. rewrite (find_by_name _ last Hnd Hin) in Hv. by injection Hv.
      + unfold grid_values, variable_of. rewrite Hdict, fold_dict_get.
        rewrite (find_long_name _ _ (Forall_rev Hlong)), Hfind. by rewrite Hv.
    - exfalso. apply list_elem_of_In in Hin.
      eapply (find_none _ _ Hv) in Hin. by rewrite String.eqb_refl in Hin. }
  destruct Hb. split_and!; try done.
  - intros key. rewrite data_keys_spec. split.
    + intros [Hkey Hax]. split; [done |]. rewrite Hdict in Hkey.
      destruct (var_dict_key _ _ Hlong Hkey) as (w & Hw & Hl & _). by exists w.
    + intros [Hax (v & Hv & Hl)]. split; [| done].
      rewrite Forall_forall in built_vars0.
      destruct (built_vars0 v Hv) as (l & Hl' & Hin). congruence.
  - intros v Hv. rewrite Forall_forall in built_vars0.
    destruct (built_vars0 v Hv) as (l & Hl & Hin). exists l. split; [done |].
    destruct (decide (l ∈ DataSet.axis_long_names)) as [| Hout]; [by left | right].
    rewrite Hcols. do 3 (apply elem_of_cons; right). by apply data_keys_spec.
  - intros key Hkey.
    destruct (Hlast key) as (last & v & Hfind & Hv & Hsame & Hgrid).
    { by apply data_keys_spec in Hkey as [? _]. }
    exists last, v. split_and!; try done.
    rewrite Forall_forall in built_lengths0. rewrite <- Hgrid. by apply built_lengths0.
  - apply flat_table_length.
  - intros i j k Hi Hj Hk. rewrite Hrows, list_lookup_fmap.
    rewrite lookup_seq_lt by by apply ravel_bound. simpl.
    unfold flat_row. rewrite unravel_ravel by done. by rewrite map_map.
  - intros key v g i j k Hv Hdata Hshape Hi Hj Hk.
    unfold grid_values. rewrite Hv, Hdata. by eapply flatten_grid3_nth.
Qed.

(** On the file of two days the row of the second time, first latitude
    and second longitude is row 5 and carries the grid value 6. *)
Lemma convert2dataframe_product_order_day :
  ∃ dfl, DataSet.df Example.day = Some dfl ∧
         columns dfl = ["time"; "lat"; "lon"; "total_precipitation"] ∧
         rows dfl !! 5 = Some (5, [Num 1; Num 32.5; Num 40; Num 6]).
Proof.
  destruct (convert2dataframe_product_order _ _ _ _ load_day)
    as (nc & times & lats & lons & dfl & Hfs & Ht & Hla & Hlo & Hdf & Hcols & _).
  exists dfl. split; [exact Hdf |].
  injection Hdf as <-. split; reflexivity.
Defined.

(** C3 as it is stated fails on a file in which two variables have one
    long name, or a variable on the grid has the long name of the time
    axis: of the three variables PRECTOT, PRECCON and TSTAMP, which are no
    axes and hold 1, 2 and 3, the table has the one column precipitation,
    with the 2 of PRECCON. *)
Lemma convert2dataframe_shared_long_name :
  DataSet.__init__ Example.more_disc "shared.nc4"
  = ([EvOpen "shared.nc4"; EvClose "shared.nc4"], inr Example.shared_name) ∧
  map (λ v, (var_name v, long_name v, flatten (data v)))
    (variables Example.shared_name_file)
  = [("lon", Some "longitude", [35]); ("lat", Some "latitude", [32.5]);
     ("time", Some "time", [0]); ("PRECTOT", Some "precipitation", [1]);
     ("PRECCON", Some "precipitation", [2]); ("TSTAMP", Some "time", [3])]%float ∧
  DataSet.df Example.shared_name
  = Some {| columns := ["time"; "lat"; "lon"; "precipitation"];
            rows := [(0, [Num 0; Num 32.5; Num 35; Num 2])] |}.
Proof. vm_compute. split_and!; reflexivity. Qed.

(** C2, amended. For a dataset read from a file, a latitude of its set
    of latitudes, a longitude of its set of longitudes and requested
    variables that have a column, [coord_timeseries] raises nothing,
    prints nothing and returns the rows of the table at that latitude and
    longitude, in the order of the table: for every time stamp of the
    time axis, in order, one row for every place where the latitude
    occurs on its axis and every place where the longitude occurs on its
    axis. Their number is the length of the time axis times the two
    numbers of occurrences, which are positive; so there is exactly one
    row for each entry of the time axis when the latitude and the
    longitude occur once on their axes. A row carries its time stamp and,
    for every requested variable, the value of the flattened grid of the
    variable at the number of the row, which for a grid of the shape of
    the axes is the value of the grid at the place (i, j, k) of the row's
    time, latitude and longitude. On the file of two days the rows at
    (32.5, 35) are (time 0, value 1) and (time 1, value 5), in this
    order. *)
Theorem coord_timeseries_rows :
  (∀ (fs : filesystem) (filename : string) (tr : list event) (self : DataSet.t)
     (lat lon : float) (var_long : list string),
     DataSet.__init__ fs filename = (tr, inr self) →
     set_mem (Num lat) (DataSet._lat_set self) = true →
     set_mem (Num lon) (DataSet._lon_set self) = true →
     Forall (λ v, v ∈ data_keys (DataSet._var_dict self)) var_long →
     ∃ nc times lats lons hits,
       fs filename = Some nc ∧
       axis nc "time" = Some times ∧ axis nc "lat" = Some lats ∧
       axis nc "lon" = Some lons ∧
       hits = List.filter
                (λ p, let '(t, la, lo) := coords_at times lats lons p in
                      PrimFloat.eqb la lat && PrimFloat.eqb lo lon)
                (seq 0 (length times * (length lats * length lons))) ∧
       DataSet.coord_timeseries self lat lon var_long
       = ([], inr {| columns := "time" :: var_long;
                     rows := map (λ p, (p, Num (coords_at times lats lons p).1.1
                                           :: map (λ v, Num (nth p (grid_values nc
                                                              (DataSet._var_dict self) v) nan))
                                                var_long))
                               hits |}) ∧
       length hits = length times * (occurrences lat lats * occurrences lon lons) ∧
       0 < occurrences lat lats ∧ 0 < occurrences lon lons ∧
       (occurrences lat lats = 1 → occurrences lon lons = 1 →
        length hits = length times) ∧
       (∀ p v var g,
          In p hits →
          variable_of nc (DataSet._var_dict self) v = Some var →
          data var = grid3 g →
          has_shape g (length times) (length lats) (length lons) →
          nth p (grid_values nc (DataSet._var_dict self) v) nan
          = let '(i, j, k) := unravel (length lats) (length lons) p in item3 g i j k)) ∧
  DataSet.coord_timeseries Example.day 32.5 35 ["total_precipitation"]
  = ([], inr {| columns := ["time"; "total_precipitation"];
                rows := [(0, [Num 0; Num 1]); (4, [Num 1; Num 5])] |}).
Proof.
  split; [| vm_compute; reflexivity].
  intros fs filename tr self lat lon var_long Hinit Hlat Hlon Hvars.
  apply init_inr in Hinit as (nc & times & lats & lons & Hfs & -> & Hb).
  eexists nc, times, lats, lons, _.
  pose proof (built_coord_timeseries nc times lats lons self Hb lat lon var_long
                Hlat Hlon Hvars) as Hquery.
  pose proof (count_hits lat lon times lats lons) as Hcount.
  destruct Hb. rewrite built_lat_set0 in Hlat. rewrite built_lon_set0 in Hlon.
  apply valid_coordinate_occurs in Hlat. apply valid_coordinate_occurs in Hlon.
  split_and!; try done.
  - intros H1 H2. rewrite Hcount, H1, H2. lia.
  - intros p v var g [[_ Hp]%in_seq _]%filter_In Hv Hdata Hshape.
    by eapply grid_values_at.
Qed.

(** The file of two days, at (32.5, 35): two rows for two time stamps. *)
Lemma coord_timeseries_rows_day :
  DataSet.__init__ Example.disc "day.nc4"
  = ([EvOpen "day.nc4"; EvClose "day.nc4"], inr Example.day) ∧
  ∃ nc times lats lons hits,
    Example.disc "day.nc4" = Some nc ∧
    axis nc "time" = Some times ∧ axis nc "lat" = Some lats ∧
    axis nc "lon" = Some lons ∧
    hits = List.filter
             (λ p, let '(t, la, lo) := coords_at times lats lons p in
                   PrimFloat.eqb la 32.5%float && PrimFloat.eqb lo 35%float)
             (seq 0 (length times * (length lats * length lons))) ∧
    DataSet.coord_timeseries Example.day 32.5 35 ["total_precipitation"]
    = ([], inr {| columns := ["time"; "total_precipitation"];
                  rows := map (λ p, (p, Num (coords_at times lats lons p).1.1
                                        :: map (λ v, Num (nth p (grid_values nc
                                                     (DataSet._var_dict Example.day) v) nan))
                                             ["total_precipitation"]))
                            hits |}) ∧
    length hits = length times * (occurrences 32.5 lats * occurrences 35 lons) ∧
    0 < occurrences 32.5 lats ∧ 0 < occurrences 35 lons ∧
    (occurrences 32.5 lats = 1 → occurrences 35 lons = 1 →
     length hits = length times) ∧
    (∀ p v var g,
       In p hits →
       variable_of nc (DataSet._var_dict Example.day) v = Some var →
       data var = grid3 g →
       has_shape g (length times) (length lats) (length lons) →
       nth p (grid_values nc (DataSet._var_dict Example.day) v) nan
       = let '(i, j, k) := unravel (length lats) (length lons) p in item3 g i j k).
Proof.
  split; [vm_compute; reflexivity |].
  apply (proj1 coord_timeseries_rows Example.disc "day.nc4"
           [EvOpen "day.nc4"; EvClose "day.nc4"] Example.day 32.5%float 35%float
           ["total_precipitation"]).
  - vm_compute. reflexivity.
  - vm_compute. reflexivity.
  - vm_compute. reflexivity.
  - repeat constructor.
Defined.

(** C2 as it is stated fails on a file that repeats a time stamp: the
    time axis [0, 0] has one distinct value, and (32.5, 35) are valid
    coordinates of the dataset, but the query returns two rows. *)
Lemma coord_timeseries_repeated_time :
  DataSet.__init__ Example.disc "repeated.nc4"
  = ([EvOpen "repeated.nc4"; EvClose "repeated.nc4"], inr Example.repeated) ∧
  axis Example.repeated_time_file "time" = Some [0; 0]%float ∧
  length (set_of_list (map Num [0; 0]%float)) = 1 ∧
  set_mem (Num 32.5) (DataSet._lat_set Example.repeated) = true ∧
  set_mem (Num 35) (DataSet._lon_set Example.repeated) = true ∧
  DataSet.coord_timeseries Example.repeated 32.5 35 ["total_precipitation"]
  = ([], inr {| columns := ["time"; "total_precipitation"];
                rows := [(0, [Num 0; Num 1]); (1, [Num 0; Num 5])] |}).
Proof. vm_compute. repeat split. Qed.

(** C4. When the latitude is not in the set of latitudes of a dataset, or
    the longitude not in its set of longitudes, [coord_timeseries] prints
    a line, raises nothing and returns the empty table, whatever the
    variables asked for and whatever the state of the table. *)
Theorem coord_timeseries_invalid
    (self : DataSet.t) (lat lon : float) (var_long : list string) :
  set_mem (Num lat) (DataSet._lat_set self) = false
  ∨ set_mem (Num lon) (DataSet._lon_set self) = false →
  DataSet.coord_timeseries self lat lon var_long
  = ([EvPrint "incorrect coordinates"], inr empty_frame) ∧
  rows empty_frame = [].
Proof.
  intros Hout. split; [| done]. unfold DataSet.coord_timeseries.
  destruct Hout as [-> | ->]; [by rewrite andb_false_r | done].
Qed.

(** Latitude 10 is not on the grid of the file of two days. *)
Lemma coord_timeseries_invalid_day :
  (set_mem (Num 10) (DataSet._lat_set Example.day) = false
   ∨ set_mem (Num 35) (DataSet._lon_set Example.day) = false) ∧
  DataSet.coord_timeseries Example.day 10 35 ["total_precipitation"]
  = ([EvPrint "incorrect coordinates"], inr empty_frame) ∧
  rows empty_frame = [].
Proof.
  split; [left; vm_compute; reflexivity |].
  apply (coord_timeseries_invalid Example.day 10%float 35%float ["total_precipitation"]).
  left. vm_compute. reflexivity.
Defined.

(** A name that is no column of the table makes the selection of the
    columns raise. *)
Lemma time_slice_unknown_variable
    (fs : filesystem) (filename : string) (tr : list event) (self : DataSet.t)
    (time : float) (var_long : string) :
  DataSet.__init__ fs filename = (tr, inr self) →
  var_long ∉ "time" :: "lat" :: "lon" :: data_keys (DataSet._var_dict self) →
  DataSet.time_slice self time var_long = ([], inl (KeyError var_long)).
Proof.
  intros (nc & times & lats & lons & Hfs & -> & Hb)%init_inr Hout.
  pose proof (built_columns nc times lats lons self) as Hcols.
  destruct Hb. unfold DataSet.time_slice, DataSet.the_frame, get_column.
  rewrite built_df0. cbv iota. rewrite io_bind_ret, Hcols.
  change (column_pos "time" _) with (Some 0). cbv iota. rewrite io_bind_ret.
  unfold select_columns. cbn [columns loc]. rewrite Hcols.
  apply column_pos_None in Hout.
  unfold positions. change (column_pos "lat" _) with (Some 1).
  change (column_pos "lon" _) with (Some 2). by rewrite Hout.
Qed.

(** The file with the float32 time axis loads into its dataset. *)
Example load_float32_time :
  DataSet.__init__ Example.more_disc "float32.nc4"
  = ([EvOpen "float32.nc4"; EvClose "float32.nc4"], inr Example.float32_time).
Proof. vm_compute. reflexivity. Qed.

(** C5, amended. For a dataset read from a file, the name of the variable
    alone decides whether [time_slice] raises: for a name that is no
    column of the table it raises a KeyError, at every time. For a name
    that is a column it prints nothing, raises nothing and returns, for
    every time [t], the rows of the table whose time equals [t], in the
    order of the table and on the columns lat, lon and the variable. The
    times are compared as pandas compares them, in the dtype of the time
    column, which is the dtype of the variable time of the file: [t] is
    converted to it, so that on a float32 time axis the Python float 0.1
    finds the stamp float32(0.1). Neither the time nor a coordinate is
    checked; when no row has the time [t] the table that is returned has
    these three columns and no row. *)
Theorem time_slice_rows
    (fs : filesystem) (filename : string) (tr : list event) (self : DataSet.t)
    (var_long : string) :
  DataSet.__init__ fs filename = (tr, inr self) →
  ∃ nc time_var dfl,
    fs filename = Some nc ∧
    List.find (λ v, String.eqb (var_name v) "time") (variables nc) = Some time_var ∧
    DataSet.time_dtype self = var_dtype time_var ∧
    DataSet.df self = Some dfl ∧
    column_pos "time" (columns dfl) = Some 0 ∧
    column_pos "lat" (columns dfl) = Some 1 ∧
    column_pos "lon" (columns dfl) = Some 2 ∧
    (var_long ∉ columns dfl →
     ∀ time, ∃ key, DataSet.time_slice self time var_long = ([], inl (KeyError key))) ∧
    (var_long ∈ columns dfl →
     ∃ pos,
       column_pos var_long (columns dfl) = Some pos ∧
       (∀ time,
          DataSet.time_slice self time var_long
          = ([], inr {| columns := ["lat"; "lon"; var_long];
                        rows := map (restrict [1; 2; pos])
                                  (List.filter
                                     (λ r, py_eq (cell 0 r)
                                             (as_dtype (var_dtype time_var) time))
                                     (rows dfl)) |})) ∧
       (∀ time,
          Forall (λ r, py_eq (cell 0 r) (as_dtype (var_dtype time_var) time) = false)
            (rows dfl) →
          DataSet.time_slice self time var_long
          = ([], inr {| columns := ["lat"; "lon"; var_long]; rows := [] |}))) ∧
    (var_long ∈ data_keys (DataSet._var_dict self) →
     ∃ times lats lons,
       axis nc "time" = Some times ∧ axis nc "lat" = Some lats ∧
       axis nc "lon" = Some lons ∧
       ∀ time,
         DataSet.time_slice self time var_long
         = ([], inr {| columns := ["lat"; "lon"; var_long];
                       rows := map (λ p, let '(t, la, lo) := coords_at times lats lons p in
                                         (p, [Num la; Num lo;
                                              Num (nth p (grid_values nc
                                                     (DataSet._var_dict self) var_long) nan)]))
                                 (List.filter
                                    (λ p, PrimFloat.eqb (coords_at times lats lons p).1.1
                                            (as_dtype (var_dtype time_var) time))
                                    (seq 0 (length times * (length lats * length lons)))) |}) ∧
         (occurrences (as_dtype (var_dtype time_var) time) times = 0 →
          DataSet.time_slice self time var_long
          = ([], inr {| columns := ["lat"; "lon"; var_long]; rows := [] |}))).
Proof.
  intros Hinit.
  pose proof Hinit as (nc & times & lats & lons & Hfs & -> & Hb)%init_inr.
  pose proof (built_columns nc times lats lons self) as Hcols.
  set (dfl := flat_table times lats lons (grid_columns nc (DataSet._var_dict self))) in *.
  assert (Hdf : DataSet.df self = Some dfl) by (by destruct Hb).
  assert (Htime : ∃ time_var,
    List.find (λ v, String.eqb (var_name v) "time") (variables nc) = Some time_var ∧
    DataSet.time_dtype self = var_dtype time_var).
  { destruct Hb as [Ht _ _ _ _ _ _ Hdt]. unfold axis in Ht. rewrite Hdt.
    unfold DataSet.index_time_dtype.
    destruct (List.find _ (variables nc)) as [time_var |]; [| discriminate].
    by exists time_var. }
  destruct Htime as (time_var & Hfind & Hdt).
  exists nc, time_var, dfl. rewrite <- Hdt. split_and!; try done.
  - intros Hout time. exists var_long.
    eapply time_slice_unknown_variable; [exact Hinit |]. by rewrite <- Hcols.
  - intros Hvar. destruct (column_pos_Some _ _ Hvar) as (pos & Hpos & _).
    assert (Hslice : ∀ time,
      DataSet.time_slice self time var_long
      = ([], inr {| columns := ["lat"; "lon"; var_long];
                    rows := map (restrict [1; 2; pos])
                              (List.filter
                                 (λ r, py_eq (cell 0 r)
                                         (as_dtype (DataSet.time_dtype self) time))
                                 (rows dfl)) |})).
    { intros time. apply time_slice_table; [done | apply flat_table_NoDup | done |].
      by repeat constructor. }
    exists pos. split_and!; [done | done |].
    intros time Hnone. rewrite Hslice. do 3 f_equal.
    match goal with |- map _ ?l = _ => replace l with (@nil (nat * list value)); [done |] end.
    symmetry. rewrite List.Forall_forall in Hnone.
    destruct (List.filter _ _) as [| r hits] eqn:Hhits; [done |]. exfalso.
    assert (Hr : In r (r :: hits)) by by left.
    rewrite <- Hhits in Hr. apply filter_In in Hr as [Hr Heq].
    specialize (Hnone r Hr). simpl in Hnone. congruence.
  - intros Hkey. exists times, lats, lons. pose proof Hb as [Ht Hla Hlo].
    split_and!; try done. intros time.
    pose proof (built_time_slice nc times lats lons self Hb time var_long Hkey) as Hrows.
    split; [exact Hrows |]. intros Hocc. rewrite Hrows.
    by rewrite no_hit_no_row.
Qed.

(** The file of two days at time 0, where the spec expects the rows
    (32.5, 35, 1), (32.5, 40, 2), (35, 35, 3), (35, 40, 4), and at time 7,
    which the file does not have; and the file with the float32 time axis
    at the Python float 0.1, which finds the row of the stamp
    float32(0.1). *)
Lemma time_slice_rows_day :
  (DataSet.time_slice Example.day 0 "total_precipitation"
   = ([], inr {| columns := ["lat"; "lon"; "total_precipitation"];
                 rows := [(0, [Num 32.5; Num 35; Num 1]); (1, [Num 32.5; Num 40; Num 2]);
                          (2, [Num 35; Num 35; Num 3]); (3, [Num 35; Num 40; Num 4])] |}) ∧
   DataSet.time_slice Example.day 7 "total_precipitation"
   = ([], inr {| columns := ["lat"; "lon"; "total_precipitation"]; rows := [] |})) ∧
  DataSet.time_slice Example.float32_time 0x1.999999999999ap-4 "total_precipitation"
  = ([], inr {| columns := ["lat"; "lon"; "total_precipitation"];
                rows := [(0, [Num 32.5; Num 35; Num 1])] |}).
Proof.
  split.
  - destruct (time_slice_rows Example.disc "day.nc4" _ Example.day "total_precipitation"
                load_day)
      as (nc & time_var & dfl & Hfs & Hfind & _ & Hdf & _ & _ & _ & _ & Hcol & _).
    injection Hfs as <-. injection Hfind as <-. injection Hdf as <-.
    destruct Hcol as (pos & Hpos & Hslice & _).
    + apply list_elem_of_In. vm_compute. do 3 right. by left.
    + injection Hpos as <-. split; apply Hslice.
  - destruct (time_slice_rows Example.more_disc "float32.nc4" _ Example.float32_time
                "total_precipitation" load_float32_time)
      as (nc & time_var & dfl & Hfs & Hfind & _ & Hdf & _ & _ & _ & _ & Hcol & _).
    injection Hfs as <-. injection Hfind as <-. injection Hdf as <-.
    destruct Hcol as (pos & Hpos & Hslice & _).
    + apply list_elem_of_In. vm_compute. do 3 right. by left.
    + injection Hpos as <-. apply Hslice.
Defined.

(** C5 as it is stated fails for a variable the file does not have: on
    the file of two days, at the time 7 that no row has, [time_slice]
    raises instead of returning an empty table. *)
Lemma time_slice_rows_unknown_variable :
  DataSet.__init__ Example.disc "day.nc4"
  = ([EvOpen "day.nc4"; EvClose "day.nc4"], inr Example.day) ∧
  DataSet.time_slice Example.day 7 "pressure" = ([], inl (KeyError "pressure")).
Proof. vm_compute. repeat split. Qed.

(** A file that opens but has no longitude axis: the constructor raises
    what the library raises, prints nothing and returns no dataset. *)
Example init_empty_file :
  DataSet.__init__ Example.disc "empty.nc4"
  = ([EvOpen "empty.nc4"], inl (IndexError "lon not found in /")).
Proof. reflexivity. Qed.

(** C9. When the file cannot be opened, the constructor prints a line and
    raises NameError('IOError'): it returns no dataset. A dataset it does
    return is wholly built: the file was opened, its table is the table
    of the whole grid and its two sets of coordinates are computed. *)
Theorem init_unopened (fs : filesystem) (filename : string) :
  (fs filename = None →
   DataSet.__init__ fs filename
   = ([EvOpen filename; EvPrint "File was not found or other IO error"],
      inl (NameError "IOError"))) ∧
  (∀ tr self,
     DataSet.__init__ fs filename = (tr, inr self) →
     ∃ nc times lats lons,
       fs filename = Some nc ∧ tr = [EvOpen filename; EvClose filename] ∧
       built_from nc times lats lons self).
Proof.
  split; [| apply init_inr].
  intros Hfs. unfold DataSet.__init__, DataSet.open_dataset. by rewrite Hfs.
Qed.

(** No file of the disc is called missing.nc4. *)
Lemma init_unopened_missing :
  Example.disc "missing.nc4" = None ∧
  DataSet.__init__ Example.disc "missing.nc4"
  = ([EvOpen "missing.nc4"; EvPrint "File was not found or other IO error"],
     inl (NameError "IOError")).
Proof.
  split; [reflexivity |].
  apply (proj1 (init_unopened Example.disc "missing.nc4")). reflexivity.
Defined.

(** C10. After [release] the table of a dataset is [None]: a query for
    coordinates of its two sets, and a query for any time, raise
    AttributeError and return no table, while the dictionaries of the
    dimensions and of the variables are the ones of before. *)
Theorem release_then_query (self : DataSet.t) :
  DataSet.df (DataSet.release self) = None ∧
  (∀ lat lon var_long,
     set_mem (Num lat) (DataSet._lat_set self) = true →
     set_mem (Num lon) (DataSet._lon_set self) = true →
     DataSet.coord_timeseries (DataSet.release self) lat lon var_long
     = ([], inl (AttributeError "'NoneType' object has no attribute 'loc'"))) ∧
  (∀ time var_long,
     DataSet.time_slice (DataSet.release self) time var_long
     = ([], inl (AttributeError "'NoneType' object has no attribute 'loc'"))) ∧
  DataSet.get_dim_dict (DataSet.release self) = DataSet.get_dim_dict self ∧
  DataSet.get_var_dict (DataSet.release self) = DataSet.get_var_dict self ∧
  DataSet.get_coord_set (DataSet.release self) = DataSet.get_coord_set self.
Proof.
  split_and!; try done.
  intros lat lon var_long Hlat Hlon. unfold DataSet.coord_timeseries. simpl.
  by rewrite Hlat, Hlon.
Qed.

(** The dataset of the file of two days, released, at (32.5, 35). *)
Lemma release_then_query_day :
  DataSet.coord_timeseries (DataSet.release Example.day) 32.5 35 ["total_precipitation"]
  = ([], inl (AttributeError "'NoneType' object has no attribute 'loc'")) ∧
  DataSet.time_slice (DataSet.release Example.day) 0 "total_precipitation"
  = ([], inl (AttributeError "'NoneType' object has no attribute 'loc'")).
Proof.
  destruct (release_then_query Example.day) as (_ & Hcoord & Hslice & _).
  split; [apply Hcoord; vm_compute; reflexivity | apply Hslice].
Defined.
End dataset_claims.

(** * The loader and its cache *)

Section loader_claims.
Import NetCDF Pandas DataLoader LoaderSpec.

Lemma time_series_parts (fs : filesystem) (files : list string) (lat lon : float)
    (var_long : list string) (cache as_numpy : bool) (d : gmap string DataSet.t) :
  let loop := ld_fold (turn fs (series_query lat lon var_long) cache) empty_frame files d in
  final_cache (time_series fs files lat lon var_long cache as_numpy d) = fst loop ∧
  trace (time_series fs files lat lon var_long cache as_numpy d) = fst (snd loop) ∧
  outcome (time_series fs files lat lon var_long cache as_numpy d)
  = match snd (snd loop) with
    | inl e => inl e
    | inr res_df => inr (if as_numpy then NdArray (to_numpy res_df) else Frame res_df)
    end.
Proof.
  simpl. rewrite time_series_turns.
  by destruct (ld_fold _ _ _ _) as [d' [tr [e | res]]].
Qed.

(** C8. The table a multi-file query returns holds the rows of the
    answers of the files, in the order of the list of files and, for each
    file, in the order of its answer: the answer of [coord_timeseries] for
    [time_series], the answer of [time_slice] with its added column
    FileName for [time_slice_daily], each asked of the dataset the loader
    has for the file (the cached one or the one made from the file). As an
    array the result is the list of these rows without their labels: the
    cells of the rows of the first answer, then those of the second, and
    so on. Without files the result is the empty table, or the array
    without rows, nothing is raised and the cache is as before. *)
Theorem multi_file_concatenation (fs : filesystem) (d0 : gmap string DataSet.t) :
  (∀ files lat lon var_long cache as_numpy res,
     outcome (time_series fs files lat lon var_long cache as_numpy d0) = inr res →
     ∃ parts res_df,
       answers fs (series_query lat lon var_long) d0 files parts ∧
       rows res_df = List.concat (map rows parts) ∧
       res = if as_numpy
             then NdArray (List.concat (map (λ part, map snd (rows part)) parts))
             else Frame res_df) ∧
  (∀ files time var_long cache res_df,
     outcome (time_slice_daily fs files time var_long cache d0) = inr res_df →
     ∃ parts,
       answers fs (slice_query time var_long) d0 files parts ∧
       rows res_df = List.concat (map rows parts)) ∧
  (∀ lat lon var_long cache,
     time_series fs [] lat lon var_long cache false d0 = (d0, ([], inr (Frame empty_frame))) ∧
     time_series fs [] lat lon var_long cache true d0 = (d0, ([], inr (NdArray [])))) ∧
  (∀ time var_long cache,
     time_slice_daily fs [] time var_long cache d0 = (d0, ([], inr empty_frame))).
Proof.
  split_and!.
  - intros files lat lon var_long cache as_numpy res Hres.
    destruct (time_series_parts fs files lat lon var_long cache as_numpy d0) as (_ & _ & Hout).
    rewrite Hout in Hres.
    destruct (ld_fold _ _ _ _) as [d' [tr [e | res_df]]] eqn:Hloop; [discriminate |].
    simpl in Hres. injection Hres as <-.
    apply loop_parts in Hloop as (parts & Hparts & ->).
    destruct (fold_concat_rows ("time" :: var_long) parts empty_frame) as [_ Hrows].
    { by left. }
    { apply List.Forall_forall. intros part Hin%list_elem_of_In.
      apply list_elem_of_lookup in Hin as [i Hi].
      destruct (Forall2_lookup_r _ _ _ _ _ Hparts Hi) as (f & _ & ds & tr' & _ & Hq).
      by eapply series_query_shaped. }
    exists parts, (fold_left concat parts empty_frame). split_and!; try done.
    destruct as_numpy; [| done]. do 2 f_equal.
    unfold to_numpy. rewrite Hrows. simpl.
    clear. induction parts as [| p parts IH]; simpl; [done |].
    by rewrite map_app, IH.
  - intros files time var_long cache res_df Hres.
    rewrite time_slice_daily_turns in Hres. unfold outcome in Hres.
    destruct (ld_fold _ _ _ _) as [d' [tr [e | out]]] eqn:Hloop; [discriminate |].
    simpl in Hres. injection Hres as ->.
    apply loop_parts in Hloop as (parts & Hparts & ->).
    destruct (fold_concat_rows
                (columns (set_scalar {| columns := ["lat"; "lon"; var_long]; rows := [] |}
                            "FileName" (Str ""))) parts empty_frame) as [_ Hrows].
    { by left. }
    { apply List.Forall_forall. intros part Hin%list_elem_of_In.
      apply list_elem_of_lookup in Hin as [i Hi].
      destruct (Forall2_lookup_r _ _ _ _ _ Hparts Hi) as (f & _ & ds & tr' & _ & Hq).
      by eapply slice_query_shaped. }
    exists parts. by split.
  - done.
  - done.
Qed.

(** The two files of the disc, one after the other, at (32.5, 35): first
    the two rows of the first file, then the two rows of the second, as a
    table and as an array. *)
Lemma multi_file_concatenation_two_files :
  (outcome (time_series Example.disc ["day.nc4"; "repeated.nc4"] 32.5 35
              ["total_precipitation"] true false ∅)
   = inr (Frame {| columns := ["time"; "total_precipitation"];
                   rows := [(0, [Num 0; Num 1]); (4, [Num 1; Num 5]);
                            (0, [Num 0; Num 1]); (1, [Num 0; Num 5])] |}) ∧
   ∃ parts res_df,
     answers Example.disc (series_query 32.5 35 ["total_precipitation"]) ∅
       ["day.nc4"; "repeated.nc4"] parts ∧
     rows res_df = List.concat (map rows parts) ∧
     Frame {| columns := ["time"; "total_precipitation"];
              rows := [(0, [Num 0; Num 1]); (4, [Num 1; Num 5]);
                       (0, [Num 0; Num 1]); (1, [Num 0; Num 5])] |}
     = Frame res_df) ∧
  (outcome (time_series Example.disc ["day.nc4"; "repeated.nc4"] 32.5 35
              ["total_precipitation"] true true ∅)
   = inr (NdArray [[Num 0; Num 1]; [Num 1; Num 5]; [Num 0; Num 1]; [Num 0; Num 5]]) ∧
   ∃ parts res_df,
     answers Example.disc (series_query 32.5 35 ["total_precipitation"]) ∅
       ["day.nc4"; "repeated.nc4"] parts ∧
     rows res_df = List.concat (map rows parts) ∧
     NdArray [[Num 0; Num 1]; [Num 1; Num 5]; [Num 0; Num 1]; [Num 0; Num 5]]
     = NdArray (List.concat (map (λ part, map snd (rows part)) parts))).
Proof.
  split.
  - split; [vm_compute; reflexivity |].
    apply (proj1 (multi_file_concatenation Example.disc ∅)
             ["day.nc4"; "repeated.nc4"] 32.5%float 35%float ["total_precipitation"]
             true false).
    vm_compute. reflexivity.
  - split; [vm_compute; reflexivity |].
    apply (proj1 (multi_file_concatenation Example.disc ∅)
             ["day.nc4"; "repeated.nc4"] 32.5%float 35%float ["total_precipitation"]
             true true).
    vm_compute. reflexivity.
Defined.

(** C6. After a call of [time_series] or of [time_slice_daily] that does
    not cache and returns, the cache has no entry for any file of the
    list, also for a file that was in the cache before the call; the
    entries of the other files are as before. *)
Theorem uncached_call_evicts (fs : filesystem) (files : list string)
    (d0 : gmap string DataSet.t) :
  (∀ lat lon var_long as_numpy res,
     outcome (time_series fs files lat lon var_long false as_numpy d0) = inr res →
     ∀ f, (f ∈ files →
           final_cache (time_series fs files lat lon var_long false as_numpy d0) !! f
           = None) ∧
          (f ∉ files →
           final_cache (time_series fs files lat lon var_long false as_numpy d0) !! f
           = d0 !! f)) ∧
  (∀ time var_long res,
     outcome (time_slice_daily fs files time var_long false d0) = inr res →
     ∀ f, (f ∈ files →
           final_cache (time_slice_daily fs files time var_long false d0) !! f = None) ∧
          (f ∉ files →
           final_cache (time_slice_daily fs files time var_long false d0) !! f
           = d0 !! f)).
Proof.
  split.
  - intros lat lon var_long as_numpy res Hres f.
    destruct (time_series_parts fs files lat lon var_long false as_numpy d0)
      as (Hcache & _ & Hout).
    rewrite Hcache. rewrite Hout in Hres.
    destruct (ld_fold _ _ _ _) as [d' [tr [e | res_df]]] eqn:Hloop; [discriminate |].
    apply loop_evicts in Hloop as ->. simpl. apply lookup_fold_delete.
  - intros time var_long res Hres f.
    rewrite time_slice_daily_turns in *. unfold outcome, final_cache in *.
    destruct (ld_fold _ _ _ _) as [d' [tr [e | res_df]]] eqn:Hloop; [discriminate |].
    apply loop_evicts in Hloop as ->. simpl. apply lookup_fold_delete.
Qed.

(** A file that a caching call has put in the cache is gone after a call
    that does not cache. *)
Lemma uncached_call_evicts_cached_day :
  final_cache (time_series Example.disc ["day.nc4"] 32.5 35 ["total_precipitation"]
                 true false ∅) !! "day.nc4" = Some Example.day ∧
  final_cache
    (time_series Example.disc ["day.nc4"] 32.5 35 ["total_precipitation"] false false
       (final_cache (time_series Example.disc ["day.nc4"] 32.5 35 ["total_precipitation"]
                       true false ∅))) !! "day.nc4" = None.
Proof.
  split; [vm_compute; reflexivity |].
  eapply (proj1 (uncached_call_evicts Example.disc ["day.nc4"] _)).
  - vm_compute. reflexivity.
  - apply list_elem_of_In. left. reflexivity.
Defined.

(** C7. The cache is a map, so it holds at most one dataset for a file
    name. A call that caches opens a file at most once, does not open a
    file that is in the cache when the call starts, and does not open a
    file it is not asked for, whose entry it leaves as it was: a dataset
    is made when its file is first asked for and not again. Asking twice
    in one caching call for a file that is not in the cache opens it
    once. *)
Theorem cached_file_loaded_once (fs : filesystem) (files : list string)
    (d0 : gmap string DataSet.t) (f : string) :
  (∀ (d : gmap string DataSet.t) ds1 ds2, d !! f = Some ds1 → d !! f = Some ds2 → ds1 = ds2) ∧
  (∀ lat lon var_long as_numpy,
     opens f (trace (time_series fs files lat lon var_long true as_numpy d0)) <= 1 ∧
     (is_Some (d0 !! f) →
      opens f (trace (time_series fs files lat lon var_long true as_numpy d0)) = 0) ∧
     (f ∉ files →
      opens f (trace (time_series fs files lat lon var_long true as_numpy d0)) = 0 ∧
      final_cache (time_series fs files lat lon var_long true as_numpy d0) !! f = d0 !! f)) ∧
  (∀ time var_long,
     opens f (trace (time_slice_daily fs files time var_long true d0)) <= 1 ∧
     (is_Some (d0 !! f) →
      opens f (trace (time_slice_daily fs files time var_long true d0)) = 0) ∧
     (f ∉ files →
      opens f (trace (time_slice_daily fs files time var_long true d0)) = 0 ∧
      final_cache (time_slice_daily fs files time var_long true d0) !! f = d0 !! f)) ∧
  opens "day.nc4"
    (trace (time_series Example.disc ["day.nc4"; "day.nc4"] 32.5 35
              ["total_precipitation"] true false ∅)) = 1.
Proof.
  split_and!.
  - congruence.
  - intros lat lon var_long as_numpy.
    destruct (time_series_parts fs files lat lon var_long true as_numpy d0)
      as (Hcache & Htrace & _).
    rewrite Hcache, Htrace.
    destruct (loop_opens fs (series_query lat lon var_long) files empty_frame d0 f)
      as (H1 & H2 & H3); [apply quiet_series_query |].
    split_and!; [done | done |]. intros Hout. split; [by apply H3 | by apply loop_other].
  - intros time var_long. rewrite time_slice_daily_turns. unfold trace, final_cache.
    destruct (loop_opens fs (slice_query time var_long) files empty_frame d0 f)
      as (H1 & H2 & H3); [apply quiet_slice_query |].
    split_and!; [done | done |]. intros Hout. split; [by apply H3 | by apply loop_other].
  - vm_compute. reflexivity.
Qed.

(** A second caching call for the file of the first opens nothing. *)
Lemma cached_file_loaded_once_second_call :
  is_Some (final_cache (time_series Example.disc ["day.nc4"] 32.5 35
                          ["total_precipitation"] true false ∅) !! "day.nc4") ∧
  opens "day.nc4"
    (trace (time_series Example.disc ["day.nc4"] 32.5 35 ["total_precipitation"] true false
              (final_cache (time_series Example.disc ["day.nc4"] 32.5 35
                              ["total_precipitation"] true false ∅)))) = 0.
Proof.
  assert (Hsome : is_Some (final_cache (time_series Example.disc ["day.nc4"] 32.5 35
                          ["total_precipitation"] true false ∅) !! "day.nc4")).
  { exists Example.day. vm_compute. reflexivity. }
  split; [exact Hsome |].
  destruct (cached_file_loaded_once Example.disc ["day.nc4"]
              (final_cache (time_series Example.disc ["day.nc4"] 32.5 35
                              ["total_precipitation"] true false ∅)) "day.nc4")
    as (_ & Hseries & _).
  destruct (Hseries 32.5%float 35%float ["total_precipitation"] false) as (_ & Hcached & _).
  exact (Hcached Hsome).
Defined.

(** C1, amended. When the constructor fails on a file of the list that
    is not in the cache, [_load_dataset] catches what the constructor
    raised and prints a line, and the query raises: it returns no row,
    also none of the files before, and the cache has no entry for the
    file. When the files before it in the list were answered, what the
    query raises is the KeyError of the lookup of the file in the cache,
    not what the constructor raised. *)
Theorem failed_construction_aborts (fs : filesystem) (files : list string) (f : string)
    (d0 : gmap string DataSet.t) (tr_e : list event) (e : exn) :
  f ∈ files → d0 !! f = None →
  DataSet.__init__ fs f = (tr_e, inl e) →
  (∀ lat lon var_long cache as_numpy,
     (∃ err, outcome (time_series fs files lat lon var_long cache as_numpy d0) = inl err) ∧
     final_cache (time_series fs files lat lon var_long cache as_numpy d0) !! f = None ∧
     (∀ pre post res,
        files = pre ++ f :: post →
        outcome (time_series fs pre lat lon var_long cache as_numpy d0) = inr res →
        time_series fs files lat lon var_long cache as_numpy d0
        = (final_cache (time_series fs pre lat lon var_long cache as_numpy d0),
           (trace (time_series fs pre lat lon var_long cache as_numpy d0)
            ++ tr_e ++ [EvPrint "Dataset was not opened"],
            inl (KeyError f))))) ∧
  (∀ time var_long cache,
     (∃ err, outcome (time_slice_daily fs files time var_long cache d0) = inl err) ∧
     final_cache (time_slice_daily fs files time var_long cache d0) !! f = None ∧
     (∀ pre post res,
        files = pre ++ f :: post →
        outcome (time_slice_daily fs pre time var_long cache d0) = inr res →
        time_slice_daily fs files time var_long cache d0
        = (final_cache (time_slice_daily fs pre time var_long cache d0),
           (trace (time_slice_daily fs pre time var_long cache d0)
            ++ tr_e ++ [EvPrint "Dataset was not opened"],
            inl (KeyError f))))).
Proof.
  intros Hin Hd Hinit. split.
  - intros lat lon var_long cache as_numpy.
    destruct (time_series_parts fs files lat lon var_long cache as_numpy d0)
      as (Hcache & _ & Hout).
    destruct (loop_aborts fs (series_query lat lon var_long) cache files f empty_frame d0
                tr_e e Hin Hd Hinit) as (d' & tr & err & Hloop & Hgone).
    rewrite Hcache, Hout, Hloop. simpl. split_and!; [by exists err | done |].
    intros pre post res -> Hpre.
    destruct (time_series_parts fs pre lat lon var_long cache as_numpy d0)
      as (Hcache' & Htrace' & Hout').
    rewrite Hcache', Htrace'. rewrite Hout' in Hpre.
    destruct (ld_fold _ empty_frame pre d0) as [d1 [tr1 [e1 | acc1]]] eqn:Hfold;
      [discriminate |].
    destruct (loop_fails fs (series_query lat lon var_long) cache pre post f
                empty_frame acc1 d0 d1 tr1 tr_e e Hfold Hd Hinit) as [_ Hfail].
    by rewrite time_series_turns, Hfail.
  - intros time var_long cache. rewrite time_slice_daily_turns.
    destruct (loop_aborts fs (slice_query time var_long) cache files f empty_frame d0
                tr_e e Hin Hd Hinit) as (d' & tr & err & Hloop & Hgone).
    rewrite Hloop. unfold outcome, final_cache, trace. simpl.
    split_and!; [by exists err | done |].
    intros pre post res -> Hpre. rewrite time_slice_daily_turns in *.
    destruct (ld_fold _ empty_frame pre d0) as [d1 [tr1 [e1 | acc1]]] eqn:Hfold;
      [discriminate |].
    destruct (loop_fails fs (slice_query time var_long) cache pre post f
                empty_frame acc1 d0 d1 tr1 tr_e e Hfold Hd Hinit) as [_ Hfail].
    rewrite Hloop in Hfail. by rewrite Hfail.
Qed.

(** The file of two days, then a file that is not on the disc: the rows
    of the first are lost and the query raises. *)
Lemma failed_construction_aborts_missing :
  outcome (time_series Example.disc ["day.nc4"; "missing.nc4"] 32.5 35
             ["total_precipitation"] true false ∅)
  = inl (KeyError "missing.nc4") ∧
  final_cache (time_series Example.disc ["day.nc4"; "missing.nc4"] 32.5 35
                 ["total_precipitation"] true false ∅) !! "missing.nc4" = None.
Proof.
  assert (Hin : "missing.nc4" ∈ ["day.nc4"; "missing.nc4"]).
  { apply list_elem_of_In. right. left. reflexivity. }
  assert (Hinit : DataSet.__init__ Example.disc "missing.nc4"
                  = ([EvOpen "missing.nc4"; EvPrint "File was not found or other IO error"],
                     inl (NameError "IOError"))) by reflexivity.
  destruct (failed_construction_aborts Example.disc ["day.nc4"; "missing.nc4"]
              "missing.nc4" ∅ _ _ Hin (lookup_empty _) Hinit)
    as [Hseries _].
  destruct (Hseries 32.5%float 35%float ["total_precipitation"] true false)
    as (_ & Hgone & Hfirst).
  split; [| exact Hgone].
  rewrite (Hfirst ["day.nc4"] [] (Frame {| columns := ["time"; "total_precipitation"];
                                           rows := [(0, [Num 0; Num 1]); (4, [Num 1; Num 5])] |})).
  - reflexivity.
  - reflexivity.
  - vm_compute. reflexivity.
Defined.

(** C1 as it is stated fails: the constructor raises NameError('IOError')
    on the missing file, and what reaches the caller of either query is
    KeyError('missing.nc4'). *)
Lemma failed_construction_not_propagated :
  snd (DataSet.__init__ Example.disc "missing.nc4") = inl (NameError "IOError") ∧
  outcome (time_series Example.disc ["day.nc4"; "missing.nc4"] 32.5 35
             ["total_precipitation"] true false ∅)
  = inl (KeyError "missing.nc4") ∧
  outcome (time_slice_daily Example.disc ["day.nc4"; "missing.nc4"] 0
             "total_precipitation" true ∅)
  = inl (KeyError "missing.nc4").
Proof. vm_compute. repeat split. Qed.
End loader_claims.

(** * More on the dataset of one file *)

Section dataset_extras.
Import Numpy NetCDF Pandas Spec.

(** ** The table *)

(** X1. The table of a dataset read from a file has pairwise different
    column labels, rows numbered from 0 without a gap, one cell in every
    row for every column, and every variable that has a column has
    exactly one grid value for every row: a variable of another size
    makes the constructor raise. *)
Theorem table_invariants
    (fs : filesystem) (filename : string) (tr : list event) (self : DataSet.t) :
  DataSet.__init__ fs filename = (tr, inr self) →
  ∃ nc dfl,
    fs filename = Some nc ∧ DataSet.df self = Some dfl ∧
    NoDup (columns dfl) ∧
    map fst (rows dfl) = seq 0 (length (rows dfl)) ∧
    Forall (λ r, length (snd r) = length (columns dfl)) (rows dfl) ∧
    Forall (λ key, length (grid_values nc (DataSet._var_dict self) key)
                   = length (rows dfl))
      (data_keys (DataSet._var_dict self)).
Proof.
  intros (nc & times & lats & lons & Hfs & -> & Hb)%init_inr.
  pose proof (built_columns nc times lats lons self) as Hcols.
  pose proof (data_key_not_axis nc times lats lons self Hb) as Hax.
  destruct Hb.
  exists nc, (flat_table times lats lons (grid_columns nc (DataSet._var_dict self))).
  rewrite flat_table_length, flat_table_labels, Hcols.
  split_and!; try done.
  - assert (Hfresh : ∀ name, name ∈ ["time"; "lat"; "lon"] →
                       name ∉ data_keys (DataSet._var_dict self)).
    { intros name Hname Hin. by apply (Hax name). }
    repeat (apply NoDup_cons; split).
    + intros [Heq | [Heq | Hin]%elem_of_cons]%elem_of_cons; [done | done |].
      apply (Hfresh "time"); [| done]. apply elem_of_cons. by left.
    + intros [Heq | Hin]%elem_of_cons; [done |].
      apply (Hfresh "lat"); [| done]. apply elem_of_cons. right. apply elem_of_cons. by left.
    + apply (Hfresh "lon"). do 2 (apply elem_of_cons; right). apply elem_of_cons. by left.
    + by apply data_keys_NoDup.
  - apply List.Forall_forall. intros r Hr. simpl in Hr.
    apply in_map_iff in Hr as (p & <- & _). unfold flat_row.
    destruct (unravel _ _ p) as [[i j] k]. simpl.
    rewrite !length_map. unfold grid_columns. by rewrite length_map.
Qed.

(** The file of two days. *)
Lemma table_invariants_day :
  ∃ nc dfl,
    Example.disc "day.nc4" = Some nc ∧ DataSet.df Example.day = Some dfl ∧
    NoDup (columns dfl) ∧
    map fst (rows dfl) = seq 0 (length (rows dfl)) ∧
    Forall (λ r, length (snd r) = length (columns dfl)) (rows dfl) ∧
    Forall (λ key, length (grid_values nc (DataSet._var_dict Example.day) key)
                   = length (rows dfl))
      (data_keys (DataSet._var_dict Example.day)).
Proof.
  apply (table_invariants Example.disc "day.nc4" [EvOpen "day.nc4"; EvClose "day.nc4"]).
  vm_compute. reflexivity.
Defined.

(** ** The two dictionaries *)

(** X2. [get_dim_dict] of a dataset read from a file gives every dimension
    name of the file its size, the size of the last dimension of that
    name; it has no entry for another name and no key twice. *)
Theorem get_dim_dict_lookup
    (fs : filesystem) (filename : string) (tr : list event) (self : DataSet.t) :
  DataSet.__init__ fs filename = (tr, inr self) →
  ∃ nc,
    fs filename = Some nc ∧
    NoDup (dict_keys (DataSet.get_dim_dict self)) ∧
    ∀ name,
      dict_get name (DataSet.get_dim_dict self)
      = dim_size <$> List.find (λ dim, String.eqb (dim_name dim) name) (rev (dimensions nc)).
Proof.
  intros (nc & Hfs & Hdims & _ & _)%init_dicts. exists nc.
  unfold DataSet.get_dim_dict. rewrite Hdims. split_and!; [done | |].
  - apply fold_dict_NoDup. constructor.
  - intros name. rewrite fold_dict_get. by destruct (List.find _ _).
Qed.

(** The file of two days has a dimension lat of size 2 and no dimension
    height. *)
Lemma get_dim_dict_lookup_day :
  dict_get "lat" (DataSet.get_dim_dict Example.day) = Some 2 ∧
  dict_get "height" (DataSet.get_dim_dict Example.day) = None.
Proof.
  destruct (get_dim_dict_lookup _ _ _ _ load_day) as (nc & Hfs & _ & Hget).
  injection Hfs as <-. rewrite !Hget. split; reflexivity.
Defined.

(** X3. Every variable of a file that was read has a long name, and
    [get_var_dict] gives every long name the name of the last variable of
    the file that has it; it has no entry for another name and no key
    twice. *)
Theorem get_var_dict_lookup
    (fs : filesystem) (filename : string) (tr : list event) (self : DataSet.t) :
  DataSet.__init__ fs filename = (tr, inr self) →
  ∃ nc,
    fs filename = Some nc ∧
    Forall (λ v, is_Some (long_name v)) (variables nc) ∧
    NoDup (dict_keys (DataSet.get_var_dict self)) ∧
    ∀ long,
      dict_get long (DataSet.get_var_dict self)
      = var_name <$> List.find (λ v, bool_decide (long_name v = Some long))
                       (rev (variables nc)).
Proof.
  intros (nc & Hfs & _ & Hall & Hvars)%init_dicts. exists nc.
  unfold DataSet.get_var_dict. rewrite Hvars. split_and!; [done | done | |].
  - apply fold_dict_NoDup. constructor.
  - intros long. rewrite fold_dict_get.
    assert (Hfind : ∀ l : list Variable_, Forall (λ v, is_Some (long_name v)) l →
              List.find (λ v, String.eqb (default "" (long_name v)) long) l
              = List.find (λ v, bool_decide (long_name v = Some long)) l).
    { induction 1 as [| v l [l' Hl'] _ IH]; simpl; [done |].
      rewrite IH, Hl'. simpl.
      destruct (String.eqb_spec l' long) as [-> | Hne].
      - by rewrite bool_decide_eq_true_2.
      - rewrite bool_decide_eq_false_2; [done | congruence]. }
    rewrite Hfind by by apply Forall_rev.
    by destruct (List.find _ _).
Qed.

(** In the file of two days total_precipitation is the long name of
    PRECTOT, and no variable has the long name pressure. *)
Lemma get_var_dict_lookup_day :
  dict_get "total_precipitation" (DataSet.get_var_dict Example.day) = Some "PRECTOT" ∧
  dict_get "pressure" (DataSet.get_var_dict Example.day) = None.
Proof.
  destruct (get_var_dict_lookup _ _ _ _ load_day) as (nc & Hfs & _ & _ & Hget).
  injection Hfs as <-. rewrite !Hget. split; reflexivity.
Defined.

(** ** The sets of valid coordinates *)

(** Two spec floats that compare equal compare alike with every other. *)
Lemma SFcompare_Eq_congr (a b : SpecFloat.spec_float) :
  SpecFloat.SFcompare a b = Some Eq →
  ∀ c, SpecFloat.SFcompare a c = SpecFloat.SFcompare b c ∧
       SpecFloat.SFcompare c a = SpecFloat.SFcompare c b.
Proof.
  destruct a as [sa | sa | | sa ma ea], b as [sb | sb | | sb mb eb]; simpl;
    intros H c; try discriminate;
    try solve [destruct sa; discriminate | destruct sb; discriminate].
  - by destruct c.
  - destruct sa, sb; try discriminate; by destruct c.
  - assert (sa = sb ∧ ea = eb ∧ ma = mb) as (-> & -> & ->); [| done].
    destruct sa, sb; try discriminate;
      destruct (Z.compare ea eb) eqn:He; try discriminate;
      apply Z.compare_eq in He as ->;
      destruct (Pos.compare_cont Eq ma mb) eqn:Hm; try discriminate;
      apply Pos.compare_eq in Hm as ->; done.
Qed.

(** [==] on floats is a congruence for [==] and [<=]. *)
Lemma float_eqb_congr (a b : float) :
  PrimFloat.eqb a b = true →
  ∀ c, PrimFloat.eqb a c = PrimFloat.eqb b c ∧ PrimFloat.eqb c a = PrimFloat.eqb c b ∧
       PrimFloat.leb a c = PrimFloat.leb b c ∧ PrimFloat.leb c a = PrimFloat.leb c b.
Proof.
  rewrite FloatAxioms.eqb_spec. unfold SpecFloat.SFeqb.
  destruct (SpecFloat.SFcompare _ _) as [[| |] |] eqn:Hab; try discriminate.
  intros _ c. destruct (SFcompare_Eq_congr _ _ Hab (Prim2SF c)) as [H1 H2].
  rewrite !FloatAxioms.eqb_spec, !FloatAxioms.leb_spec.
  unfold SpecFloat.SFeqb, SpecFloat.SFleb. by rewrite H1, H2.
Qed.

Lemma value_eqb_congr (u w v : value) :
  value_eqb u w = true → value_eqb u v = value_eqb w v.
Proof.
  destruct u as [x | s], w as [y | t]; simpl; try discriminate.
  - intros H. destruct v as [z | r]; [| done]. by apply float_eqb_congr.
  - intros ->%String.eqb_eq. done.
Qed.

(** A set has an element for every element of the list it is made of. *)
Lemma set_of_list_complete (v : value) (l : list value) :
  set_mem v l = true → set_mem v (set_of_list l) = true.
Proof.
  induction l as [| w l IH]; simpl; [done |].
  intros [Hw | Hl]%orb_true_iff.
  - destruct (set_mem w (set_of_list l)) eqn:Hmem; simpl; [| by rewrite Hw].
    unfold set_mem in *. apply existsb_exists in Hmem as (u & Hu & Huw).
    apply existsb_exists. exists u. split; [done |].
    by rewrite (value_eqb_congr u w v).
  - specialize (IH Hl). destruct (set_mem w (set_of_list l)); simpl; [done |].
    rewrite IH. apply orb_true_r.
Qed.

Lemma coord_set_mem (pos : nat) (lo hi x : float) (dfl : DataFrame) :
  set_mem (Num x) (coord_set pos lo hi dfl) = true ↔
  ∃ r, In r (rows dfl) ∧ py_eq (cell pos r) x = true ∧
       py_le (cell pos r) hi = true ∧ py_ge (cell pos r) lo = true.
Proof.
  assert (Heq : ∀ w, value_eqb w (Num x) = py_eq w x) by by intros [].
  unfold coord_set. split.
  - intros Hmem%set_of_list_sound. unfold set_mem in Hmem.
    apply existsb_exists in Hmem as (w & Hw & Hwx).
    apply in_map_iff in Hw as (r & <- & Hr).
    apply filter_In in Hr as [Hr [Hle Hge]%andb_true_iff].
    exists r. by rewrite <- Heq.
  - intros (r & Hr & Hx & Hle & Hge). apply set_of_list_complete.
    apply existsb_exists. exists (cell pos r). split; [| by rewrite Heq].
    apply in_map, filter_In. split; [done |]. by rewrite Hle, Hge.
Qed.

Lemma flat_table_row_axes (times lats lons : list float) (cols : pydict (list float)) :
  (∀ r, In r (rows (flat_table times lats lons cols)) →
        ∃ t la lo, In t times ∧ In la lats ∧ In lo lons ∧
                   cell 0 r = Num t ∧ cell 1 r = Num la ∧ cell 2 r = Num lo) ∧
  (∀ t la lo, In t times → In la lats → In lo lons →
        ∃ r, In r (rows (flat_table times lats lons cols)) ∧
             cell 0 r = Num t ∧ cell 1 r = Num la ∧ cell 2 r = Num lo).
Proof.
  split.
  - intros r (p & <- & [_ Hp]%in_seq)%in_map_iff.
    pose proof (unravel_bound _ _ _ p ltac:(simpl in Hp; exact Hp)) as Hb.
    unfold flat_row, cell. destruct (unravel _ _ p) as [[i j] k].
    destruct Hb as (Hi & Hj & Hk).
    exists (nth i times nan), (nth j lats nan), (nth k lons nan).
    split_and!; try done; by apply nth_In.
  - intros t la lo (i & Hi & <-)%(In_nth _ _ nan) (j & Hj & <-)%(In_nth _ _ nan)
      (k & Hk & <-)%(In_nth _ _ nan).
    exists (flat_row times lats lons (map snd cols) (ravel (length lats) (length lons) i j k)).
    split.
    + apply in_map, in_seq. split; [lia |]. simpl. by apply ravel_bound.
    + unfold flat_row, cell. by rewrite unravel_ravel.
Qed.

(** X4. The set of latitudes of a dataset read from a file holds exactly the
    numbers that equal a latitude of the latitude axis between -90 and
    90, provided the table has a row (neither the time nor the longitude
    axis is empty); likewise the set of longitudes, between -180 and 180.
    So a number of either set lies itself between the two bounds. *)
Theorem coord_sets_members
    (fs : filesystem) (filename : string) (tr : list event) (self : DataSet.t) :
  DataSet.__init__ fs filename = (tr, inr self) →
  ∃ nc times lats lons,
    fs filename = Some nc ∧
    axis nc "time" = Some times ∧ axis nc "lat" = Some lats ∧
    axis nc "lon" = Some lons ∧
    (∀ x, set_mem (Num x) (fst (DataSet.get_coord_set self)) = true ↔
          times ≠ [] ∧ lons ≠ [] ∧
          ∃ la, In la lats ∧ PrimFloat.eqb la x = true ∧
                PrimFloat.leb la 90 = true ∧ PrimFloat.leb (-90) la = true) ∧
    (∀ x, set_mem (Num x) (snd (DataSet.get_coord_set self)) = true ↔
          times ≠ [] ∧ lats ≠ [] ∧
          ∃ lo, In lo lons ∧ PrimFloat.eqb lo x = true ∧
                PrimFloat.leb lo 180 = true ∧ PrimFloat.leb (-180) lo = true) ∧
    (∀ x, set_mem (Num x) (fst (DataSet.get_coord_set self)) = true →
          PrimFloat.leb x 90 = true ∧ PrimFloat.leb (-90) x = true) ∧
    (∀ x, set_mem (Num x) (snd (DataSet.get_coord_set self)) = true →
          PrimFloat.leb x 180 = true ∧ PrimFloat.leb (-180) x = true).
Proof.
  intros (nc & times & lats & lons & Hfs & -> & Hb)%init_inr.
  exists nc, times, lats, lons. destruct Hb. simpl.
  rewrite built_lat_set0, built_lon_set0.
  destruct (flat_table_row_axes times lats lons
              (grid_columns nc (DataSet._var_dict self))) as [Hrow Hax].
  assert (Hlat : ∀ x,
    set_mem (Num x) (coord_set 1 (-90) 90
      (flat_table times lats lons (grid_columns nc (DataSet._var_dict self)))) = true ↔
    times ≠ [] ∧ lons ≠ [] ∧
    ∃ la, In la lats ∧ PrimFloat.eqb la x = true ∧
          PrimFloat.leb la 90 = true ∧ PrimFloat.leb (-90) la = true).
  { intros x. rewrite coord_set_mem. split.
    - intros (r & Hr & Hx & Hle & Hge).
      destruct (Hrow r Hr) as (t & la & lo & Ht & Hla & Hlo & _ & Hc & _).
      rewrite Hc in *. split_and!; [by destruct times | by destruct lons |].
      by exists la.
    - intros (Ht & Hlo & la & Hla & Hx & Hle & Hge).
      destruct times as [| t ?]; [done |]. destruct lons as [| lo ?]; [done |].
      destruct (Hax t la lo) as (r & Hr & _ & Hc & _); [by left | done | by left |].
      exists r. by rewrite Hc. }
  assert (Hlon : ∀ x,
    set_mem (Num x) (coord_set 2 (-180) 180
      (flat_table times lats lons (grid_columns nc (DataSet._var_dict self)))) = true ↔
    times ≠ [] ∧ lats ≠ [] ∧
    ∃ lo, In lo lons ∧ PrimFloat.eqb lo x = true ∧
          PrimFloat.leb lo 180 = true ∧ PrimFloat.leb (-180) lo = true).
  { intros x. rewrite coord_set_mem. split.
    - intros (r & Hr & Hx & Hle & Hge).
      destruct (Hrow r Hr) as (t & la & lo & Ht & Hla & Hlo & _ & _ & Hc).
      rewrite Hc in *. split_and!; [by destruct times | by destruct lats |].
      by exists lo.
    - intros (Ht & Hla & lo & Hlo & Hx & Hle & Hge).
      destruct times as [| t ?]; [done |]. destruct lats as [| la ?]; [done |].
      destruct (Hax t la lo) as (r & Hr & _ & _ & Hc); [by left | by left | done |].
      exists r. by rewrite Hc. }
  split_and!; try done.
  - intros x (_ & _ & la & _ & Hx & Hle & Hge)%Hlat.
    destruct (float_eqb_congr la x Hx 90%float) as (_ & _ & <- & _).
    destruct (float_eqb_congr la x Hx (-90)%float) as (_ & _ & _ & <-). done.
  - intros x (_ & _ & lo & _ & Hx & Hle & Hge)%Hlon.
    destruct (float_eqb_congr lo x Hx 180%float) as (_ & _ & <- & _).
    destruct (float_eqb_congr lo x Hx (-180)%float) as (_ & _ & _ & <-). done.
Qed.

(** On the file of two days 35 is a latitude and a longitude, 40 a
    longitude only. *)
Lemma coord_sets_members_day :
  set_mem (Num 35) (fst (DataSet.get_coord_set Example.day)) = true ∧
  set_mem (Num 35) (snd (DataSet.get_coord_set Example.day)) = true ∧
  PrimFloat.leb 35 90 = true ∧ PrimFloat.leb (-90) 35 = true.
Proof.
  destruct (coord_sets_members _ _ _ _ load_day)
    as (nc & times & lats & lons & _ & _ & _ & _ & _ & _ & Hlat & _).
  assert (H : set_mem (Num 35) (fst (DataSet.get_coord_set Example.day)) = true)
    by (vm_compute; reflexivity).
  split_and!; [exact H | vm_compute; reflexivity | apply (Hlat _ H) | apply (Hlat _ H)].
Defined.

(** ** The two queries *)

Lemma filter_false {A} (l : list A) : List.filter (λ _, false) l = [].
Proof. by induction l. Qed.

Lemma map_const_repeat {A B} (x : B) (l : list A) : map (λ _, x) l = repeat x (length l).
Proof. induction l as [| y l IH]; simpl; [done | by rewrite IH]. Qed.

(** The time stamps of the rows of the product that match a latitude
    and a longitude: every stamp of the axis, in order, once for every
    pair of places of the two. *)
Lemma product_times (lat lon : float) (times lats lons : list float) :
  map (λ '(t, la, lo), t)
    (List.filter (λ '(t, la, lo), PrimFloat.eqb la lat && PrimFloat.eqb lo lon)
       (from_product times lats lons))
  = flat_map (λ t, repeat t (occurrences lat lats * occurrences lon lons)) times.
Proof.
  unfold from_product, occurrences.
  induction times as [| t times IH]; simpl; [done |].
  rewrite List.filter_app, map_app, IH. f_equal. clear IH.
  induction lats as [| la lats IH]; simpl; [done |].
  rewrite List.filter_app, map_app, IH, filter_map_comm, map_map.
  destruct (PrimFloat.eqb la lat); simpl.
  - by rewrite map_const_repeat, repeat_app.
  - by rewrite filter_false.
Qed.

Lemma hits_times (lat lon : float) (times lats lons : list float) :
  map (λ p, (coords_at times lats lons p).1.1)
    (List.filter
       (λ p, let '(t, la, lo) := coords_at times lats lons p in
             PrimFloat.eqb la lat && PrimFloat.eqb lo lon)
       (seq 0 (length times * (length lats * length lons))))
  = flat_map (λ t, repeat t (occurrences lat lats * occurrences lon lons)) times.
Proof.
  rewrite <- product_times.
  rewrite <- (seq_nth_id (from_product times lats lons) (nan, nan, nan)) at 1.
  rewrite filter_map_comm, map_map, from_product_length.
  assert (Hat : ∀ p, In p (seq 0 (length times * (length lats * length lons))) →
            nth p (from_product times lats lons) (nan, nan, nan)
            = coords_at times lats lons p).
  { intros p [_ Hp]%in_seq. by rewrite from_product_nth by lia. }
  erewrite filter_ext_in.
  - apply map_ext_in. intros p [Hp _]%filter_In. rewrite (Hat p Hp).
    by destruct (coords_at times lats lons p) as [[t la] lo].
  - intros p Hp. simpl. by rewrite (Hat p Hp).
Qed.

Lemma time_cells (g : nat → float) (f : nat → list value) (hits : list nat) :
  map (cell 0) (map (λ p, (p, Num (g p) :: f p)) hits) = map Num (map g hits).
Proof. rewrite !map_map. by apply map_ext. Qed.

Lemma map_flat_map_repeat (n : nat) (times : list float) :
  map Num (flat_map (λ t, repeat t n) times) = flat_map (λ t, repeat (Num t) n) times.
Proof.
  induction times as [| t times IH]; simpl; [done |].
  by rewrite map_app, IH, map_repeat.
Qed.

(** X5. The time column of the answer of [coord_timeseries], for valid
    coordinates and variables that have a column, reads the time axis of
    the file in order, every stamp as often as there are pairs of places
    where the latitude and the longitude occur on their axes: it is the
    time axis itself when each occurs once. *)
Theorem coord_timeseries_time_column
    (fs : filesystem) (filename : string) (tr : list event) (self : DataSet.t)
    (lat lon : float) (var_long : list string) :
  DataSet.__init__ fs filename = (tr, inr self) →
  set_mem (Num lat) (DataSet._lat_set self) = true →
  set_mem (Num lon) (DataSet._lon_set self) = true →
  Forall (λ v, v ∈ data_keys (DataSet._var_dict self)) var_long →
  ∃ nc times lats lons res,
    fs filename = Some nc ∧
    axis nc "time" = Some times ∧ axis nc "lat" = Some lats ∧
    axis nc "lon" = Some lons ∧
    DataSet.coord_timeseries self lat lon var_long = ([], inr res) ∧
    columns res = "time" :: var_long ∧
    map (cell 0) (rows res)
    = flat_map (λ t, repeat (Num t) (occurrences lat lats * occurrences lon lons)) times ∧
    (occurrences lat lats = 1 → occurrences lon lons = 1 →
     map (cell 0) (rows res) = map Num times).
Proof.
  intros (nc & times & lats & lons & Hfs & -> & Hb)%init_inr Hlat Hlon Hvars.
  pose proof (built_coord_timeseries nc times lats lons self Hb lat lon var_long
                Hlat Hlon Hvars) as Hquery.
  destruct Hb as [Ht Hla Hlo].
  eexists nc, times, lats, lons, _. split_and!; try done; cbn [rows].
  - rewrite (time_cells (λ p, (coords_at times lats lons p).1.1)), hits_times.
    apply map_flat_map_repeat.
  - intros H1 H2.
    rewrite (time_cells (λ p, (coords_at times lats lons p).1.1)), hits_times.
    rewrite H1, H2. f_equal. change (1 * 1) with 1.
    clear. induction times as [| t times IH]; simpl; [done | f_equal; exact IH].
Qed.

(** The file of two days at (32.5, 35): the time column is the time
    axis [0, 1]. *)
Lemma coord_timeseries_time_column_day :
  ∃ res,
    DataSet.coord_timeseries Example.day 32.5 35 ["total_precipitation"] = ([], inr res) ∧
    map (cell 0) (rows res) = [Num 0; Num 1].
Proof.
  destruct (coord_timeseries_time_column Example.disc "day.nc4" _ Example.day
              32.5%float 35%float ["total_precipitation"] load_day)
    as (nc & times & lats & lons & res & Hfs & Ht & Hla & Hlo & Hq & _ & _ & Hone).
  - vm_compute. reflexivity.
  - vm_compute. reflexivity.
  - repeat constructor.
  - exists res. split; [exact Hq |].
    injection Hfs as <-. injection Ht as <-. injection Hla as <-. injection Hlo as <-.
    apply Hone; vm_compute; reflexivity.
Defined.

Lemma positions_missing (names cols : list string) :
  ¬ Forall (λ n, n ∈ cols) names →
  ∃ n, n ∈ names ∧ (n ∉ cols) ∧ positions names cols = ([], inl (KeyError n)).
Proof.
  induction names as [| n names IH]; intros Hnot; [by destruct Hnot |].
  simpl. destruct (column_pos n cols) as [p |] eqn:Hp.
  - destruct IH as (m & Hm & Hout & Hpos).
    { intros Hall. apply Hnot. constructor; [| done].
      destruct (decide (n ∈ cols)) as [| Hn]; [done |].
      apply column_pos_None in Hn. congruence. }
    exists m. split_and!; [apply elem_of_cons; by right | done | by rewrite Hpos].
  - exists n. split_and!; [apply elem_of_cons; by left | | done].
    intros (pos & Hpos & _)%column_pos_Some. congruence.
Qed.

(** X6. With valid coordinates, asking [coord_timeseries] of a dataset read
    from a file for a variable that is no column of its table raises a
    KeyError for such a variable, and nothing is printed. *)
Theorem coord_timeseries_unknown_variable
    (fs : filesystem) (filename : string) (tr : list event) (self : DataSet.t)
    (lat lon : float) (var_long : list string) :
  DataSet.__init__ fs filename = (tr, inr self) →
  set_mem (Num lat) (DataSet._lat_set self) = true →
  set_mem (Num lon) (DataSet._lon_set self) = true →
  ¬ Forall (λ v, v ∈ "time" :: "lat" :: "lon" :: data_keys (DataSet._var_dict self))
      var_long →
  ∃ v, v ∈ var_long ∧
       (v ∉ "time" :: "lat" :: "lon" :: data_keys (DataSet._var_dict self)) ∧
       DataSet.coord_timeseries self lat lon var_long = ([], inl (KeyError v)).
Proof.
  intros (nc & times & lats & lons & Hfs & -> & Hb)%init_inr Hlat Hlon Hnot.
  pose proof (built_columns nc times lats lons self) as Hcols.
  destruct (positions_missing ("time" :: var_long)
              ("time" :: "lat" :: "lon" :: data_keys (DataSet._var_dict self)))
    as (v & Hv & Hout & Hpos).
  { intros Hall. apply Hnot. by apply Forall_inv_tail in Hall. }
  exists v. split_and!; [| done |].
  - apply elem_of_cons in Hv as [-> | Hv]; [| done].
    exfalso. apply Hout, elem_of_cons. by left.
  - destruct Hb. unfold DataSet.coord_timeseries, DataSet.the_frame, get_column.
    rewrite Hlat, Hlon, built_df0. cbn [andb]. cbv iota. rewrite io_bind_ret, Hcols.
    change (column_pos "lat" _) with (Some 1). cbv iota. rewrite io_bind_ret.
    change (column_pos "lon" _) with (Some 2). cbv iota. rewrite io_bind_ret.
    unfold select_columns. cbn [columns loc]. rewrite Hcols, Hpos. done.
Qed.

(** The file of two days has no variable pressure. *)
Lemma coord_timeseries_unknown_variable_day :
  ∃ v, v ∈ ["total_precipitation"; "pressure"] ∧
       (v ∉ "time" :: "lat" :: "lon" :: data_keys (DataSet._var_dict Example.day)) ∧
       DataSet.coord_timeseries Example.day 32.5 35 ["total_precipitation"; "pressure"]
       = ([], inl (KeyError v)).
Proof.
  apply (coord_timeseries_unknown_variable Example.disc "day.nc4" _ Example.day
           32.5%float 35%float ["total_precipitation"; "pressure"] load_day).
  - vm_compute. reflexivity.
  - vm_compute. reflexivity.
  - intros Hall. apply Forall_inv_tail, Forall_inv in Hall.
    apply list_elem_of_In in Hall. vm_compute in Hall.
    repeat (destruct Hall as [Hall | Hall]; [discriminate |]). exact Hall.
Defined.

End dataset_extras.

(** * More on the loader *)

Section loader_extras.
Import NetCDF Pandas DataLoader LoaderSpec.

(** ** Loading one file *)

(** X10. [_load_dataset] never raises. It opens the file once, stores the
    dataset under the file name when the constructor returns it, also
    over an older entry, and otherwise prints a line and leaves the cache
    as it is; the entries of the other files are never touched. *)
Theorem load_dataset_never_raises
    (fs : filesystem) (file_name : string) (d : gmap string DataSet.t) :
  outcome (_load_dataset fs file_name d) = inr tt ∧
  opens file_name (trace (_load_dataset fs file_name d)) = 1 ∧
  (∀ g, g ≠ file_name →
     opens g (trace (_load_dataset fs file_name d)) = 0 ∧
     final_cache (_load_dataset fs file_name d) !! g = d !! g) ∧
  (∀ tr ds, DataSet.__init__ fs file_name = (tr, inr ds) →
     final_cache (_load_dataset fs file_name d) !! file_name = Some ds) ∧
  (∀ tr e, DataSet.__init__ fs file_name = (tr, inl e) →
     _load_dataset fs file_name d = (d, (tr ++ [EvPrint "Dataset was not opened"], inr tt))).
Proof.
  pose proof (init_opens fs file_name) as Hopens.
  unfold _load_dataset, outcome, trace, final_cache.
  destruct (DataSet.__init__ fs file_name) as [tr [e | ds]]; simpl in *.
  - split_and!; try done.
    + rewrite opens_app, Hopens, String.eqb_refl. done.
    + intros g Hne. rewrite opens_app, Hopens.
      by rewrite (proj2 (String.eqb_neq file_name g)) by congruence.
    + by intros ? ? [= <- _].
  - split_and!; try done.
    + by rewrite Hopens, String.eqb_refl.
    + intros g Hne. rewrite Hopens.
      rewrite (proj2 (String.eqb_neq file_name g)) by congruence.
      by rewrite lookup_insert_ne.
    + intros ? ? [= _ <-]. apply lookup_insert_eq.
Qed.

(** ** Calls that cache *)

Lemma turn_cache_grows (fs : filesystem) (query : string → DataSet.t → io DataFrame)
    (acc : DataFrame) (f : string) (d : gmap string DataSet.t) :
  d ⊆ fst (turn fs query true acc f d).
Proof.
  unfold turn, answer. destruct (d !! f) as [ds |] eqn:Hd.
  - by destruct (query f ds) as [tr1 [e | part]].
  - destruct (DataSet.__init__ fs f) as [tr0 [e | ds]]; simpl; [done |].
    destruct (query f ds) as [tr1 [e | part]]; simpl; by apply insert_subseteq.
Qed.

Lemma loop_cache_grows (fs : filesystem) (query : string → DataSet.t → io DataFrame)
    (files : list string) (acc : DataFrame) (d : gmap string DataSet.t) :
  d ⊆ fst (ld_fold (turn fs query true) acc files d).
Proof.
  revert acc d. induction files as [| f files IH]; intros acc d; [done |].
  rewrite ld_fold_cons. pose proof (turn_cache_grows fs query acc f d) as Hturn.
  destruct (turn fs query true acc f d) as [d1 [tr1 [e | acc1]]]; [done |].
  specialize (IH acc1 d1). destruct (ld_fold _ acc1 files d1) as [d2 [tr2 r]].
  simpl in *. by etrans.
Qed.

Lemma loop_caches (fs : filesystem) (query : string → DataSet.t → io DataFrame)
    (files : list string) (acc out : DataFrame) (d d' : gmap string DataSet.t)
    (tr : list event) :
  ld_fold (turn fs query true) acc files d = (d', (tr, inr out)) →
  ∀ f, f ∈ files → is_Some (d' !! f).
Proof.
  revert acc d tr. induction files as [| f files IH]; intros acc d tr.
  - by intros _ f [] %elem_of_nil.
  - rewrite ld_fold_cons.
    destruct (turn fs query true acc f d) as [d1 [tr1 [e | acc1]]] eqn:Hturn; [discriminate |].
    pose proof (loop_cache_grows fs query files acc1 d1) as Hgrow.
    destruct (ld_fold _ acc1 files d1) as [d2 [tr2 r]] eqn:Hrest.
    intros [= <- <- ->] g [-> | Hg]%elem_of_cons; [| by eapply IH].
    apply turn_inr in Hturn as (ds & tr0 & tr1' & part & _ & _ & _ & Hcase).
    exists ds. simpl in Hgrow. eapply lookup_weaken; [| exact Hgrow].
    destruct Hcase as [(Hd & _ & ->) | (_ & _ & ->)]; [done | apply lookup_insert_eq].
Qed.

(** X11. A call that caches never removes or replaces an entry of the cache,
    whether it returns or raises; when it returns, every file of the list
    has an entry, which is the one of before the call or the dataset the
    constructor made of the file. *)
Theorem caching_call_fills_cache (fs : filesystem) (files : list string)
    (d0 : gmap string DataSet.t) :
  (∀ lat lon var_long as_numpy,
     (∀ f ds, d0 !! f = Some ds →
        final_cache (time_series fs files lat lon var_long true as_numpy d0) !! f = Some ds) ∧
     (∀ res, outcome (time_series fs files lat lon var_long true as_numpy d0) = inr res →
        ∀ f, f ∈ files →
          ∃ ds, final_cache (time_series fs files lat lon var_long true as_numpy d0) !! f
                = Some ds ∧ dataset_for fs d0 f ds)) ∧
  (∀ time var_long,
     (∀ f ds, d0 !! f = Some ds →
        final_cache (time_slice_daily fs files time var_long true d0) !! f = Some ds) ∧
     (∀ res, outcome (time_slice_daily fs files time var_long true d0) = inr res →
        ∀ f, f ∈ files →
          ∃ ds, final_cache (time_slice_daily fs files time var_long true d0) !! f
                = Some ds ∧ dataset_for fs d0 f ds)).
Proof.
  assert (Hloop : ∀ query,
    (∀ f ds, d0 !! f = Some ds →
       fst (ld_fold (turn fs query true) empty_frame files d0) !! f = Some ds) ∧
    (∀ out, snd (snd (ld_fold (turn fs query true) empty_frame files d0)) = inr out →
       ∀ f, f ∈ files →
         ∃ ds, fst (ld_fold (turn fs query true) empty_frame files d0) !! f = Some ds ∧
               dataset_for fs d0 f ds)).
  { intros query. split.
    - intros f ds Hd. eapply lookup_weaken; [exact Hd | apply loop_cache_grows].
    - intros out Hout f Hf.
      pose proof (loop_cache_sound fs query true files empty_frame d0 f) as Hsound.
      destruct (ld_fold _ _ _ _) as [d' [tr [e | out']]] eqn:Hfold; [discriminate |].
      destruct (loop_caches _ _ _ _ _ _ _ _ Hfold f Hf) as [ds Hds].
      exists ds. split; [done |]. by apply Hsound. }
  split.
  - intros lat lon var_long as_numpy.
    destruct (time_series_parts fs files lat lon var_long true as_numpy d0)
      as (Hcache & _ & Hout).
    destruct (Hloop (series_query lat lon var_long)) as [Hkeep Hfill].
    rewrite Hcache, Hout. split; [done |].
    intros res Hres. destruct (snd (snd (ld_fold _ _ _ _))) as [e | out] eqn:Ho;
      [discriminate |]. by apply (Hfill out).
  - intros time var_long. rewrite time_slice_daily_turns.
    apply (Hloop (slice_query time var_long)).
Qed.

(** From the empty cache, the file of two days is cached by a caching
    call. *)
Lemma caching_call_fills_cache_day :
  ∃ ds, final_cache (time_series Example.disc ["day.nc4"] 32.5 35
                       ["total_precipitation"] true false ∅) !! "day.nc4" = Some ds ∧
        dataset_for Example.disc ∅ "day.nc4" ds.
Proof.
  destruct (caching_call_fills_cache Example.disc ["day.nc4"] ∅) as [Hseries _].
  destruct (Hseries 32.5%float 35%float ["total_precipitation"] false) as [_ Hfill].
  eapply Hfill.
  - vm_compute. reflexivity.
  - apply list_elem_of_In. left. reflexivity.
Defined.

Lemma loop_again (fs : filesystem) (query : string → DataSet.t → io DataFrame)
    (files : list string) (acc out : DataFrame) (d d' : gmap string DataSet.t)
    (tr : list event) :
  ld_fold (turn fs query true) acc files d = (d', (tr, inr out)) →
  ∀ d2, d' ⊆ d2 →
    ∃ tr2, ld_fold (turn fs query true) acc files d2 = (d2, (tr2, inr out)).
Proof.
  revert acc d tr. induction files as [| f files IH]; intros acc d tr.
  - intros [= <- <- <-] d2 _. by exists [].
  - rewrite ld_fold_cons.
    destruct (turn fs query true acc f d) as [d1 [tr1 [e | acc1]]] eqn:Hturn; [discriminate |].
    pose proof (loop_cache_grows fs query files acc1 d1) as Hgrow.
    destruct (ld_fold _ acc1 files d1) as [d3 [tr3 r]] eqn:Hrest.
    intros [= <- <- ->] d2 Hsub. simpl in Hgrow.
    apply turn_inr in Hturn as (ds & tr0 & tr1' & part & Hq & -> & -> & Hcase).
    assert (Hd2 : d2 !! f = Some ds).
    { eapply lookup_weaken; [| exact Hsub]. eapply lookup_weaken; [| exact Hgrow].
      destruct Hcase as [(Hd & _ & ->) | (_ & _ & ->)]; [done | apply lookup_insert_eq]. }
    destruct (IH _ _ _ Hrest d2 Hsub) as [tr2 Hagain].
    exists (tr1' ++ tr2). rewrite ld_fold_cons. unfold turn at 1, answer.
    by rewrite Hd2, Hq, Hagain.
Qed.

(** X12. A caching call that returned, made again with the cache it left,
    opens no file, leaves the cache as it is and returns the same
    result. *)
Theorem second_cached_call (fs : filesystem) (files : list string)
    (d0 : gmap string DataSet.t) :
  (∀ lat lon var_long as_numpy res,
     outcome (time_series fs files lat lon var_long true as_numpy d0) = inr res →
     ∃ tr2,
       time_series fs files lat lon var_long true as_numpy
         (final_cache (time_series fs files lat lon var_long true as_numpy d0))
       = (final_cache (time_series fs files lat lon var_long true as_numpy d0),
          (tr2, inr res)) ∧
       quiet tr2) ∧
  (∀ time var_long res,
     outcome (time_slice_daily fs files time var_long true d0) = inr res →
     ∃ tr2,
       time_slice_daily fs files time var_long true
         (final_cache (time_slice_daily fs files time var_long true d0))
       = (final_cache (time_slice_daily fs files time var_long true d0),
          (tr2, inr res)) ∧
       quiet tr2).
Proof.
  assert (Hloop : ∀ query d' tr out,
    (∀ f ds, quiet (fst (query f ds))) →
    ld_fold (turn fs query true) empty_frame files d0 = (d', (tr, inr out)) →
    ∃ tr2, ld_fold (turn fs query true) empty_frame files d' = (d', (tr2, inr out)) ∧
           quiet tr2).
  { intros query d' tr out Hq Hfold.
    destruct (loop_again _ _ _ _ _ _ _ _ Hfold d') as [tr2 Hagain]; [done |].
    exists tr2. split; [done |]. intros g.
    destruct (loop_opens fs query files empty_frame d' g Hq) as (_ & Hin & Hout).
    rewrite Hagain in Hin, Hout. simpl in *.
    destruct (decide (g ∈ files)) as [Hg | Hg]; [| by apply Hout].
    apply Hin. by eapply loop_caches. }
  split.
  - intros lat lon var_long as_numpy res Hres.
    destruct (time_series_parts fs files lat lon var_long true as_numpy d0)
      as (Hcache & _ & Hout).
    rewrite Hcache. rewrite Hout in Hres.
    destruct (ld_fold _ _ _ d0) as [d' [tr [e | out]]] eqn:Hfold; [discriminate |].
    simpl in Hres. injection Hres as <-. simpl.
    destruct (Hloop _ _ _ _ (quiet_series_query lat lon var_long) Hfold) as (tr2 & Hagain & Hq).
    exists tr2. split; [| done]. by rewrite time_series_turns, Hagain.
  - intros time var_long res Hres. rewrite !time_slice_daily_turns in *.
    unfold outcome, final_cache in *.
    destruct (ld_fold _ _ _ d0) as [d' [tr [e | out]]] eqn:Hfold; [discriminate |].
    simpl in Hres. injection Hres as <-. simpl.
    destruct (Hloop _ _ _ _ (quiet_slice_query time var_long) Hfold) as (tr2 & Hagain & Hq).
    exists tr2. by split.
Qed.

(** The file of two days, asked for twice. *)
Lemma second_cached_call_day :
  ∃ tr2,
    time_series Example.disc ["day.nc4"] 32.5 35 ["total_precipitation"] true false
      (final_cache (time_series Example.disc ["day.nc4"] 32.5 35
                      ["total_precipitation"] true false ∅))
    = (final_cache (time_series Example.disc ["day.nc4"] 32.5 35
                      ["total_precipitation"] true false ∅),
       (tr2, inr (Frame {| columns := ["time"; "total_precipitation"];
                           rows := [(0, [Num 0; Num 1]); (4, [Num 1; Num 5])] |}))) ∧
    quiet tr2.
Proof.
  apply (proj1 (second_cached_call Example.disc ["day.nc4"] ∅)).
  vm_compute. reflexivity.
Defined.

(** ** A query that raises *)

Lemma loop_query_fails (fs : filesystem) (query : string → DataSet.t → io DataFrame)
    (cache : bool) (pre post : list string) (f : string) (acc acc1 : DataFrame)
    (d d1 : gmap string DataSet.t) (tr1 tr0 trq : list event) (ds : DataSet.t) (e : exn) :
  ld_fold (turn fs query cache) acc pre d = (d1, (tr1, inr acc1)) →
  (d1 !! f = Some ds ∧ tr0 = []) ∨ (d1 !! f = None ∧ DataSet.__init__ fs f = (tr0, inr ds)) →
  query f ds = (trq, inl e) →
  ld_fold (turn fs query cache) acc (pre ++ f :: post) d
  = (<[f := ds]> d1, (tr1 ++ tr0 ++ trq, inl e)).
Proof.
  intros Hpre Hcase Hq. rewrite ld_fold_app, Hpre, ld_fold_cons. unfold turn at 1, answer.
  destruct Hcase as [[Hd ->] | [Hd Hinit]].
  - by rewrite Hd, Hq, insert_id.
  - by rewrite Hd, Hinit, Hq.
Qed.

(** X13. When the query of a file raises, the call raises the same exception
    and the dataset of the file is in the cache afterwards, also in a call
    that does not cache: the file was loaded before the query, and the
    deletion after the query is not reached. *)
Theorem raising_query_keeps_entry (fs : filesystem) (pre post : list string) (f : string)
    (ds : DataSet.t) (d0 : gmap string DataSet.t) :
  (∀ lat lon var_long cache as_numpy res trq e,
     outcome (time_series fs pre lat lon var_long cache as_numpy d0) = inr res →
     let d1 := final_cache (time_series fs pre lat lon var_long cache as_numpy d0) in
     d1 !! f = Some ds ∨ (d1 !! f = None ∧ ∃ tr0, DataSet.__init__ fs f = (tr0, inr ds)) →
     DataSet.coord_timeseries ds lat lon var_long = (trq, inl e) →
     outcome (time_series fs (pre ++ f :: post) lat lon var_long cache as_numpy d0) = inl e ∧
     final_cache (time_series fs (pre ++ f :: post) lat lon var_long cache as_numpy d0)
     = <[f := ds]> d1) ∧
  (∀ time var_long cache res trq e,
     outcome (time_slice_daily fs pre time var_long cache d0) = inr res →
     let d1 := final_cache (time_slice_daily fs pre time var_long cache d0) in
     d1 !! f = Some ds ∨ (d1 !! f = None ∧ ∃ tr0, DataSet.__init__ fs f = (tr0, inr ds)) →
     DataSet.time_slice ds time var_long = (trq, inl e) →
     outcome (time_slice_daily fs (pre ++ f :: post) time var_long cache d0) = inl e ∧
     final_cache (time_slice_daily fs (pre ++ f :: post) time var_long cache d0)
     = <[f := ds]> d1).
Proof.
  assert (Hloop : ∀ query cache d1 tr1 acc1 trq e,
    ld_fold (turn fs query cache) empty_frame pre d0 = (d1, (tr1, inr acc1)) →
    d1 !! f = Some ds ∨ (d1 !! f = None ∧ ∃ tr0, DataSet.__init__ fs f = (tr0, inr ds)) →
    query f ds = (trq, inl e) →
    ∃ tr, ld_fold (turn fs query cache) empty_frame (pre ++ f :: post) d0
          = (<[f := ds]> d1, (tr, inl e))).
  { intros query cache d1 tr1 acc1 trq e Hpre [Hd | [Hd [tr0 Hinit]]] Hq.
    - exists (tr1 ++ [] ++ trq). eapply loop_query_fails; [exact Hpre | by left | exact Hq].
    - exists (tr1 ++ tr0 ++ trq). eapply loop_query_fails; [exact Hpre | by right | exact Hq]. }
  split.
  - intros lat lon var_long cache as_numpy res trq e Hres d1 Hfor Hq. subst d1.
    destruct (time_series_parts fs pre lat lon var_long cache as_numpy d0)
      as (Hcache & _ & Hout).
    rewrite Hcache in *. rewrite Hout in Hres.
    destruct (ld_fold _ _ pre d0) as [d1 [tr1 [e1 | acc1]]] eqn:Hpre; [discriminate |].
    simpl in *.
    destruct (Hloop (series_query lat lon var_long) cache d1 tr1 acc1 trq e Hpre Hfor Hq)
      as [tr Hfail].
    by rewrite time_series_turns, Hfail.
  - intros time var_long cache res trq e Hres d1 Hfor Hq. subst d1.
    rewrite !time_slice_daily_turns in *. unfold outcome, final_cache in *.
    destruct (ld_fold _ _ pre d0) as [d1 [tr1 [e1 | acc1]]] eqn:Hpre; [discriminate |].
    simpl in *.
    destruct (Hloop (slice_query time var_long) cache d1 tr1 acc1 trq e Hpre Hfor) as [tr Hfail].
    { unfold slice_query. by rewrite Hq. }
    by rewrite Hfail.
Qed.

(** A call that does not cache, for an unknown variable of the file of
    two days: the KeyError of the query, and the file is in the cache. *)
Lemma raising_query_keeps_entry_day :
  outcome (time_series Example.disc ([] ++ "day.nc4" :: []) 32.5 35 ["wind"] false false ∅)
  = inl (KeyError "wind") ∧
  final_cache (time_series Example.disc ([] ++ "day.nc4" :: []) 32.5 35 ["wind"] false false ∅)
  = <[ "day.nc4" := Example.day ]>
      (final_cache (time_series Example.disc [] 32.5 35 ["wind"] false false ∅)).
Proof.
  apply (proj1 (raising_query_keeps_entry Example.disc [] [] "day.nc4" Example.day ∅)
           32.5%float 35%float ["wind"] false false (Frame empty_frame) [] (KeyError "wind")).
  - reflexivity.
  - right. split; [apply lookup_empty |].
    eexists. vm_compute. reflexivity.
  - vm_compute. reflexivity.
Defined.

(** ** Calls that do not cache *)

Lemma loop_uncached_opens (fs : filesystem) (query : string → DataSet.t → io DataFrame)
    (files : list string) (acc out : DataFrame) (d d' : gmap string DataSet.t)
    (tr : list event) (f : string) :
  (∀ g ds, quiet (fst (query g ds))) →
  ld_fold (turn fs query false) acc files d = (d', (tr, inr out)) →
  opens f tr
  = length (List.filter (λ g, String.eqb g f) files) - match d !! f with Some _ => 1 | None => 0 end.
Proof.
  intros Hq. revert acc d tr. induction files as [| g files IH]; intros acc d tr.
  - intros [= <- <- <-]. done.
  - rewrite ld_fold_cons.
    pose proof (turn_opens fs query false acc g f d Hq) as Hopens.
    destruct (turn fs query false acc g d) as [d1 [tr1 [e | acc1]]] eqn:Hturn; [discriminate |].
    destruct (ld_fold _ acc1 files d1) as [d2 [tr2 r]] eqn:Hrest.
    intros [= <- <- ->]. apply IH in Hrest. simpl in Hopens.
    rewrite opens_app, Hopens, Hrest.
    apply turn_inr in Hturn as (ds & tr0 & tr1' & part & _ & _ & _ & Hcase).
    assert (Hd1 : d1 = delete g d) by (by destruct Hcase as [(_ & _ & ->) | (_ & _ & ->)]).
    subst d1. simpl.
    destruct (String.eqb_spec g f) as [-> | Hne].
    + rewrite lookup_delete_eq. simpl. destruct (d !! f); lia.
    + rewrite lookup_delete_ne by done. by destruct (d !! g).
Qed.

(** X14. A call that does not cache and returns has opened each file as often
    as the list names it, less once when the file was in the cache before
    the call: the dataset is deleted after each use, so that a file named
    again is read again. *)
Theorem uncached_call_reopens (fs : filesystem) (files : list string)
    (d0 : gmap string DataSet.t) (f : string) :
  (∀ lat lon var_long as_numpy res,
     outcome (time_series fs files lat lon var_long false as_numpy d0) = inr res →
     opens f (trace (time_series fs files lat lon var_long false as_numpy d0))
     = length (List.filter (λ g, String.eqb g f) files) - match d0 !! f with Some _ => 1 | None => 0 end) ∧
  (∀ time var_long res,
     outcome (time_slice_daily fs files time var_long false d0) = inr res →
     opens f (trace (time_slice_daily fs files time var_long false d0))
     = length (List.filter (λ g, String.eqb g f) files) - match d0 !! f with Some _ => 1 | None => 0 end).
Proof.
  split.
  - intros lat lon var_long as_numpy res Hres.
    destruct (time_series_parts fs files lat lon var_long false as_numpy d0)
      as (_ & Htrace & Hout).
    rewrite Htrace. rewrite Hout in Hres.
    destruct (ld_fold _ _ files d0) as [d' [tr [e | out]]] eqn:Hloop; [discriminate |].
    simpl. eapply loop_uncached_opens; [apply quiet_series_query | exact Hloop].
  - intros time var_long res Hres. rewrite time_slice_daily_turns in *.
    unfold outcome, trace in *.
    destruct (ld_fold _ _ files d0) as [d' [tr [e | out]]] eqn:Hloop; [discriminate |].
    simpl. eapply loop_uncached_opens; [apply quiet_slice_query | exact Hloop].
Qed.

(** The file of two days, named twice, is opened twice. *)
Lemma uncached_call_reopens_day :
  opens "day.nc4"
    (trace (time_series Example.disc ["day.nc4"; "day.nc4"] 32.5 35
              ["total_precipitation"] false false ∅))
  = length (List.filter (λ g, String.eqb g "day.nc4") ["day.nc4"; "day.nc4"])
    - match (∅ : gmap string DataSet.t) !! "day.nc4" with Some _ => 1 | None => 0 end.
Proof.
  eapply (proj1 (uncached_call_reopens Example.disc ["day.nc4"; "day.nc4"] ∅ "day.nc4")).
  vm_compute. reflexivity.
Defined.

(** ** A list of files in two calls *)

Lemma concat_shaped_assoc (cols : list string) (a b c : DataFrame) :
  shaped cols a → shaped cols b → shaped cols c →
  concat (concat a b) c = concat a (concat b c).
Proof.
  intros [-> | Ha] [-> | Hb] [-> | Hc];
    rewrite ?concat_empty_l, ?concat_empty_r; try done.
  rewrite (concat_same_columns a b), (concat_same_columns b c) by congruence.
  rewrite !concat_same_columns by (simpl; congruence). simpl. by rewrite app_assoc.
Qed.

Lemma fold_concat_acc (cols : list string) (parts : list DataFrame) (acc : DataFrame) :
  shaped cols acc → Forall (shaped cols) parts →
  fold_left concat parts acc = concat acc (fold_left concat parts empty_frame).
Proof.
  intros Hacc Hparts. revert acc Hacc.
  induction Hparts as [| part parts Hpart Hparts IH]; intros acc Hacc; simpl.
  - by rewrite concat_empty_r.
  - rewrite concat_empty_l.
    rewrite (IH (concat acc part)) by (by apply concat_shaped).
    rewrite (IH part Hpart).
    apply (concat_shaped_assoc cols); [done | done |].
    apply fold_concat_rows; [by left | done].
Qed.

(** A loop appends to whatever table it starts with the same parts, and
    raises, leaves the cache and opens files regardless of that table. *)
Lemma loop_with_parts (fs : filesystem) (query : string → DataSet.t → io DataFrame)
    (cache : bool) (cols : list string) (files : list string) (d : gmap string DataSet.t) :
  (∀ g ds tr part, query g ds = (tr, inr part) → shaped cols part) →
  (∃ d' tr e, ∀ acc, ld_fold (turn fs query cache) acc files d = (d', (tr, inl e))) ∨
  (∃ d' tr parts,
     Forall (shaped cols) parts ∧
     ∀ acc, ld_fold (turn fs query cache) acc files d
            = (d', (tr, inr (fold_left concat parts acc)))).
Proof.
  intros Hshape. revert d. induction files as [| f files IH]; intros d.
  - right. exists d, [], []. split; [constructor | done].
  - assert (Hturn :
      (∃ d1 tr1 e, ∀ acc, turn fs query cache acc f d = (d1, (tr1, inl e))) ∨
      (∃ d1 tr1 part, shaped cols part ∧
         ∀ acc, turn fs query cache acc f d = (d1, (tr1, inr (concat acc part))))).
    { unfold turn, answer. destruct (d !! f) as [ds |].
      - destruct (query f ds) as [tr1 [e | part]] eqn:Hq.
        + left. by eexists _, _, _.
        + right. eexists _, _, part. split; [by eapply Hshape | done].
      - destruct (DataSet.__init__ fs f) as [tr0 [e | ds]].
        + left. by eexists _, _, _.
        + destruct (query f ds) as [tr1 [e | part]] eqn:Hq.
          * left. by eexists _, _, _.
          * right. eexists _, _, part. split; [by eapply Hshape | done]. }
    destruct Hturn as [(d1 & tr1 & e & Hfail) | (d1 & tr1 & part & Hpart & Hok)].
    + left. exists d1, tr1, e. intros acc. by rewrite ld_fold_cons, Hfail.
    + destruct (IH d1) as [(d' & tr & e & Hfail) | (d' & tr & parts & Hparts & Hrest)].
      * left. exists d', (tr1 ++ tr), e. intros acc. by rewrite ld_fold_cons, Hok, Hfail.
      * right. exists d', (tr1 ++ tr), (part :: parts). split; [by constructor |].
        intros acc. by rewrite ld_fold_cons, Hok, Hrest.
Qed.

Lemma loop_compose (fs : filesystem) (query : string → DataSet.t → io DataFrame)
    (cache : bool) (cols : list string) (l1 l2 : list string)
    (d0 d1 : gmap string DataSet.t) (tr1 : list event) (r1 : DataFrame) :
  (∀ g ds tr part, query g ds = (tr, inr part) → shaped cols part) →
  ld_fold (turn fs query cache) empty_frame l1 d0 = (d1, (tr1, inr r1)) →
  ld_fold (turn fs query cache) empty_frame (l1 ++ l2) d0
  = match ld_fold (turn fs query cache) empty_frame l2 d1 with
    | (d2, (tr2, inl e)) => (d2, (tr1 ++ tr2, inl e))
    | (d2, (tr2, inr r2)) => (d2, (tr1 ++ tr2, inr (concat r1 r2)))
    end ∧
  shaped cols r1.
Proof.
  intros Hshape H1.
  assert (Hr1 : shaped cols r1).
  { destruct (loop_with_parts fs query cache cols l1 d0 Hshape)
      as [(d' & tr & e & Hfail) | (d' & tr & parts & Hparts & Hok)].
    - rewrite Hfail in H1. discriminate.
    - rewrite Hok in H1. injection H1 as _ _ <-.
      apply fold_concat_rows; [by left | done]. }
  split; [| done]. rewrite ld_fold_app, H1.
  destruct (loop_with_parts fs query cache cols l2 d1 Hshape)
    as [(d' & tr & e & Hfail) | (d' & tr & parts & Hparts & Hok)].
  - by rewrite !Hfail.
  - rewrite !Hok. by rewrite (fold_concat_acc cols parts r1).
Qed.

(** X15. A call for a list of files in two parts is the call for the first
    part followed by the call for the second part from the cache the first
    has left: it does what the two do, one after the other, ends with the
    cache of the second, and returns the [pd.concat] of the two tables,
    whose rows are those of the first and then those of the second; when
    the second call raises, so does the whole with the same exception. *)
Theorem calls_compose (fs : filesystem) (l1 l2 : list string) (d0 : gmap string DataSet.t) :
  (∀ lat lon var_long cache d1 tr1 r1,
     time_series fs l1 lat lon var_long cache false d0 = (d1, (tr1, inr (Frame r1))) →
     (∀ d2 tr2 r2,
        time_series fs l2 lat lon var_long cache false d1 = (d2, (tr2, inr (Frame r2))) →
        time_series fs (l1 ++ l2) lat lon var_long cache false d0
        = (d2, (tr1 ++ tr2, inr (Frame (concat r1 r2)))) ∧
        rows (concat r1 r2) = rows r1 ++ rows r2) ∧
     (∀ d2 tr2 e,
        time_series fs l2 lat lon var_long cache false d1 = (d2, (tr2, inl e)) →
        time_series fs (l1 ++ l2) lat lon var_long cache false d0
        = (d2, (tr1 ++ tr2, inl e)))) ∧
  (∀ time var_long cache d1 tr1 r1,
     time_slice_daily fs l1 time var_long cache d0 = (d1, (tr1, inr r1)) →
     (∀ d2 tr2 r2,
        time_slice_daily fs l2 time var_long cache d1 = (d2, (tr2, inr r2)) →
        time_slice_daily fs (l1 ++ l2) time var_long cache d0
        = (d2, (tr1 ++ tr2, inr (concat r1 r2))) ∧
        rows (concat r1 r2) = rows r1 ++ rows r2) ∧
     (∀ d2 tr2 e,
        time_slice_daily fs l2 time var_long cache d1 = (d2, (tr2, inl e)) →
        time_slice_daily fs (l1 ++ l2) time var_long cache d0
        = (d2, (tr1 ++ tr2, inl e)))).
Proof.
  assert (Hloop : ∀ query cache cols d1 tr1 r1,
    (∀ g ds tr part, query g ds = (tr, inr part) → shaped cols part) →
    ld_fold (turn fs query cache) empty_frame l1 d0 = (d1, (tr1, inr r1)) →
    (∀ d2 tr2 r2,
       ld_fold (turn fs query cache) empty_frame l2 d1 = (d2, (tr2, inr r2)) →
       ld_fold (turn fs query cache) empty_frame (l1 ++ l2) d0
       = (d2, (tr1 ++ tr2, inr (concat r1 r2))) ∧
       rows (concat r1 r2) = rows r1 ++ rows r2) ∧
    (∀ d2 tr2 e,
       ld_fold (turn fs query cache) empty_frame l2 d1 = (d2, (tr2, inl e)) →
       ld_fold (turn fs query cache) empty_frame (l1 ++ l2) d0
       = (d2, (tr1 ++ tr2, inl e)))).
  { intros query cache cols d1 tr1 r1 Hshape H1.
    destruct (loop_compose fs query cache cols l1 l2 d0 d1 tr1 r1 Hshape H1) as [Happ Hr1].
    split.
    - intros d2 tr2 r2 H2. rewrite Happ, H2. split; [done |].
      apply (concat_shaped cols); [done |].
      destruct (loop_with_parts fs query cache cols l2 d1 Hshape)
        as [(d' & tr & e & Hfail) | (d' & tr & parts & Hparts & Hok)].
      + rewrite Hfail in H2. discriminate.
      + rewrite Hok in H2. injection H2 as _ _ <-.
        apply fold_concat_rows; [by left | done].
    - intros d2 tr2 e H2. by rewrite Happ, H2. }
  split.
  - intros lat lon var_long cache d1 tr1 r1 H1.
    rewrite time_series_turns in H1.
    destruct (ld_fold _ _ l1 d0) as [d1' [tr1' [e | r1']]] eqn:Hfold1; [discriminate |].
    injection H1 as -> -> ->.
    destruct (Hloop (series_query lat lon var_long) cache ("time" :: var_long) d1 tr1 r1)
      as [Hok Hfail]; [apply series_query_shaped | done |].
    split.
    + intros d2 tr2 r2 H2. rewrite time_series_turns in H2.
      destruct (ld_fold _ _ l2 d1) as [d2' [tr2' [e | r2']]] eqn:Hfold2; [discriminate |].
      injection H2 as -> -> ->.
      destruct (Hok _ _ _ eq_refl) as [Happ Hrows]. split; [| done].
      by rewrite time_series_turns, Happ.
    + intros d2 tr2 e H2. rewrite time_series_turns in H2.
      destruct (ld_fold _ _ l2 d1) as [d2' [tr2' [e' | r2']]] eqn:Hfold2; [| discriminate].
      injection H2 as -> -> ->.
      by rewrite time_series_turns, (Hfail _ _ _ eq_refl).
  - intros time var_long cache d1 tr1 r1 H1. rewrite time_slice_daily_turns in H1.
    destruct (Hloop (slice_query time var_long) cache _ d1 tr1 r1
                (slice_query_shaped time var_long) H1) as [Hok Hfail].
    split.
    + intros d2 tr2 r2 H2. rewrite time_slice_daily_turns in *. by apply Hok.
    + intros d2 tr2 e H2. rewrite time_slice_daily_turns in *. by apply Hfail.
Qed.

(** The file of two days and the file of the repeated time, in two calls
    and in one. *)
Lemma calls_compose_two_files :
  time_series Example.disc (["day.nc4"] ++ ["repeated.nc4"]) 32.5 35
    ["total_precipitation"] true false ∅
  = (<["repeated.nc4" := Example.repeated]> (<["day.nc4" := Example.day]> ∅),
     ([EvOpen "day.nc4"; EvClose "day.nc4"] ++ [EvOpen "repeated.nc4"; EvClose "repeated.nc4"],
      inr (Frame (concat
                    {| columns := ["time"; "total_precipitation"];
                       rows := [(0, [Num 0; Num 1]); (4, [Num 1; Num 5])] |}
                    {| columns := ["time"; "total_precipitation"];
                       rows := [(0, [Num 0; Num 1]); (1, [Num 0; Num 5])] |})))) ∧
  rows (concat
          {| columns := ["time"; "total_precipitation"];
             rows := [(0, [Num 0; Num 1]); (4, [Num 1; Num 5])] |}
          {| columns := ["time"; "total_precipitation"];
             rows := [(0, [Num 0; Num 1]); (1, [Num 0; Num 5])] |})
  = [(0, [Num 0; Num 1]); (4, [Num 1; Num 5])] ++ [(0, [Num 0; Num 1]); (1, [Num 0; Num 5])].
Proof.
  destruct (calls_compose Example.disc ["day.nc4"] ["repeated.nc4"] ∅) as [Hseries _].
  destruct (Hseries 32.5%float 35%float ["total_precipitation"] true
              (<["day.nc4" := Example.day]> ∅) [EvOpen "day.nc4"; EvClose "day.nc4"]
              {| columns := ["time"; "total_precipitation"];
                 rows := [(0, [Num 0; Num 1]); (4, [Num 1; Num 5])] |})
    as [Hboth _]; [vm_compute; reflexivity |].
  apply (Hboth (<["repeated.nc4" := Example.repeated]> (<["day.nc4" := Example.day]> ∅))
           [EvOpen "repeated.nc4"; EvClose "repeated.nc4"]
           {| columns := ["time"; "total_precipitation"];
              rows := [(0, [Num 0; Num 1]); (1, [Num 0; Num 5])] |}).
  vm_compute. reflexivity.
Defined.

(** ** The column of the file names *)

Lemma positions_length (names cols : list string) (tr : list event) (ps : list nat) :
  positions names cols = (tr, inr ps) → length ps = length names.
Proof.
  revert tr ps. induction names as [| n names IH]; simpl; intros tr ps.
  - by intros [= _ <-].
  - destruct (column_pos n cols) as [p |]; [| discriminate].
    intros H. io_step H as ps' Hps. injection H as _ <-. simpl. f_equal. by eapply IH.
Qed.

Lemma select_columns_width (dfl : DataFrame) (names : list string) (tr : list event)
    (part : DataFrame) :
  select_columns dfl names = (tr, inr part) →
  List.Forall (λ r, length (snd r) = length names) (rows part).
Proof.
  unfold select_columns. intros H. io_step H as ps Hps. injection H as _ <-. simpl.
  rewrite List.Forall_map. apply List.Forall_forall. intros r _. simpl.
  rewrite length_map. by eapply positions_length.
Qed.

Lemma set_scalar_tagged (curr : DataFrame) (var_long : string) (v : value) :
  columns curr = ["lat"; "lon"; var_long] →
  List.Forall (λ r, length (snd r) = 3) (rows curr) →
  columns (set_scalar curr "FileName" v)
  = (if String.eqb var_long "FileName" then ["lat"; "lon"; "FileName"]
     else ["lat"; "lon"; var_long; "FileName"]) ∧
  map (cell (if String.eqb var_long "FileName" then 2 else 3))
      (rows (set_scalar curr "FileName" v))
  = repeat v (length (rows curr)) ∧
  map (λ r, (fst r, take (if String.eqb var_long "FileName" then 2 else 3) (snd r)))
      (rows (set_scalar curr "FileName" v))
  = map (λ r, (fst r, take (if String.eqb var_long "FileName" then 2 else 3) (snd r)))
      (rows curr).
Proof.
  intros Hcols Hwidth. unfold set_scalar. rewrite Hcols.
  change (column_pos "FileName" ["lat"; "lon"; var_long])
    with (S <$> (S <$> (if String.eqb var_long "FileName" then Some 0 else None))).
  destruct (String.eqb_spec var_long "FileName") as [-> | Hne]; simpl.
  - split; [done |].
    induction Hwidth as [| [i cells] rs Hlen _ [IH1 IH2]]; simpl; [done |].
    simpl in Hlen. destruct cells as [| a [| b [| c [| ? ?]]]]; try discriminate.
    simpl. by rewrite IH1, IH2.
  - split; [done |].
    induction Hwidth as [| [i cells] rs Hlen _ [IH1 IH2]]; simpl; [done |].
    simpl in Hlen. destruct cells as [| a [| b [| c [| ? ?]]]]; try discriminate.
    simpl. by rewrite IH1, IH2.
Qed.

Lemma slice_query_tagged (time : float) (var_long : string) (f : string) (ds : DataSet.t)
    (tr : list event) (part : DataFrame) :
  slice_query time var_long f ds = (tr, inr part) →
  ∃ sl,
    DataSet.time_slice ds time var_long = (tr, inr sl) ∧
    columns part
    = (if String.eqb var_long "FileName" then ["lat"; "lon"; "FileName"]
       else ["lat"; "lon"; var_long; "FileName"]) ∧
    map (cell (if String.eqb var_long "FileName" then 2 else 3)) (rows part)
    = repeat (Str f) (length (rows sl)) ∧
    map (λ r, (fst r, take (if String.eqb var_long "FileName" then 2 else 3) (snd r)))
        (rows part)
    = map (λ r, (fst r, take (if String.eqb var_long "FileName" then 2 else 3) (snd r)))
        (rows sl).
Proof.
  unfold slice_query. intros H. io_step H as sl Hsl. injection H as <- <-.
  rewrite app_nil_r in *. subst. exists sl. split; [done |].
  unfold DataSet.time_slice in Hsl.
  io_step Hsl as dfl Hdfl. io_step Hsl as times Htimes.
  apply set_scalar_tagged.
  - by eapply select_columns_inr.
  - exact (select_columns_width _ _ _ _ Hsl).
Qed.

Lemma fold_concat_columns (cols : list string) (parts : list DataFrame) (acc : DataFrame) :
  shaped cols acc → Forall (λ part, columns part = cols) parts →
  parts ≠ [] ∨ columns acc = cols →
  columns (fold_left concat parts acc) = cols.
Proof.
  intros Hacc Hparts. revert acc Hacc.
  induction Hparts as [| part parts Hpart _ IH]; intros acc Hacc Hsome; simpl.
  - by destruct Hsome.
  - apply IH.
    + apply concat_shaped; [done | by right].
    + right. destruct Hacc as [-> | Hacc]; [by rewrite concat_empty_l |].
      by rewrite concat_same_columns by congruence.
Qed.

(** X17. The table [time_slice_daily] returns carries, for each file of the
    list in turn, the rows of the slice of the file with the name of the
    file in the column FileName: the fourth column, after lat, lon and
    the variable, or the third, in the place of the values of the
    variable, when the variable itself is called FileName. The labels and
    the cells before that column are those of the slices. *)
Theorem time_slice_daily_file_names (fs : filesystem) (files : list string) (time : float)
    (var_long : string) (cache : bool) (d0 : gmap string DataSet.t) (res : DataFrame) :
  outcome (time_slice_daily fs files time var_long cache d0) = inr res →
  ∃ slices,
    Forall2 (λ f sl, ∃ ds tr, dataset_for fs d0 f ds ∧
                              DataSet.time_slice ds time var_long = (tr, inr sl))
      files slices ∧
    (files ≠ [] →
     columns res = if String.eqb var_long "FileName" then ["lat"; "lon"; "FileName"]
                   else ["lat"; "lon"; var_long; "FileName"]) ∧
    map (cell (if String.eqb var_long "FileName" then 2 else 3)) (rows res)
    = flat_map (λ p, repeat (Str (fst p)) (length (rows (snd p)))) (combine files slices) ∧
    map (λ r, (fst r, take (if String.eqb var_long "FileName" then 2 else 3) (snd r)))
        (rows res)
    = flat_map (λ sl, map (λ r, (fst r, take (if String.eqb var_long "FileName" then 2 else 3)
                                          (snd r))) (rows sl)) slices.
Proof.
  intros Hres. rewrite time_slice_daily_turns in Hres. unfold outcome in Hres.
  destruct (ld_fold _ _ _ _) as [d' [tr [e | out]]] eqn:Hloop; [discriminate |].
  simpl in Hres. injection Hres as ->.
  apply loop_parts in Hloop as (parts & Hparts & ->).
  set (cols := if String.eqb var_long "FileName" then ["lat"; "lon"; "FileName"]
               else ["lat"; "lon"; var_long; "FileName"]).
  set (pos := if String.eqb var_long "FileName" then 2 else 3).
  assert (Hslices : ∃ slices,
    Forall2 (λ f sl, ∃ ds tr, dataset_for fs d0 f ds ∧
                              DataSet.time_slice ds time var_long = (tr, inr sl))
      files slices ∧
    Forall (λ part, columns part = cols) parts ∧
    map (cell pos) (List.concat (map rows parts))
    = flat_map (λ p, repeat (Str (fst p)) (length (rows (snd p)))) (combine files slices) ∧
    map (λ r, (fst r, take pos (snd r))) (List.concat (map rows parts))
    = flat_map (λ sl, map (λ r, (fst r, take pos (snd r))) (rows sl)) slices).
  { unfold answers in Hparts. unfold pos, cols. clear pos cols.
    induction Hparts as [| f part files parts (ds & tr' & Hfor & Hq) _ IH].
    - exists []. split_and!; by constructor.
    - destruct IH as (slices & Hall & Hcols & Htags & Hcells).
      apply slice_query_tagged in Hq as (sl & Hsl & Hc & Ht & Hk).
      exists (sl :: slices). split_and!.
      + constructor; [by exists ds, tr' | done].
      + by constructor.
      + simpl. by rewrite map_app, Ht, Htags.
      + simpl. by rewrite map_app, Hk, Hcells. }
  destruct Hslices as (slices & Hall & Hcols & Htags & Hcells).
  destruct (fold_concat_rows cols parts empty_frame) as [_ Hrows].
  { by left. }
  { eapply Forall_impl; [exact Hcols |]. intros part Hpart. by right. }
  exists slices. rewrite Hrows. simpl. split_and!; try done.
  intros Hfiles. apply fold_concat_columns; [by left | done |].
  left. intros ->. apply Forall2_nil_inv_r in Hparts. done.
Qed.

(** The geomap of the file of two days at time 0. *)
Lemma time_slice_daily_file_names_day :
  ∃ slices,
    Forall2 (λ f sl, ∃ ds tr, dataset_for Example.disc ∅ f ds ∧
                              DataSet.time_slice ds 0 "total_precipitation" = (tr, inr sl))
      ["day.nc4"] slices ∧
    (["day.nc4"] ≠ [] →
     columns {| columns := ["lat"; "lon"; "total_precipitation"; "FileName"];
                rows := [(0, [Num 32.5; Num 35; Num 1; Str "day.nc4"]);
                         (1, [Num 32.5; Num 40; Num 2; Str "day.nc4"]);
                         (2, [Num 35; Num 35; Num 3; Str "day.nc4"]);
                         (3, [Num 35; Num 40; Num 4; Str "day.nc4"])] |}
     = if String.eqb "total_precipitation" "FileName" then ["lat"; "lon"; "FileName"]
       else ["lat"; "lon"; "total_precipitation"; "FileName"]) ∧
    map (cell (if String.eqb "total_precipitation" "FileName" then 2 else 3))
      (rows {| columns := ["lat"; "lon"; "total_precipitation"; "FileName"];
               rows := [(0, [Num 32.5; Num 35; Num 1; Str "day.nc4"]);
                        (1, [Num 32.5; Num 40; Num 2; Str "day.nc4"]);
                        (2, [Num 35; Num 35; Num 3; Str "day.nc4"]);
                        (3, [Num 35; Num 40; Num 4; Str "day.nc4"])] |})
    = flat_map (λ p, repeat (Str (fst p)) (length (rows (snd p))))
        (combine ["day.nc4"] slices) ∧
    map (λ r, (fst r, take (if String.eqb "total_precipitation" "FileName" then 2 else 3)
                        (snd r)))
      (rows {| columns := ["lat"; "lon"; "total_precipitation"; "FileName"];
               rows := [(0, [Num 32.5; Num 35; Num 1; Str "day.nc4"]);
                        (1, [Num 32.5; Num 40; Num 2; Str "day.nc4"]);
                        (2, [Num 35; Num 35; Num 3; Str "day.nc4"]);
                        (3, [Num 35; Num 40; Num 4; Str "day.nc4"])] |})
    = flat_map (λ sl, map (λ r, (fst r, take (if String.eqb "total_precipitation" "FileName"
                                               then 2 else 3) (snd r))) (rows sl)) slices.
Proof.
  apply (time_slice_daily_file_names Example.disc ["day.nc4"] 0%float "total_precipitation"
           true ∅).
  vm_compute. reflexivity.
Defined.

(** ** The result as an array *)

Lemma series_query_width (lat lon : float) (var_long : list string) (f : string)
    (ds : DataSet.t) (tr : list event) (part : DataFrame) :
  series_query lat lon var_long f ds = (tr, inr part) →
  List.Forall (λ r, length (snd r) = S (length var_long)) (rows part).
Proof.
  unfold series_query, DataSet.coord_timeseries.
  destruct (_ && _).
  - intros H. io_step H as dfl Hdfl. io_step H as lats Hlats. io_step H as lons Hlons.
    exact (select_columns_width _ _ _ _ H).
  - intros [= _ <-]. constructor.
Qed.

(** X18. Asking [time_series] for an array changes neither what the call does
    nor the cache it leaves nor whether it raises; the array holds the rows
    of the table, without labels and column names, each with one cell for
    the time and one for each variable asked for. *)
Theorem as_numpy_rows (fs : filesystem) (files : list string) (lat lon : float)
    (var_long : list string) (cache : bool) (d0 : gmap string DataSet.t) :
  final_cache (time_series fs files lat lon var_long cache true d0)
  = final_cache (time_series fs files lat lon var_long cache false d0) ∧
  trace (time_series fs files lat lon var_long cache true d0)
  = trace (time_series fs files lat lon var_long cache false d0) ∧
  (∀ e, outcome (time_series fs files lat lon var_long cache false d0) = inl e →
        outcome (time_series fs files lat lon var_long cache true d0) = inl e) ∧
  (∀ t, outcome (time_series fs files lat lon var_long cache false d0) = inr t →
        ∃ res, t = Frame res ∧
               outcome (time_series fs files lat lon var_long cache true d0)
               = inr (NdArray (map snd (rows res))) ∧
               Forall (λ row, length row = S (length var_long)) (map snd (rows res))).
Proof.
  destruct (time_series_parts fs files lat lon var_long cache true d0) as (Hc1 & Ht1 & Ho1).
  destruct (time_series_parts fs files lat lon var_long cache false d0) as (Hc0 & Ht0 & Ho0).
  rewrite Hc1, Hc0, Ht1, Ht0, Ho1, Ho0. clear Hc1 Hc0 Ht1 Ht0 Ho1 Ho0.
  destruct (ld_fold _ _ files d0) as [d' [tr [e | out]]] eqn:Hloop; simpl;
    (split_and!; [done | done | by intros ? [= <-] | intros t Ht]); [discriminate |].
  - injection Ht as <-. exists out. split_and!; [done | done |].
    apply loop_parts in Hloop as (parts & Hparts & ->).
    destruct (fold_concat_rows ("time" :: var_long) parts empty_frame) as [_ Hrows].
    { by left. }
    { apply List.Forall_forall. intros part Hin%list_elem_of_In.
      apply list_elem_of_lookup in Hin as [i Hi].
      destruct (Forall2_lookup_r _ _ _ _ _ Hparts Hi) as (f & _ & ds & tr' & _ & Hq).
      by eapply series_query_shaped. }
    rewrite Hrows. simpl. rewrite List.Forall_map.
    unfold answers in Hparts. clear Hrows.
    induction Hparts as [| f part files' parts (ds & tr' & _ & Hq) _ IH]; simpl;
      [constructor |].
    apply List.Forall_app. split; [| done]. by eapply series_query_width.
Qed.

(** The series of the file of two days as an array. *)
Lemma as_numpy_rows_day :
  ∃ res, Frame {| columns := ["time"; "total_precipitation"];
                  rows := [(0, [Num 0; Num 1]); (4, [Num 1; Num 5])] |} = Frame res ∧
         outcome (time_series Example.disc ["day.nc4"] 32.5 35 ["total_precipitation"]
                    true true ∅)
         = inr (NdArray (map snd (rows res))) ∧
         Forall (λ row, length row = S (length ["total_precipitation"])) (map snd (rows res)).
Proof.
  apply (as_numpy_rows Example.disc ["day.nc4"] 32.5 35 ["total_precipitation"] true ∅).
  vm_compute. reflexivity.
Defined.

End loader_extras.

(** ** The script *)

Section script_extras.
Import NetCDF Pandas DataLoader LoaderSpec ProcessData.

Lemma drop_time_column (df : DataFrame) :
  columns df = "time" :: vars_interest_list →
  List.Forall (λ r, length (snd r) = S (length vars_interest_list)) (rows df) →
  correlated_columns df
  = ([], inr {| columns := vars_interest_list;
                rows := map (λ r, (fst r, tl (snd r))) (rows df) |}).
Proof.
  intros Hcols Hwidth. unfold correlated_columns.
  rewrite (select_columns_spec df vars_interest_list [1; 2; 3; 4; 5; 6; 7; 8]).
  - unfold mret, io_mret, io_ret. do 3 f_equal.
    induction Hwidth as [| [i cells] rs Hlen _ IH]; simpl; [done |].
    rewrite IH. do 2 f_equal. simpl in Hlen.
    do 10 (destruct cells as [| ? cells]; try discriminate). done.
  - rewrite Hcols. unfold vars_interest_list. repeat constructor.
Qed.

(** X19. The call of the script opens its one file once and no other. When
    the constructor fails on the file, the call raises the KeyError of the
    file name and the cache stays empty. Otherwise the dataset of the file
    is the one entry of the cache, and the call returns what
    [coord_timeseries] returns for the point (32.5, 35) and the eight
    variables. A table the call returns is empty, when the point is not on
    the grid of the file, and then selecting the eight columns raises a
    KeyError; or it has the time and the eight variables as columns, and
    the selection drops the time. *)
Theorem script_series (fs : filesystem) :
  (opens "MERRA2_400.tavg1_2d_flx_Nx.20220430.nc4" (trace (df_time_day fs)) = 1 ∧
   ∀ g, g ≠ "MERRA2_400.tavg1_2d_flx_Nx.20220430.nc4" →
        opens g (trace (df_time_day fs)) = 0) ∧
  (∀ tr0 e,
     DataSet.__init__ fs "MERRA2_400.tavg1_2d_flx_Nx.20220430.nc4" = (tr0, inl e) →
     df_time_day fs
     = (∅, (tr0 ++ [EvPrint "Dataset was not opened"],
            inl (KeyError "MERRA2_400.tavg1_2d_flx_Nx.20220430.nc4")))) ∧
  (∀ tr0 ds,
     DataSet.__init__ fs "MERRA2_400.tavg1_2d_flx_Nx.20220430.nc4" = (tr0, inr ds) →
     final_cache (df_time_day fs)
     = {[ "MERRA2_400.tavg1_2d_flx_Nx.20220430.nc4" := ds ]} ∧
     trace (df_time_day fs)
     = tr0 ++ fst (DataSet.coord_timeseries ds 32.5 35 vars_interest_list) ∧
     outcome (df_time_day fs)
     = match snd (DataSet.coord_timeseries ds 32.5 35 vars_interest_list) with
       | inl e => inl e
       | inr df => inr (Frame df)
       end) ∧
  (∀ t, outcome (df_time_day fs) = inr t →
     ∃ df, t = Frame df ∧
       ((df = empty_frame ∧ ∃ k, correlated_columns df = ([], inl (KeyError k))) ∨
        (columns df = "time" :: vars_interest_list ∧
         correlated_columns df
         = ([], inr {| columns := vars_interest_list;
                       rows := map (λ r, (fst r, tl (snd r))) (rows df) |})))).
Proof.
  set (file := "MERRA2_400.tavg1_2d_flx_Nx.20220430.nc4").
  assert (Hcall : df_time_day fs
    = match DataSet.__init__ fs file with
      | (tr0, inl _) => (∅, (tr0 ++ [EvPrint "Dataset was not opened"], inl (KeyError file)))
      | (tr0, inr ds) =>
          match DataSet.coord_timeseries ds 32.5 35 vars_interest_list with
          | (trq, inl e) => ({[ file := ds ]}, (tr0 ++ trq, inl e))
          | (trq, inr df) => ({[ file := ds ]}, (tr0 ++ trq, inr (Frame df)))
          end
      end).
  { unfold df_time_day, files_list_1. rewrite time_series_turns, ld_fold_cons.
    unfold turn at 1, answer, DataLoader.__init__. rewrite lookup_empty. fold file.
    destruct (DataSet.__init__ fs file) as [tr0 [e | ds]]; [done |].
    unfold series_query. rewrite insert_empty.
    destruct (DataSet.coord_timeseries ds 32.5 35 vars_interest_list) as [trq [e | df]];
      [done |].
    simpl. unfold mret, loader_mret, ld_ret. simpl.
    by rewrite concat_empty_l, app_nil_r. }
  split_and!.
  - rewrite Hcall. pose proof (init_opens fs file file) as Hopen.
    rewrite String.eqb_refl in Hopen.
    destruct (DataSet.__init__ fs file) as [tr0 [e | ds]]; simpl in Hopen.
    + unfold trace. simpl. by rewrite opens_app, Hopen.
    + pose proof (quiet_coord_timeseries ds 32.5 35 vars_interest_list file) as Hq.
      destruct (DataSet.coord_timeseries ds 32.5 35 vars_interest_list) as [trq [e | df]];
        unfold trace; simpl in *; by rewrite opens_app, Hopen, Hq.
  - intros g Hg. rewrite Hcall. pose proof (init_opens fs file g) as Hopen.
    rewrite (proj2 (String.eqb_neq file g)) in Hopen by done.
    destruct (DataSet.__init__ fs file) as [tr0 [e | ds]]; simpl in Hopen.
    + unfold trace. simpl. by rewrite opens_app, Hopen.
    + pose proof (quiet_coord_timeseries ds 32.5 35 vars_interest_list g) as Hq.
      destruct (DataSet.coord_timeseries ds 32.5 35 vars_interest_list) as [trq [e | df]];
        unfold trace; simpl in *; by rewrite opens_app, Hopen, Hq.
  - intros tr0 e Hinit. by rewrite Hcall, Hinit.
  - intros tr0 ds Hinit. rewrite Hcall, Hinit.
    by destruct (DataSet.coord_timeseries ds 32.5 35 vars_interest_list) as [trq [e | df]].
  - intros t Ht. rewrite Hcall in Ht.
    destruct (DataSet.__init__ fs file) as [tr0 [e | ds]]; [discriminate |].
    destruct (DataSet.coord_timeseries ds 32.5 35 vars_interest_list) as [trq [e | df]] eqn:Hq;
      [discriminate |].
    injection Ht as <-. exists df. split; [done |].
    destruct (series_query_shaped _ _ _ file _ _ _ Hq) as [-> | Hcols].
    + left. split; [done |]. by eexists.
    + right. split; [done |]. apply drop_time_column; [done |].
      exact (series_query_width _ _ _ file _ _ _ Hq).
Qed.

(** The script on a disc with its file. *)
Lemma script_series_flux_file :
  ∃ df, Frame {| columns := "time" :: vars_interest_list;
                 rows := [(0, [Num 30; Num 1; Num 2; Num 3; Num 4; Num 5; Num 6; Num 7;
                               Num 8])] |}
        = Frame df ∧
    ((df = empty_frame ∧ ∃ k, correlated_columns df = ([], inl (KeyError k))) ∨
     (columns df = "time" :: vars_interest_list ∧
      correlated_columns df
      = ([], inr {| columns := vars_interest_list;
                    rows := map (λ r, (fst r, tl (snd r))) (rows df) |}))).
Proof.
  apply (script_series ScriptExample.disc). vm_compute. reflexivity.
Defined.

End script_extras.

(** * The outcomes of the constructor and of a slice *)

(** ** The constructor that raises *)

Section dataset_outcomes.
Import Numpy NetCDF Pandas Spec.

Lemma io_bind_inl {A B} (m : io A) (k : A → io B) (tr : list event) (e : exn) :
  (m ≫= k) = (tr, inl e) →
  m = (tr, inl e) ∨
  ∃ tr1 a tr2, m = (tr1, inr a) ∧ k a = (tr2, inl e) ∧ tr = tr1 ++ tr2.
Proof.
  unfold mbind, io_mbind, io_bind. destruct m as [tr1 [e1 | a]].
  - intros [= <- <-]. by left.
  - destruct (k a) as [tr2 r] eqn:Hk. intros [= <- ->]. right. by exists tr1, a, tr2.
Qed.

Lemma silent_bind {A B} (m : io A) (k : A → io B) :
  fst m = [] → (∀ a, fst (k a) = []) → fst (m ≫= k) = [].
Proof.
  unfold mbind, io_mbind, io_bind. destruct m as [tr [e | a]]; simpl; [done |].
  intros -> Hk. specialize (Hk a). by destruct (k a) as [tr' r].
Qed.

Lemma silent_fold {A B} (body : B → A → io B) (acc : B) (l : list A) :
  (∀ acc x, fst (body acc x) = []) → fst (io_fold body acc l) = [].
Proof.
  intros Hbody. revert acc. induction l as [| x l IH]; intros acc; simpl; [done |].
  by apply silent_bind.
Qed.

Lemma silent_getitem (nc : Dataset) (name : string) : fst (getitem nc name) = [].
Proof. unfold getitem. by destruct (List.find _ _). Qed.

Lemma silent_iter_1d (a : ndarray) : fst (iter_1d a) = [].
Proof. destruct a as [x | items]; simpl; [done |]. by destruct (mapM _ _). Qed.

Lemma silent_var_dict (vars : list Variable_) (d0 : pydict string) :
  fst (io_fold (λ d var, long ← get_long_name var; mret (dict_set long (var_name var) d))
         d0 vars) = [].
Proof.
  apply silent_fold. intros d v. apply silent_bind; [| done].
  unfold get_long_name. by destruct (long_name v).
Qed.

Lemma silent_convert (var_dict : pydict string) (nc : Dataset) :
  fst (DataSet._convert2dataframe var_dict nc) = [].
Proof.
  unfold DataSet._convert2dataframe.
  repeat (apply silent_bind; [by (apply silent_getitem || apply silent_iter_1d) | intros ?]).
  apply silent_bind.
  - apply silent_fold. intros frame k. destruct (str_in _ _); [done |].
    destruct (dict_get k var_dict) as [short |]; [| done].
    apply silent_bind; [apply silent_getitem | intros v].
    apply silent_bind; [| done]. unfold new_series. by destruct (_ =? _)%nat.
  - intros frame. unfold reset_index. by repeat destruct (str_in _ _).
Qed.

(** X8. A constructor that raises on a file that can be opened has opened it
    and has done nothing else that shows: the file is not closed, for
    [ds.close()] comes after the table is built and nothing after it
    raises, and nothing is printed. It raises because a variable of the
    file has no long name, an AttributeError, or it raises what
    [_convert2dataframe] raises on the file. *)
Theorem constructor_leaves_file_open (fs : filesystem) (filename : string) (nc : Dataset)
    (tr : list event) (e : exn) :
  fs filename = Some nc →
  DataSet.__init__ fs filename = (tr, inl e) →
  tr = [EvOpen filename] ∧
  (((∃ v, v ∈ variables nc ∧ long_name v = None) ∧ e = AttributeError "long_name") ∨
   (∃ tr' var_dict,
      io_fold (λ d var, long ← get_long_name var; mret (dict_set long (var_name var) d))
        [] (variables nc) = (tr', inr var_dict) ∧
      DataSet._convert2dataframe var_dict nc = ([], inl e))).
Proof.
  intros Hfs H. unfold DataSet.__init__ in H.
  apply io_bind_inl in H as [Hopen | (tr1 & nc' & tr2 & Hopen & H & ->)].
  { unfold DataSet.open_dataset in Hopen. rewrite Hfs in Hopen. discriminate. }
  unfold DataSet.open_dataset in Hopen. rewrite Hfs in Hopen. injection Hopen as <- <-.
  assert (Hvars_fail : ∀ vars d0 tr0 e0,
    io_fold (λ d var, long ← get_long_name var; mret (dict_set long (var_name var) d))
      d0 vars = (tr0, inl e0) →
    (∃ v, v ∈ vars ∧ long_name v = None) ∧ e0 = AttributeError "long_name").
  { induction vars as [| v vars IH]; intros d0 tr0 e0; simpl; [discriminate |].
    intros Hf. apply io_bind_inl in Hf as [Hv | (tr3 & d1 & tr4 & Hv & Hf & _)].
    - unfold get_long_name in Hv. destruct (long_name v) eqn:Hlong; [discriminate |].
      injection Hv as _ <-. split; [| done]. exists v. split; [by left | done].
    - destruct (IH _ _ _ Hf) as ((w & Hw & Hnone) & ->). split; [| done].
      exists w. split; [by right | done]. }
  apply io_bind_inl in H as [Hvars | (tr3 & var_dict & tr4 & Hvars & H & ->)].
  { pose proof (silent_var_dict (variables nc) []) as Hsilent.
    rewrite Hvars in Hsilent. simpl in Hsilent. subst tr2.
    split; [done |]. left. by eapply Hvars_fail. }
  pose proof (var_dict_loop _ _ _ _ Hvars) as (-> & Hnd & _ & _).
  specialize (Hnd (NoDup_nil_2)).
  apply io_bind_inl in H as [Hconv | (tr5 & dfl & tr6 & Hconv & H & ->)].
  { pose proof (silent_convert var_dict nc) as Hsilent.
    rewrite Hconv in Hsilent. simpl in Hsilent. subst tr4.
    split; [done |]. right. by exists [], var_dict. }
  exfalso.
  apply convert_inr in Hconv as (times & lats & lons & -> & _ & _ & _ & -> & _); [| done].
  apply io_bind_inl in H as [Hclose | (tr7 & u & tr8 & Hclose & H & ->)]; [discriminate |].
  unfold DataSet._create_coords in H.
  rewrite (coords_in_range_spec _ "lat" 1) in H by (reflexivity || apply flat_table_NoDup).
  rewrite io_bind_ret in H.
  rewrite (coords_in_range_spec _ "lon" 2) in H by (reflexivity || apply flat_table_NoDup).
  rewrite !io_bind_ret in H. discriminate.
Qed.

(** The file without variables is left open. *)
Lemma constructor_leaves_file_open_empty :
  [EvOpen "empty.nc4"] = [EvOpen "empty.nc4"] ∧
  (((∃ v, v ∈ variables Example.empty_file ∧ long_name v = None) ∧
    IndexError "lon not found in /" = AttributeError "long_name") ∨
   (∃ tr' var_dict,
      io_fold (λ d var, long ← get_long_name var; mret (dict_set long (var_name var) d))
        [] (variables Example.empty_file) = (tr', inr var_dict) ∧
      DataSet._convert2dataframe var_dict Example.empty_file
      = ([], inl (IndexError "lon not found in /")))).
Proof.
  apply (constructor_leaves_file_open Example.disc "empty.nc4" Example.empty_file);
    reflexivity.
Defined.

(** ** The constructor that returns *)

Lemma var_dict_returns (vars : list Variable_) (d0 : pydict string) :
  Forall (λ v, is_Some (long_name v)) vars →
  io_fold (λ d var, long ← get_long_name var; mret (dict_set long (var_name var) d))
    d0 vars
  = ([], inr (fold_left (λ d v, dict_set (default "" (long_name v)) (var_name v) d)
                vars d0)).
Proof.
  intros Hall. revert d0. induction Hall as [| v vars [l Hl] _ IH]; intros d0; simpl.
  - done.
  - unfold get_long_name. rewrite Hl, !io_bind_ret. simpl. apply IH.
Qed.

Lemma axis_read (nc : Dataset) (name : string) (xs : list float) :
  axis nc name = Some xs →
  ∃ v, getitem nc name = mret v ∧ iter_1d (data v) = mret xs.
Proof.
  unfold axis, getitem. destruct (List.find _ _) as [v |]; [| discriminate].
  intros Hdata. exists v. split; [done |].
  destruct (data v) as [x | items]; [discriminate |]. simpl. by rewrite Hdata.
Qed.

Lemma columns_loop_returns (nc : Dataset) (var_dict : pydict string)
    (index : list (float * float * float)) (ks : list string) (frame0 : IndexedFrame) :
  (∀ k, k ∈ ks → k ∉ DataSet.axis_long_names →
     ∃ short v, dict_get k var_dict = Some short ∧
                List.find (λ v, String.eqb (var_name v) short) (variables nc) = Some v ∧
                length (flatten (data v)) = length index) →
  ∃ frame,
    io_fold (λ frame k,
      if str_in k DataSet.axis_long_names then mret frame
      else
        match dict_get k var_dict with
        | None => raise (KeyError k)
        | Some short =>
            v ← getitem nc short;
            s ← new_series (flatten (data v)) index;
            mret (set_series frame k s)
        end) frame0 ks = ([], inr frame).
Proof.
  revert frame0. induction ks as [| k ks IH]; intros frame0 Hks; simpl.
  - by exists frame0.
  - assert (Hrest : ∀ k', k' ∈ ks → k' ∉ DataSet.axis_long_names →
      ∃ short v, dict_get k' var_dict = Some short ∧
                 List.find (λ v, String.eqb (var_name v) short) (variables nc) = Some v ∧
                 length (flatten (data v)) = length index).
    { intros k' Hk'. apply Hks, elem_of_cons. by right. }
    destruct (str_in k DataSet.axis_long_names) eqn:Hax.
    + rewrite io_bind_ret. by apply IH.
    + destruct (Hks k) as (short & v & Hget & Hfind & Hlen);
        [apply elem_of_cons; by left | by apply str_in_false |].
      rewrite Hget. unfold getitem. rewrite Hfind, io_bind_ret.
      unfold new_series. rewrite Hlen, Nat.eqb_refl, !io_bind_ret. by apply IH.
Qed.

(** X9. The constructor returns on a file that can be opened, whose variables
    have different names and each a long name, with one-dimensional
    variables time, lat and lon, and in which every variable that is not an
    axis by its long name has as many values as the grid of the three axes
    has points and is not called lat or lon by its long name. It then has
    opened and closed the file, and the dataset is the one of the whole
    grid. *)
Theorem constructor_returns (fs : filesystem) (filename : string) (nc : Dataset)
    (times lats lons : list float) :
  fs filename = Some nc →
  NoDup (map var_name (variables nc)) →
  Forall (λ v, is_Some (long_name v)) (variables nc) →
  axis nc "time" = Some times → axis nc "lat" = Some lats → axis nc "lon" = Some lons →
  (∀ v l, v ∈ variables nc → long_name v = Some l → l ∉ DataSet.axis_long_names →
     l ≠ "lat" ∧ l ≠ "lon" ∧
     length (flatten (data v)) = length times * (length lats * length lons)) →
  ∃ self,
    DataSet.__init__ fs filename = ([EvOpen filename; EvClose filename], inr self) ∧
    built_from nc times lats lons self.
Proof.
  intros Hfs Hnames Hlong Htime Hlat Hlon Hdata.
  set (var_dict := fold_left (λ d v, dict_set (default "" (long_name v)) (var_name v) d)
                     (variables nc) []).
  assert (Hnd : NoDup (dict_keys var_dict)) by (apply fold_dict_NoDup; constructor).
  assert (Hkey : ∀ k, k ∈ data_keys var_dict →
    ∃ v, v ∈ variables nc ∧ long_name v = Some k ∧ (k ∉ DataSet.axis_long_names) ∧
         dict_get k var_dict = Some (var_name v)).
  { intros k [Hk Hax]%data_keys_spec.
    destruct (var_dict_key _ _ Hlong Hk) as (v & Hin & Hl & Hget). by exists v. }
  assert (Hconv : ∃ dfl, DataSet._convert2dataframe var_dict nc = ([], inr dfl)).
  { unfold DataSet._convert2dataframe.
    destruct (axis_read _ _ _ Hlon) as (lon_var & -> & Hlons).
    destruct (axis_read _ _ _ Hlat) as (lat_var & -> & Hlats).
    destruct (axis_read _ _ _ Htime) as (time_var & -> & Htimes).
    rewrite !io_bind_ret, Htimes, io_bind_ret, Hlats, io_bind_ret, Hlons, io_bind_ret.
    destruct (columns_loop_returns nc var_dict (from_product times lats lons)
                (dict_keys var_dict)
                {| multi_index := from_product times lats lons; value_columns := [] |})
      as [frame Hframe].
    { intros k Hk Hax. destruct (Hkey k) as (v & Hin & Hl & _ & Hget).
      { by apply data_keys_spec. }
      exists (var_name v), v. split_and!; [done | by apply find_by_name |].
      rewrite from_product_length. by apply (Hdata v k). }
    rewrite Hframe.
    apply columns_loop in Hframe as (_ & Hmi & Hcols & _). simpl in *.
    fold (data_keys var_dict) in Hcols.
    rewrite fold_dict_set_fresh in Hcols;
      [| by apply data_keys_NoDup | by intros k _ ?%elem_of_nil].
    simpl in Hcols. destruct frame as [mi cols]. simpl in *. subst mi cols.
    fold (grid_columns nc var_dict). rewrite reset_index_flat.
    - by eexists.
    - rewrite grid_columns_keys. intros (v & Hin & Hl & Hax & _)%Hkey.
      by destruct (Hdata v "lon" Hin Hl Hax) as (_ & ? & _).
    - rewrite grid_columns_keys. intros (v & Hin & Hl & Hax & _)%Hkey.
      by destruct (Hdata v "lat" Hin Hl Hax) as (? & _).
    - rewrite grid_columns_keys. intros [_ Hax]%data_keys_spec.
      apply Hax. by apply str_in_spec. }
  destruct Hconv as [dfl Hconv].
  pose proof (convert_inr _ _ _ _ Hnd Hconv)
    as (times' & lats' & lons' & _ & ? & ? & ? & Hdfl & _).
  assert (Hinit : ∃ self,
    DataSet.__init__ fs filename = ([EvOpen filename; EvClose filename], inr self)).
  { unfold DataSet.__init__, DataSet.open_dataset. rewrite Hfs.
    change (emit (EvOpen filename) ≫= (λ _ : (), mret nc))
      with (([EvOpen filename], inr nc) : io Dataset).
    rewrite io_bind_run. rewrite var_dict_returns by done. fold var_dict.
    rewrite (io_bind_run _ []). cbv beta. rewrite Hconv.
    rewrite (io_bind_run _ []). cbv beta. unfold emit.
    rewrite (io_bind_run _ [EvClose filename]). cbv beta.
    unfold DataSet._create_coords. rewrite Hdfl.
    rewrite (coords_in_range_spec _ "lat" 1) by (reflexivity || apply flat_table_NoDup).
    rewrite io_bind_ret.
    rewrite (coords_in_range_spec _ "lon" 2) by (reflexivity || apply flat_table_NoDup).
    rewrite !io_bind_ret. simpl. by eexists. }
  destruct Hinit as [self Hinit]. exists self. split; [done |].
  destruct (init_inr _ _ _ _ Hinit) as (nc' & times'' & lats'' & lons'' & Hfs' & _ & Hbuilt).
  assert (nc' = nc) as -> by congruence.
  destruct Hbuilt as [Ht Hla Hlo ? ? ? ? ? ? ? ?].
  assert (times'' = times) as -> by congruence.
  assert (lats'' = lats) as -> by congruence.
  assert (lons'' = lons) as -> by congruence.
  by constructor.
Qed.

(** The file of two days meets the conditions. *)
Lemma constructor_returns_day :
  ∃ self,
    DataSet.__init__ Example.disc "day.nc4"
    = ([EvOpen "day.nc4"; EvClose "day.nc4"], inr self) ∧
    built_from Example.day_file [0; 1]%float [32.5; 35]%float [35; 40]%float self.
Proof.
  apply (constructor_returns Example.disc "day.nc4" Example.day_file).
  - reflexivity.
  - apply (bool_decide_unpack _). vm_compute. reflexivity.
  - repeat constructor; by eexists.
  - reflexivity.
  - reflexivity.
  - reflexivity.
  - intros v l Hin Hl Hax. simpl in Hin.
    repeat (apply elem_of_cons in Hin as [-> | Hin]); simpl in Hl;
      try (injection Hl as <-; exfalso; apply Hax; by apply str_in_spec).
    + injection Hl as <-. split_and!; [done | done | reflexivity].
    + by apply elem_of_nil in Hin.
Defined.

(** ** The variable of a slice *)

(** X7. For a dataset read from a file, [time_slice] prints nothing, and the
    variable alone decides whether it raises, at every time, a time stamp
    of the file or not: for a name that is a column of the table it
    returns a table with the columns lat, lon and the name; for another
    name it raises the KeyError of that name. *)
Theorem time_slice_raises_iff_unknown
    (fs : filesystem) (filename : string) (tr : list event) (self : DataSet.t)
    (time : float) (var_long : string) :
  DataSet.__init__ fs filename = (tr, inr self) →
  ∃ dfl,
    DataSet.df self = Some dfl ∧
    (var_long ∈ columns dfl →
     ∃ res, DataSet.time_slice self time var_long = ([], inr res) ∧
            columns res = ["lat"; "lon"; var_long]) ∧
    (var_long ∉ columns dfl →
     DataSet.time_slice self time var_long = ([], inl (KeyError var_long))).
Proof.
  intros Hinit.
  pose proof Hinit as (nc & times & lats & lons & Hfs & -> & Hb)%init_inr.
  pose proof (built_columns nc times lats lons self) as Hcols.
  exists (flat_table times lats lons (grid_columns nc (DataSet._var_dict self))).
  split_and!.
  - by destruct Hb.
  - intros (pos & Hpos & _)%column_pos_Some.
    rewrite (time_slice_table self
               (flat_table times lats lons (grid_columns nc (DataSet._var_dict self)))
               time var_long 0 [1; 2; pos]);
      [by eexists | by destruct Hb | apply flat_table_NoDup | by rewrite Hcols |].
    rewrite Hcols in *. by repeat constructor.
  - rewrite Hcols. intros Hout.
    by eapply time_slice_unknown_variable.
Qed.

(** The file of two days has no variable pressure. *)
Lemma time_slice_raises_iff_unknown_day :
  ∃ dfl,
    DataSet.df Example.day = Some dfl ∧
    ("pressure" ∈ columns dfl →
     ∃ res, DataSet.time_slice Example.day 7 "pressure" = ([], inr res) ∧
            columns res = ["lat"; "lon"; "pressure"]) ∧
    ("pressure" ∉ columns dfl →
     DataSet.time_slice Example.day 7 "pressure" = ([], inl (KeyError "pressure"))).
Proof.
  apply (time_slice_raises_iff_unknown Example.disc "day.nc4"
           [EvOpen "day.nc4"; EvClose "day.nc4"]).
  vm_compute. reflexivity.
Defined.

(** ** The grid of a slice *)

Lemma product_grid (time : float) (times lats lons : list float) :
  map (λ '(t, la, lo), (la, lo))
    (List.filter (λ '(t, la, lo), PrimFloat.eqb t time) (from_product times lats lons))
  = flat_map (λ t, if PrimFloat.eqb t time
                   then flat_map (λ la, map (λ lo, (la, lo)) lons) lats
                   else []) times.
Proof.
  unfold from_product.
  induction times as [| t times IH]; simpl; [done |].
  rewrite List.filter_app, map_app, IH. f_equal. clear IH.
  induction lats as [| la lats IH]; simpl; [by destruct (PrimFloat.eqb t time) |].
  rewrite List.filter_app, map_app, IH, filter_map_comm, map_map.
  destruct (PrimFloat.eqb t time); simpl.
  - by rewrite filter_all by done.
  - by rewrite filter_false.
Qed.

Lemma hits_grid (time : float) (times lats lons : list float) :
  map (λ p, ((coords_at times lats lons p).1.2, (coords_at times lats lons p).2))
    (List.filter (λ p, PrimFloat.eqb (coords_at times lats lons p).1.1 time)
       (seq 0 (length times * (length lats * length lons))))
  = flat_map (λ t, if PrimFloat.eqb t time
                   then flat_map (λ la, map (λ lo, (la, lo)) lons) lats
                   else []) times.
Proof.
  rewrite <- product_grid.
  rewrite <- (seq_nth_id (from_product times lats lons) (nan, nan, nan)) at 1.
  rewrite filter_map_comm, map_map, from_product_length.
  assert (Hat : ∀ p, In p (seq 0 (length times * (length lats * length lons))) →
            nth p (from_product times lats lons) (nan, nan, nan)
            = coords_at times lats lons p).
  { intros p [_ Hp]%in_seq. by rewrite from_product_nth by lia. }
  erewrite filter_ext_in.
  - apply map_ext_in. intros p [Hp _]%filter_In. rewrite (Hat p Hp).
    by destruct (coords_at times lats lons p) as [[t la] lo].
  - intros p Hp. cbv beta. rewrite (Hat p Hp).
    by destruct (coords_at times lats lons p) as [[t la] lo].
Qed.

Lemma matching_stamps {A} (time : float) (times : list float) (grid : list A) :
  length (flat_map (λ t, if PrimFloat.eqb t time then grid else []) times)
  = occurrences time times * length grid ∧
  (occurrences time times = 1 →
   flat_map (λ t, if PrimFloat.eqb t time then grid else []) times = grid).
Proof.
  unfold occurrences. induction times as [| t times [IHlen IHone]]; simpl; [done |].
  rewrite length_app, IHlen. destruct (PrimFloat.eqb t time); simpl; split; try done.
  intros [= Hnone]. rewrite Hnone in IHlen. simpl in IHlen.
  apply length_zero_iff_nil in IHlen. by rewrite IHlen, app_nil_r.
Qed.

(** X20. For a variable that has a column, the slice of [time_slice] lists,
    for every stamp of the time axis that equals the time asked for, the
    whole grid: every latitude of the axis in order and, for each, every
    longitude in order. The time asked for is compared as a number of the
    dtype of the time variable of the file. So the slice has as many rows
    as that number occurs on the axis times the number of grid points, and
    is one map of the grid when it occurs once. *)
Theorem time_slice_geomap
    (fs : filesystem) (filename : string) (tr : list event) (self : DataSet.t)
    (time : float) (var_long : string) :
  DataSet.__init__ fs filename = (tr, inr self) →
  var_long ∈ data_keys (DataSet._var_dict self) →
  ∃ nc time_var times lats lons res,
    fs filename = Some nc ∧
    List.find (λ v, String.eqb (var_name v) "time") (variables nc) = Some time_var ∧
    axis nc "time" = Some times ∧ axis nc "lat" = Some lats ∧
    axis nc "lon" = Some lons ∧
    DataSet.time_slice self time var_long = ([], inr res) ∧
    map (λ r, (cell 0 r, cell 1 r)) (rows res)
    = flat_map (λ t, if PrimFloat.eqb t (as_dtype (var_dtype time_var) time)
                     then flat_map (λ la, map (λ lo, (Num la, Num lo)) lons) lats
                     else []) times ∧
    length (rows res)
    = occurrences (as_dtype (var_dtype time_var) time) times
      * (length lats * length lons) ∧
    (occurrences (as_dtype (var_dtype time_var) time) times = 1 →
     map (λ r, (cell 0 r, cell 1 r)) (rows res)
     = flat_map (λ la, map (λ lo, (Num la, Num lo)) lons) lats).
Proof.
  intros (nc & times & lats & lons & Hfs & -> & Hb)%init_inr Hvar.
  pose proof (built_time_slice nc times lats lons self Hb time var_long Hvar) as Hquery.
  assert (Htime : ∃ time_var,
    List.find (λ v, String.eqb (var_name v) "time") (variables nc) = Some time_var ∧
    DataSet.time_dtype self = var_dtype time_var).
  { destruct Hb as [Ht _ _ _ _ _ _ Hdt]. unfold axis in Ht. rewrite Hdt.
    unfold DataSet.index_time_dtype.
    destruct (List.find _ (variables nc)) as [time_var |]; [| discriminate].
    by exists time_var. }
  destruct Htime as (time_var & Hfind & Hdt). rewrite Hdt in Hquery.
  set (stamp := as_dtype (var_dtype time_var) time) in *.
  destruct Hb as [Ht Hla Hlo].
  assert (Hcells :
    map (λ r, (cell 0 r, cell 1 r))
      (map (λ p, let '(t, la, lo) := coords_at times lats lons p in
                 (p, [Num la; Num lo;
                      Num (nth p (grid_values nc (DataSet._var_dict self) var_long) nan)]))
         (List.filter (λ p, PrimFloat.eqb (coords_at times lats lons p).1.1 stamp)
            (seq 0 (length times * (length lats * length lons)))))
    = flat_map (λ t, if PrimFloat.eqb t stamp
                     then flat_map (λ la, map (λ lo, (Num la, Num lo)) lons) lats
                     else []) times).
  { rewrite map_map.
    erewrite map_ext; [| intros p; destruct (coords_at times lats lons p) as [[t la] lo] eqn:Hp;
                         unfold cell; simpl;
                         change (Num la, Num lo)
                           with ((λ q : float * float, (Num q.1, Num q.2))
                                   ((t, la, lo).1.2, (t, la, lo).2));
                         rewrite <- Hp; reflexivity].
    rewrite <- (map_map (λ p, ((coords_at times lats lons p).1.2,
                               (coords_at times lats lons p).2))
                  (λ q : float * float, (Num q.1, Num q.2))).
    rewrite hits_grid. clear.
    induction times as [| t times IH]; simpl; [done |].
    rewrite map_app, IH. f_equal. destruct (PrimFloat.eqb t stamp); [| done].
    clear. induction lats as [| la lats IH]; simpl; [done |].
    by rewrite map_app, IH, map_map. }
  destruct (matching_stamps stamp times
              (flat_map (λ la, map (λ lo, (Num la, Num lo)) lons) lats)) as [Hlen Hone].
  eexists nc, time_var, times, lats, lons, _. split_and!; try done; cbn [rows].
  - rewrite <- (length_map (λ r, (cell 0 r, cell 1 r))), Hcells, Hlen. f_equal.
    rewrite (length_flat_map_uniform _ _ (length lons)); [done |].
    intros la _. apply length_map.
  - intros Hocc. by rewrite Hcells, Hone.
Qed.

(** The slice of the file of two days at time 1 is one map of its four
    grid points; so is, on the one grid point of the file with the float32
    time axis, the slice at the Python float 0.1. *)
Lemma time_slice_geomap_day :
  (∃ res,
     DataSet.time_slice Example.day 1 "total_precipitation" = ([], inr res) ∧
     map (λ r, (cell 0 r, cell 1 r)) (rows res)
     = [(Num 32.5, Num 35); (Num 32.5, Num 40); (Num 35, Num 35); (Num 35, Num 40)]) ∧
  (∃ res,
     DataSet.time_slice Example.float32_time 0x1.999999999999ap-4 "total_precipitation"
     = ([], inr res) ∧
     map (λ r, (cell 0 r, cell 1 r)) (rows res) = [(Num 32.5, Num 35)]).
Proof.
  split.
  - destruct (time_slice_geomap Example.disc "day.nc4" _ Example.day 1%float
                "total_precipitation" load_day)
      as (nc & time_var & times & lats & lons & res & Hfs & Hfind & Ht & Hla & Hlo & Hq
          & _ & _ & Hone).
    + apply list_elem_of_In. vm_compute. by left.
    + injection Hfs as <-. injection Hfind as <-.
      injection Ht as <-. injection Hla as <-. injection Hlo as <-.
      exists res. split; [exact Hq |]. apply Hone. vm_compute. reflexivity.
  - destruct (time_slice_geomap Example.more_disc "float32.nc4" _ Example.float32_time
                0x1.999999999999ap-4%float "total_precipitation" load_float32_time)
      as (nc & time_var & times & lats & lons & res & Hfs & Hfind & Ht & Hla & Hlo & Hq
          & _ & _ & Hone).
    + apply list_elem_of_In. vm_compute. by left.
    + injection Hfs as <-. injection Hfind as <-.
      injection Ht as <-. injection Hla as <-. injection Hlo as <-.
      exists res. split; [exact Hq |]. apply Hone. vm_compute. reflexivity.
Defined.

End dataset_outcomes.

(** ** The cache and the result *)

Section cache_extras.
Import NetCDF Pandas DataLoader LoaderSpec.

Lemma turn_of_disc (fs : filesystem) (query : string → DataSet.t → io DataFrame)
    (cache : bool) (acc : DataFrame) (f : string) (d : gmap string DataSet.t) :
  (∀ g ds, d !! g = Some ds → ∃ tr, DataSet.__init__ fs g = (tr, inr ds)) →
  (∀ g ds, fst (turn fs query cache acc f d) !! g = Some ds →
           ∃ tr, DataSet.__init__ fs g = (tr, inr ds)) ∧
  snd (snd (turn fs query cache acc f d))
  = match snd (DataSet.__init__ fs f) with
    | inl _ => inl (KeyError f)
    | inr ds =>
        match snd (query f ds) with
        | inl e => inl e
        | inr part => inr (concat acc part)
        end
    end.
Proof.
  intros Hd.
  assert (Hins : ∀ tr0 ds0, DataSet.__init__ fs f = (tr0, inr ds0) →
    ∀ g ds, <[f := ds0]> d !! g = Some ds → ∃ tr, DataSet.__init__ fs g = (tr, inr ds)).
  { intros tr0 ds0 Hinit g ds. destruct (decide (f = g)) as [<- | Hne].
    - rewrite lookup_insert_eq. intros [= <-]. by eexists.
    - rewrite lookup_insert_ne by done. apply Hd. }
  assert (Hdel : ∀ d' : gmap string DataSet.t, (∀ g ds, d' !! g = Some ds → ∃ tr, DataSet.__init__ fs g = (tr, inr ds)) →
    ∀ g ds, (if cache then d' else delete f d') !! g = Some ds →
            ∃ tr, DataSet.__init__ fs g = (tr, inr ds)).
  { intros d' Hd' g ds. destruct cache; [apply Hd' |].
    intros [_ Hlook]%lookup_delete_Some. by apply Hd'. }
  unfold turn, answer. destruct (d !! f) as [ds |] eqn:Hlook.
  - destruct (Hd f ds Hlook) as [tr0 Hinit]. rewrite Hinit. simpl.
    destruct (query f ds) as [trq [e | part]]; simpl; (split; [| done]).
    + apply Hd.
    + by apply Hdel.
  - destruct (DataSet.__init__ fs f) as [tr0 [e | ds]] eqn:Hinit; simpl; [by split |].
    destruct (query f ds) as [trq [e | part]]; simpl; (split; [| done]).
    + by eapply Hins.
    + apply Hdel. by eapply Hins.
Qed.

Lemma loop_of_disc (fs : filesystem) (query : string → DataSet.t → io DataFrame)
    (c1 c2 : bool) (files : list string) (acc : DataFrame) (d1 d2 : gmap string DataSet.t) :
  (∀ g ds, d1 !! g = Some ds → ∃ tr, DataSet.__init__ fs g = (tr, inr ds)) →
  (∀ g ds, d2 !! g = Some ds → ∃ tr, DataSet.__init__ fs g = (tr, inr ds)) →
  snd (snd (ld_fold (turn fs query c1) acc files d1))
  = snd (snd (ld_fold (turn fs query c2) acc files d2)) ∧
  (∀ g ds, fst (ld_fold (turn fs query c1) acc files d1) !! g = Some ds →
           ∃ tr, DataSet.__init__ fs g = (tr, inr ds)).
Proof.
  revert acc d1 d2. induction files as [| f files IH]; intros acc d1 d2 H1 H2; [done |].
  rewrite !ld_fold_cons.
  destruct (turn_of_disc fs query c1 acc f d1 H1) as [H1' Hout1].
  destruct (turn_of_disc fs query c2 acc f d2 H2) as [H2' Hout2].
  rewrite <- Hout1 in Hout2.
  destruct (turn fs query c1 acc f d1) as [d1' [tr1 [e1 | acc1]]];
    destruct (turn fs query c2 acc f d2) as [d2' [tr2 [e2 | acc2]]];
    simpl in *; try discriminate.
  - split; [by rewrite Hout2 | done].
  - injection Hout2 as ->.
    destruct (IH acc1 d1' d2' H1' H2') as [Hsame Hcons].
    destruct (ld_fold _ acc1 files d1') as [d1'' [tr1' r1]].
    destruct (ld_fold _ acc1 files d2') as [d2'' [tr2' r2]]. by simpl in *.
Qed.

(** X16. The cache does not change what a call returns or raises, as long as
    it holds for a file the dataset the constructor makes of the file, as
    every cache does that the loader has filled from an unchanged disc:
    from two such caches and with and without caching, a call for the same
    files and the same query has the same result; and the call leaves
    such a cache. *)
Theorem result_independent_of_cache (fs : filesystem) (files : list string)
    (d1 d2 : gmap string DataSet.t) :
  (∀ g ds, d1 !! g = Some ds → ∃ tr, DataSet.__init__ fs g = (tr, inr ds)) →
  (∀ g ds, d2 !! g = Some ds → ∃ tr, DataSet.__init__ fs g = (tr, inr ds)) →
  (∀ lat lon var_long c1 c2 as_numpy,
     outcome (time_series fs files lat lon var_long c1 as_numpy d1)
     = outcome (time_series fs files lat lon var_long c2 as_numpy d2) ∧
     ∀ g ds, final_cache (time_series fs files lat lon var_long c1 as_numpy d1) !! g = Some ds →
             ∃ tr, DataSet.__init__ fs g = (tr, inr ds)) ∧
  (∀ time var_long c1 c2,
     outcome (time_slice_daily fs files time var_long c1 d1)
     = outcome (time_slice_daily fs files time var_long c2 d2) ∧
     ∀ g ds, final_cache (time_slice_daily fs files time var_long c1 d1) !! g = Some ds →
             ∃ tr, DataSet.__init__ fs g = (tr, inr ds)).
Proof.
  intros H1 H2. split.
  - intros lat lon var_long c1 c2 as_numpy.
    destruct (time_series_parts fs files lat lon var_long c1 as_numpy d1) as (Hc1 & _ & Ho1).
    destruct (time_series_parts fs files lat lon var_long c2 as_numpy d2) as (_ & _ & Ho2).
    destruct (loop_of_disc fs (series_query lat lon var_long) c1 c2 files empty_frame
                d1 d2 H1 H2) as [Hsame Hcons].
    rewrite Ho1, Ho2, Hc1, Hsame. by split.
  - intros time var_long c1 c2. rewrite !time_slice_daily_turns.
    apply (loop_of_disc fs (slice_query time var_long) c1 c2 files empty_frame d1 d2 H1 H2).
Qed.

(** The file of two days, named twice: from the empty cache without
    caching, and from a cache that has the file with caching. *)
Lemma result_independent_of_cache_day :
  outcome (time_series Example.disc ["day.nc4"; "day.nc4"] 32.5 35 ["total_precipitation"]
             false false ∅)
  = outcome (time_series Example.disc ["day.nc4"; "day.nc4"] 32.5 35 ["total_precipitation"]
               true false (<["day.nc4" := Example.day]> ∅)) ∧
  ∀ g ds,
    final_cache (time_series Example.disc ["day.nc4"; "day.nc4"] 32.5 35
                   ["total_precipitation"] false false ∅) !! g = Some ds →
    ∃ tr, DataSet.__init__ Example.disc g = (tr, inr ds).
Proof.
  apply (proj1 (result_independent_of_cache Example.disc ["day.nc4"; "day.nc4"] ∅
                  (<["day.nc4" := Example.day]> ∅)
                  ltac:(intros g ds Hg; by rewrite lookup_empty in Hg)
                  ltac:(intros g ds [[<- <-] | [_ Hg]]%lookup_insert_Some;
                        [eexists; vm_compute; reflexivity | by rewrite lookup_empty in Hg]))).
Defined.

End cache_extras.
